(** * IMScraperWeb: the asynchronous enrichment worker

    A shallow embedding of [background_worker.py] (the worker) and of
    the routes of [app.py] (the front end), with the properties stated
    about them.

    Conventions of the embedding.

    - A Python [str] is a [string] read as a sequence of code points
      below 256; [str.lower], [str.strip] and [str.isspace] are modelled
      on that range as CPython defines them.
    - Time is [Q], in seconds: [time.time()] reads the [clock] of the
      state, and every [await] of a request or of [asyncio.sleep]
      advances it.  Rounding of binary floating point is not modelled.
    - A [dict] with computed keys (a result record, a status record) is
      a [gmap string json]; a [dict] with a fixed set of literal keys is
      a record.
    - A coroutine is a computation in [SM R S]: it reads [R], threads
      [S], and ends with a value, with an exception that
      [except Exception] catches, or cancelled.  Network coroutines
      ([N]) read the replies of the network and the deadline installed
      by [asyncio.wait_for]; they thread the clock, the count of
      requests sent, the three rate limiters, and a trace of what was
      awaited.  The job processor ([M]) reads the network, the faults of
      the disk, and what the front end asks for; it threads the files,
      the list [results], and a journal of its writes.
    - A file is what one of the writers of the program puts in it: a
      descriptor, a status record or a spreadsheet.  The listing of a
      directory and the times of last modification are given from
      outside.
    - Left out: logging, the headers, parameters and payloads of the
      requests (a request is its endpoint and its target), the [str]
      rendering of spreadsheet cells, the time of creation in a
      descriptor, and of the main loop the heartbeat, the sleep between
      two turns and the renaming of a job file that is not JSON. *)

From Stdlib Require Import QArith Lqa ZArith Lia List String Ascii Bool Sorted.
From stdpp Require Import gmap strings.

Set Warnings "-register-all".

(** * Python strings *)

Module Str.

Definition isspace (c : ascii) : bool :=
  let n := N_of_ascii c in
  ((9 <=? n) && (n <=? 13) || (28 <=? n) && (n <=? 32)
   || (n =? 133) || (n =? 160))%N.

Definition is_upper (c : ascii) : bool :=
  let n := N_of_ascii c in
  ((65 <=? n) && (n <=? 90)
   || (192 <=? n) && (n <=? 222) && negb (n =? 215))%N.

Definition lower_char (c : ascii) : ascii :=
  if is_upper c then ascii_of_N (N_of_ascii c + 32) else c.

(** [s.lower()] *)
Fixpoint lower (s : string) : string :=
  match s with
  | EmptyString => EmptyString
  | String c s' => String (lower_char c) (lower s')
  end.

(** [s.lstrip()] *)
Fixpoint lstrip (s : string) : string :=
  match s with
  | EmptyString => EmptyString
  | String c s' => if isspace c then lstrip s' else s
  end.

(** [s.rstrip()] *)
Fixpoint rstrip (s : string) : string :=
  match s with
  | EmptyString => EmptyString
  | String c s' =>
      match rstrip s' with
      | EmptyString => if isspace c then EmptyString else String c EmptyString
      | r => String c r
      end
  end.

(** [s.strip()] *)
Definition strip (s : string) : string := rstrip (lstrip s).

(** The rest of [s] after the prefix [p], when [s] starts with [p]. *)
Fixpoint strip_prefix (p s : string) : option string :=
  match p with
  | EmptyString => Some s
  | String a p' =>
      match s with
      | String b s' => if Ascii.eqb a b then strip_prefix p' s' else None
      | EmptyString => None
      end
  end.

(** [s.startswith(p)] *)
Definition startswith (p s : string) : bool :=
  match strip_prefix p s with Some _ => true | None => false end.

(** [s.split(c)[0]]: the part of [s] before the first [c]. *)
Fixpoint split_first (c : ascii) (s : string) : string :=
  match s with
  | EmptyString => EmptyString
  | String a s' => if Ascii.eqb a c then EmptyString else String a (split_first c s')
  end.

(** [re.split(r'[...]', s)[0]] for a character class given as a predicate. *)
Fixpoint split_first_of (sep : ascii -> bool) (s : string) : string :=
  match s with
  | EmptyString => EmptyString
  | String a s' => if sep a then EmptyString else String a (split_first_of sep s')
  end.

(** [s.split(c)], all the pieces. *)
Fixpoint split (c : ascii) (s : string) : list string :=
  match s with
  | EmptyString => [EmptyString]
  | String a s' =>
      match split c s' with
      | p :: ps => if Ascii.eqb a c then EmptyString :: p :: ps else String a p :: ps
      | [] => [EmptyString]
      end
  end.

(** [all(P(c) for c in s)] *)
Fixpoint all_chars (P : ascii -> bool) (s : string) : bool :=
  match s with
  | EmptyString => true
  | String c s' => P c && all_chars P s'
  end.

Definition nonempty (s : string) : bool :=
  match s with EmptyString => false | _ => true end.

End Str.

(** * URL normalization *)

(** [re.sub(r'^(http://|https://)', '', s)]: the pattern is anchored, so at
    most one scheme is removed, at the start. *)
Definition re_sub_scheme (s : string) : string :=
  match Str.strip_prefix "http://" s with
  | Some r => r
  | None =>
      match Str.strip_prefix "https://" s with
      | Some r => r
      | None => s
      end
  end.

(** [url.startswith(('http://', 'https://'))] *)
Definition has_scheme (url : string) : bool :=
  Str.startswith "http://" url || Str.startswith "https://" url.

Definition normalize_url (url : string) : string :=
  let url := if has_scheme url then url else "http://" +:+ url in
  let parsed_url := re_sub_scheme (Str.lower (Str.strip url)) in
  let domain :=
    Str.split_first "#" (Str.split_first "?" (Str.split_first "/" parsed_url)) in
  "http://" +:+ domain.

(** * JSON values and Python's operations on them *)

Inductive json : Type :=
| JNull
| JBool (b : bool)
| JNum (q : Q)
| JStr (s : string)
| JArr (items : list json)
| JObj (fields : list (string * json)).

(** The sentinel of the report. *)
Definition NA : json := JStr "N/A".

Definition jnat (n : nat) : json := JNum (inject_Z (Z.of_nat n)).

(** The exceptions below [Exception] that the worker can meet. *)
Inductive exn : Type :=
| TimeoutError
| ClientError
| ContentTypeError
| AttributeError
| KeyError
| IndexError
| TypeError
| ValueError
| OSError.

(** How a coroutine ends: with a value, with an exception that
    [except Exception] catches, or cancelled ([asyncio.CancelledError] is
    a [BaseException], which [except Exception] lets through). *)
Inductive outcome (A : Type) : Type :=
| Ok (a : A)
| Raise (e : exn)
| Cancelled.

Arguments Ok {A} a.
Arguments Raise {A} e.
Arguments Cancelled {A}.

Fixpoint assoc (k : string) (fields : list (string * json)) : option json :=
  match fields with
  | [] => None
  | (k', v) :: rest => if String.eqb k k' then Some v else assoc k rest
  end.

(** [d.get(k, default)] *)
Definition py_get (d : json) (k : string) (default : json) : outcome json :=
  match d with
  | JObj fields =>
      match assoc k fields with
      | Some v => Ok v
      | None => Ok default
      end
  | _ => Raise AttributeError
  end.

(** [d[k]] for a string key *)
Definition py_item (d : json) (k : string) : outcome json :=
  match d with
  | JObj fields =>
      match assoc k fields with
      | Some v => Ok v
      | None => Raise KeyError
      end
  | _ => Raise TypeError
  end.

(** [d[0]] *)
Definition py_first (d : json) : outcome json :=
  match d with
  | JArr (x :: _) => Ok x
  | JArr [] => Raise IndexError
  | JStr (String c _) => Ok (JStr (String c EmptyString))
  | JStr EmptyString => Raise IndexError
  | JObj _ => Raise KeyError
  | _ => Raise TypeError
  end.

(** Truth value of [v] in a condition *)
Definition truthy (v : json) : bool :=
  match v with
  | JNull => false
  | JBool b => b
  | JNum q => negb (Qeq_bool q 0)
  | JStr s => Str.nonempty s
  | JArr items => match items with [] => false | _ => true end
  | JObj fields => match fields with [] => false | _ => true end
  end.

(** [v == s] for a string literal [s] *)
Definition py_eq_str (v : json) (s : string) : bool :=
  match v with
  | JStr s' => String.eqb s' s
  | _ => false
  end.

(** [v == n] for an integer literal [n] *)
Definition py_eq_int (v : json) (n : Z) : bool :=
  match v with
  | JNum q => Qeq_bool q (inject_Z n)
  | JBool b => Qeq_bool (if b then 1 else 0) (inject_Z n)
  | _ => false
  end.

(** [if not api_key] is false exactly for a non-empty string. *)
Definition key_given (api_key : option string) : bool :=
  match api_key with
  | Some s => Str.nonempty s
  | None => false
  end.

Definition Qltb (x y : Q) : bool := negb (Qle_bool y x).

(** * Coroutines *)

Section SM.
Context {R S : Type}.

(** A computation reads [R], threads [S] and ends in an [outcome]. *)
Definition SM (A : Type) : Type := R -> S -> outcome A * S.

Definition ret {A} (a : A) : SM A := fun _ s => (Ok a, s).

Definition raise {A} (e : exn) : SM A := fun _ s => (Raise e, s).

Definition bind {A B} (m : SM A) (f : A -> SM B) : SM B :=
  fun r s =>
    match m r s with
    | (Ok a, s') => f a r s'
    | (Raise e, s') => (Raise e, s')
    | (Cancelled, s') => (Cancelled, s')
    end.

(** [try: m / except Exception as e: h e] *)
Definition try_except {A} (m : SM A) (h : exn -> SM A) : SM A :=
  fun r s =>
    match m r s with
    | (Raise e, s') => h e r s'
    | res => res
    end.

Definition lift {A} (o : outcome A) : SM A := fun _ s => (o, s).

Definition gets {A} (f : S -> A) : SM A := fun _ s => (Ok (f s), s).

Definition modify (f : S -> S) : SM unit := fun _ s => (Ok tt, f s).

End SM.

Arguments SM : clear implicits.

Notation "x <- m ;; k" := (bind m (fun x => k))
  (at level 100, m at next level, right associativity, only parsing).

(** * The network and the clock *)

Definition DEFAULT_TIMEOUT : Q := 15.
Definition URL_TIMEOUT : Q := 30.

Inductive endpoint : Type :=
| StatusFetch
| HttpsProbe
| MajesticTopics
| AhrefsDomainRating
| AhrefsRefdomains
| AhrefsMetrics
| DfsBacklinks
| DfsTraffic.

(** What the client sees of a response: [response.status], and the value
    of [await response.json()] when the body parses. *)
Record response : Type := { status : Z; body : option json }.

Inductive wire : Type :=
| Refused
| Answered (r : response).

(** What the outside world does with one request: after how long it
    settles ([None]: never), and into what. *)
Record reply : Type := { latency : option Q; wire_of : wire }.

(** The replies, by the rank of the request among those the worker has
    sent, its endpoint and its target. *)
Definition NetEnv : Type := nat -> endpoint -> string -> reply.

(** What a coroutine was suspended on, from when to when: a request, or
    the sleep of a rate limiter. *)
Inductive event : Type :=
| ENet (ep : endpoint) (target : string) (t_start t_end : Q)
| ESleep (t_start t_end : Q).

(** [RateLimiter]; the [asyncio.Lock] is left out, see [wait_if_needed]. *)
Record RateLimiter : Type := {
  calls_per_unit : Z;
  unit_time : Q;
  calls : list Q
}.

Inductive limiter_id : Type := Ahrefs | Majestic | DataForSEO.

Record NetState : Type := {
  clock : Q;
  seq : nat;
  ahrefs_limiter : RateLimiter;
  majestic_limiter : RateLimiter;
  dataforseo_limiter : RateLimiter;
  trace : list event
}.

Record Ctx : Type := { net : NetEnv; deadline : option Q }.

(** Coroutines that talk to the network. *)
Abbreviation N := (SM Ctx NetState).

Definition set_clock (t : Q) (s : NetState) : NetState :=
  {| clock := t; seq := seq s;
     ahrefs_limiter := ahrefs_limiter s;
     majestic_limiter := majestic_limiter s;
     dataforseo_limiter := dataforseo_limiter s;
     trace := trace s |}.

Definition next_seq (s : NetState) : NetState :=
  {| clock := clock s; seq := S (seq s);
     ahrefs_limiter := ahrefs_limiter s;
     majestic_limiter := majestic_limiter s;
     dataforseo_limiter := dataforseo_limiter s;
     trace := trace s |}.

Definition log (e : event) (s : NetState) : NetState :=
  {| clock := clock s; seq := seq s;
     ahrefs_limiter := ahrefs_limiter s;
     majestic_limiter := majestic_limiter s;
     dataforseo_limiter := dataforseo_limiter s;
     trace := trace s ++ [e] |}.

Definition limiter (id : limiter_id) (s : NetState) : RateLimiter :=
  match id with
  | Ahrefs => ahrefs_limiter s
  | Majestic => majestic_limiter s
  | DataForSEO => dataforseo_limiter s
  end.

Definition set_limiter (id : limiter_id) (l : RateLimiter) (s : NetState) : NetState :=
  {| clock := clock s; seq := seq s;
     ahrefs_limiter := match id with Ahrefs => l | _ => ahrefs_limiter s end;
     majestic_limiter := match id with Majestic => l | _ => majestic_limiter s end;
     dataforseo_limiter := match id with DataForSEO => l | _ => dataforseo_limiter s end;
     trace := trace s |}.

Definition set_calls (cs : list Q) (l : RateLimiter) : RateLimiter :=
  {| calls_per_unit := calls_per_unit l; unit_time := unit_time l; calls := cs |}.

(** [time.time()] *)
Definition time_time : N Q := gets clock.

(** An [await] that takes [d] seconds.  It ends after [d], or at the
    deadline of the enclosing [asyncio.wait_for] when that comes first:
    the coroutine is cancelled there. *)
Definition suspend (mk : Q -> Q -> event) (d : Q) : N unit :=
  fun c s =>
    let t0 := clock s in
    match deadline c with
    | Some D =>
        if Qltb D (t0 + d)%Q
        then (Cancelled, log (mk t0 D) (set_clock D s))
        else (Ok tt, log (mk t0 (t0 + d)%Q) (set_clock (t0 + d)%Q s))
    | None => (Ok tt, log (mk t0 (t0 + d)%Q) (set_clock (t0 + d)%Q s))
    end.

(** [await asyncio.sleep(d)] *)
Definition sleep (d : Q) : N unit := suspend ESleep d.

(** What the client makes of a reply under its own [timeout]: a reply
    that takes longer, or never comes, raises after [timeout] seconds. *)
Definition settle (timeout : Q) (r : reply) : Q * outcome response :=
  match latency r with
  | Some l =>
      if Qle_bool l timeout
      then (l, match wire_of r with
               | Refused => Raise ClientError
               | Answered resp => Ok resp
               end)
      else (timeout, Raise TimeoutError)
  | None => (timeout, Raise TimeoutError)
  end.

(** [async with session.get(...)] / [session.post(...)] with [timeout=] *)
Definition http (ep : endpoint) (target : string) (timeout : Q) : N response :=
  rep <- (fun c s => (Ok (net c (seq s) ep target), next_seq s)) ;;
  _ <- suspend (ENet ep target) (fst (settle timeout rep)) ;;
  lift (snd (settle timeout rep)).

(** [await response.json()] *)
Definition response_json (resp : response) : N json :=
  match body resp with
  | Some data => ret data
  | None => raise ContentTypeError
  end.

(** [asyncio.wait_for(m, timeout)]: [m] runs under a deadline [timeout]
    seconds from now; when it is cancelled there, [TimeoutError] is
    raised in the caller. *)
Definition wait_for {A} (m : N A) (timeout : Q) : N A :=
  fun c s =>
    match m {| net := net c; deadline := Some (clock s + timeout)%Q |} s with
    | (Cancelled, s') => (Raise TimeoutError, s')
    | res => res
    end.

(** * RateLimiter *)

(** [RateLimiter.wait_if_needed].  The worker awaits its coroutines one
    after the other, so the lock is free whenever this is entered; it is
    not modelled. *)
Definition wait_if_needed (id : limiter_id) : N unit :=
  self <- gets (limiter id) ;;
  now <- time_time ;;
  let kept :=
    List.filter (fun call_time => Qltb (now - call_time)%Q (unit_time self)) (calls self) in
  _ <- modify (set_limiter id (set_calls kept self)) ;;
  _ <- (if (calls_per_unit self <=? Z.of_nat (length kept))%Z
        then
          match kept with
          | [] => raise IndexError
          | first :: _ =>
              let sleep_time := (first + unit_time self - now)%Q in
              _ <- (if Qltb 0 sleep_time then sleep sleep_time else ret tt) ;;
              modify (fun s =>
                set_limiter id (set_calls (tail (calls (limiter id s))) (limiter id s)) s)
          end
        else ret tt) ;;
  modify (fun s =>
    set_limiter id (set_calls (calls (limiter id s) ++ [now]) (limiter id s)) s).

(** * Source adapters *)

(** [re.sub(r'^(https?://)?(www\.)?', '', s)] *)
Definition re_sub_scheme_www (s : string) : string :=
  let s := re_sub_scheme s in
  match Str.strip_prefix "www." s with
  | Some r => r
  | None => s
  end.

(** The rest of [s] after a prefix that equals the lower-case [p] up to
    letter case, as a pattern compiled with [re.IGNORECASE] matches it. *)
Fixpoint strip_prefix_ci (p s : string) : option string :=
  match p with
  | EmptyString => Some s
  | String a p' =>
      match s with
      | String b s' =>
          if Ascii.eqb a (Str.lower_char b) then strip_prefix_ci p' s' else None
      | EmptyString => None
      end
  end.

(** [re.sub(r'^https?://', '', s, flags=re.IGNORECASE)] *)
Definition re_sub_scheme_ci (s : string) : string :=
  match strip_prefix_ci "http://" s with
  | Some r => r
  | None =>
      match strip_prefix_ci "https://" s with
      | Some r => r
      | None => s
      end
  end.

(** The body of [async with session.get(...) as response] in
    [get_majestic_data]. *)
Definition majestic_topic (response : response) : N json :=
  if negb (status response =? 200)%Z then ret NA else
  data <- response_json response ;;
  code <- lift (py_get data "Code" JNull) ;;
  if negb (py_eq_str code "OK") then ret NA else
  tables <- lift (py_get data "DataTables" (JObj [])) ;;
  topics <- lift (py_get tables "Topics" (JObj [])) ;;
  topics <- lift (py_get topics "Data" (JArr [])) ;;
  if truthy topics
  then (first <- lift (py_first topics) ;; lift (py_get first "Topic" NA))
  else ret NA.

(** [cleaned_url] of [get_majestic_data] *)
Definition majestic_domain (url : string) : string :=
  Str.split_first "/" (re_sub_scheme_www (Str.lower (Str.strip url))).

Definition get_majestic_data (url : string) (api_key : option string) : N json :=
  if negb (key_given api_key) then ret NA else
  let cleaned_url := majestic_domain url in
  try_except
    (_ <- wait_if_needed Majestic ;;
     response <- http MajesticTopics cleaned_url DEFAULT_TIMEOUT ;;
     majestic_topic response)
    (fun _ => ret NA).

(** The dict [{"dr": .., "refdomains": .., "traffic": ..}] *)
Record ahrefs_result : Type := {
  a_dr : json;
  a_refdomains : json;
  a_traffic : json
}.

Definition ahrefs_na : ahrefs_result :=
  {| a_dr := NA; a_refdomains := NA; a_traffic := NA |}.

(** The bodies of the three [async with session.get(...) as response]
    blocks of [get_ahrefs_data].  In each the assignment to [results] is
    the last statement, so the entry is the value the block computes, or
    stays "N/A" when the block is left early. *)
Definition ahrefs_domain_rating (response : response) : N json :=
  if (status response =? 200)%Z
  then (data <- response_json response ;;
        inner <- lift (py_get data "domain_rating" (JObj [])) ;;
        lift (py_get inner "domain_rating" NA))
  else ret NA.

Definition ahrefs_refdomains (response : response) : N json :=
  if (status response =? 200)%Z
  then (data <- response_json response ;;
        lift (py_get data "refdomains" NA))
  else ret NA.

Definition ahrefs_org_traffic (response : response) : N json :=
  if (status response =? 200)%Z
  then (data <- response_json response ;;
        metrics <- lift (py_get data "metrics" (JObj [])) ;;
        lift (py_get metrics "org_traffic" NA))
  else ret NA.

Definition get_ahrefs_data (url : string) (api_key : option string) : N ahrefs_result :=
  if negb (key_given api_key) then ret ahrefs_na else
  try_except
    (dr <-
       try_except
         (_ <- wait_if_needed Ahrefs ;;
          response <- http AhrefsDomainRating url DEFAULT_TIMEOUT ;;
          ahrefs_domain_rating response)
         (fun _ => ret NA) ;;
     refdomains <-
       try_except
         (_ <- wait_if_needed Ahrefs ;;
          response <- http AhrefsRefdomains url DEFAULT_TIMEOUT ;;
          ahrefs_refdomains response)
         (fun _ => ret NA) ;;
     traffic <-
       try_except
         (_ <- wait_if_needed Ahrefs ;;
          response <- http AhrefsMetrics url DEFAULT_TIMEOUT ;;
          ahrefs_org_traffic response)
         (fun _ => ret NA) ;;
     ret {| a_dr := dr; a_refdomains := refdomains; a_traffic := traffic |})
    (fun _ => ret ahrefs_na).

(** The dict [{"referring_domains": .., "traffic": .., "rank": ..}] *)
Record dataforseo_result : Type := {
  d_referring_domains : json;
  d_traffic : json;
  d_rank : json
}.

Definition dataforseo_na : dataforseo_result :=
  {| d_referring_domains := NA; d_traffic := NA; d_rank := NA |}.

Definition is_lower_alpha (c : ascii) : bool :=
  let n := N_of_ascii c in ((97 <=? n) && (n <=? 122))%N.

Definition is_lower_alnum (c : ascii) : bool :=
  let n := N_of_ascii c in
  ((97 <=? n) && (n <=? 122) || (48 <=? n) && (n <=? 57))%N.

(** [[a-z0-9]+(-[a-z0-9]+)*] *)
Definition label_ok (s : string) : bool :=
  forallb (fun piece => Str.nonempty piece && Str.all_chars is_lower_alnum piece)
          (Str.split "-" s).

(** [[a-z]{2,}] *)
Definition tld_ok (s : string) : bool :=
  (2 <=? String.length s)%nat && Str.all_chars is_lower_alpha s.

(** [s] without one final newline: [$] also matches just before it. *)
Fixpoint chomp (s : string) : string :=
  match s with
  | EmptyString => EmptyString
  | String c EmptyString => if Ascii.eqb c "010" then EmptyString else s
  | String c s' => String c (chomp s')
  end.

(** [re.match(r'^([a-z0-9]+(-[a-z0-9]+)*\.)+[a-z]{2,}$', s)] *)
Definition hostname_ok (s : string) : bool :=
  match rev (Str.split "." (chomp s)) with
  | tld :: label :: labels => tld_ok tld && forallb label_ok (label :: labels)
  | _ => false
  end.

(** The body of the backlinks block of [get_dataforseo_data]: the two
    assignments come last and the second cannot raise once the first has
    not, so the block yields both entries (referring domains, rank) or
    leaves both at "N/A". *)
Definition dataforseo_backlinks (backlinks_response : response) : N (json * json) :=
  if (status backlinks_response =? 200)%Z
  then (backlinks_data <- response_json backlinks_response ;;
        code <- lift (py_get backlinks_data "status_code" JNull) ;;
        if negb (py_eq_int code 20000) then ret (NA, NA) else
        tasks <- lift (py_get backlinks_data "tasks" JNull) ;;
        if negb (truthy tasks) then ret (NA, NA) else
        tasks <- lift (py_item backlinks_data "tasks") ;;
        task <- lift (py_first tasks) ;;
        result <- lift (py_item task "result") ;;
        backlinks_result <- lift (py_first result) ;;
        referring <- lift (py_get backlinks_result "referring_main_domains" NA) ;;
        rank <- lift (py_get backlinks_result "rank" NA) ;;
        ret (referring, rank))
  else ret (NA, NA).

(** The body of the traffic block of [get_dataforseo_data]. *)
Definition dataforseo_traffic (traffic_response : response) : N json :=
  if (status traffic_response =? 200)%Z
  then (traffic_data <- response_json traffic_response ;;
        code <- lift (py_get traffic_data "status_code" JNull) ;;
        if negb (py_eq_int code 20000) then ret NA else
        tasks <- lift (py_get traffic_data "tasks" JNull) ;;
        if negb (truthy tasks) then ret NA else
        tasks <- lift (py_item traffic_data "tasks") ;;
        task <- lift (py_first tasks) ;;
        result <- lift (py_get task "result" JNull) ;;
        if negb (truthy result) then ret NA else
        result <- lift (py_item task "result") ;;
        first_result <- lift (py_first result) ;;
        items <- lift (py_get first_result "items" JNull) ;;
        if negb (truthy items) then ret NA else
        items <- lift (py_item first_result "items") ;;
        first_item <- lift (py_first items) ;;
        metrics <- lift (py_get first_item "metrics" (JObj [])) ;;
        organic <- lift (py_get metrics "organic" (JObj [])) ;;
        lift (py_get organic "etv" NA))
  else ret NA.

(** [cleaned_domain] of [get_dataforseo_data] *)
Definition dataforseo_domain (url : string) : string :=
  let cleaned_domain := Str.strip (re_sub_scheme_ci url) in
  let cleaned_domain :=
    Str.split_first_of
      (fun c => Ascii.eqb c "/" || Ascii.eqb c "?" || Ascii.eqb c ":")
      cleaned_domain in
  Str.lower cleaned_domain.

Definition get_dataforseo_data (url : string) (api_key : option string)
  : N dataforseo_result :=
  if negb (key_given api_key) then ret dataforseo_na else
  match Str.split ":" (default EmptyString api_key) with
  | [login; password] =>
      let cleaned_domain := dataforseo_domain url in
      if negb (hostname_ok cleaned_domain) then ret dataforseo_na else
      backlinks <-
        try_except
          (_ <- wait_if_needed DataForSEO ;;
           backlinks_response <- http DfsBacklinks cleaned_domain DEFAULT_TIMEOUT ;;
           dataforseo_backlinks backlinks_response)
          (fun _ => ret (NA, NA)) ;;
      traffic <-
        try_except
          (_ <- wait_if_needed DataForSEO ;;
           traffic_response <- http DfsTraffic cleaned_domain DEFAULT_TIMEOUT ;;
           dataforseo_traffic traffic_response)
          (fun _ => ret NA) ;;
      ret {| d_referring_domains := fst backlinks;
             d_traffic := traffic;
             d_rank := snd backlinks |}
  | _ => ret dataforseo_na
  end.

(** [re.sub(r'^http://', 'https://', url, flags=re.IGNORECASE)] *)
Definition to_https (url : string) : string :=
  match strip_prefix_ci "http://" url with
  | Some r => "https://" +:+ r
  | None => url
  end.

Definition check_https (url : string) : N json :=
  try_except
    (let https_url := to_https url in
     response <- http HttpsProbe https_url 10 ;;
     ret (if (status response =? 200)%Z then JStr "Yes" else JStr "No"))
    (fun _ => ret (JStr "No")).

(** * URLEnricher *)

(** The three credentials a job passes down; [None] is Python's [None]. *)
Record api_keys : Type := {
  majestic_api_key : option string;
  ahrefs_api_key : option string;
  dataforseo_api_key : option string
}.

(** The record of a URL whose enrichment gave nothing: [status] in the
    status-code field and "N/A" in every other field; the sources are
    those whose switch is on. *)
Definition blank_result (url : string) (status : json)
    (majestic ahrefs dataforseo : bool) : gmap string json :=
  let result : gmap string json :=
    <["secure" := NA]> (<["status_code" := status]> (<["url" := JStr url]> ∅)) in
  let result :=
    if majestic then <["majestic_topics" := NA]> result else result in
  let result :=
    if ahrefs
    then <["ahrefs_traffic" := NA]>
           (<["ahrefs_refdomains" := NA]> (<["ahrefs_dr" := NA]> result))
    else result in
  if dataforseo
  then <["dataforseo_rank" := NA]>
         (<["dataforseo_traffic" := NA]>
            (<["dataforseo_referring_domains" := NA]> result))
  else result.

Definition process_url (url : string) (keys : api_keys) : N (gmap string json) :=
  let normalized_url := normalize_url url in
  try_except
    (status_code <-
       try_except
         (response <- http StatusFetch normalized_url 10 ;;
          ret (JNum (inject_Z (status response))))
         (fun _ => ret NA) ;;
     secure_result <-
       try_except (check_https normalized_url) (fun _ => ret NA) ;;
     majestic_result <-
       (if key_given (majestic_api_key keys)
        then try_except
               (get_majestic_data normalized_url (majestic_api_key keys))
               (fun _ => ret NA)
        else ret NA) ;;
     ahrefs_result <-
       (if key_given (ahrefs_api_key keys)
        then try_except
               (get_ahrefs_data normalized_url (ahrefs_api_key keys))
               (fun _ => ret ahrefs_na)
        else ret ahrefs_na) ;;
     dataforseo_result <-
       (if key_given (dataforseo_api_key keys)
        then try_except
               (get_dataforseo_data normalized_url (dataforseo_api_key keys))
               (fun _ => ret dataforseo_na)
        else ret dataforseo_na) ;;
     let result : gmap string json :=
       <["secure" := secure_result]>
         (<["status_code" := status_code]> (<["url" := JStr normalized_url]> ∅)) in
     let result :=
       if key_given (majestic_api_key keys)
       then <["majestic_topics" := majestic_result]> result
       else result in
     let result :=
       if key_given (ahrefs_api_key keys)
       then <["ahrefs_traffic" := a_traffic ahrefs_result]>
              (<["ahrefs_refdomains" := a_refdomains ahrefs_result]>
                 (<["ahrefs_dr" := a_dr ahrefs_result]> result))
       else result in
     let result :=
       if key_given (dataforseo_api_key keys)
       then <["dataforseo_rank" := d_rank dataforseo_result]>
              (<["dataforseo_traffic" := d_traffic dataforseo_result]>
                 (<["dataforseo_referring_domains" :=
                      d_referring_domains dataforseo_result]> result))
       else result in
     ret result)
    (fun _ =>
       ret (blank_result normalized_url NA
              (key_given (majestic_api_key keys))
              (key_given (ahrefs_api_key keys))
              (key_given (dataforseo_api_key keys)))).

Definition process_url_with_timeout (url : string) (keys : api_keys)
  : N (gmap string json) :=
  try_except
    (wait_for (process_url url keys) URL_TIMEOUT)
    (fun e =>
       match e with
       | TimeoutError =>
           ret (blank_result url (JStr "Timeout")
                  (key_given (majestic_api_key keys))
                  (key_given (ahrefs_api_key keys))
                  (key_given (dataforseo_api_key keys)))
       | _ => raise e
       end).

(** * Exporter *)

(** The spreadsheet: its header row and its rows of cells.  The cells
    hold the values; their rendering by [str] is not modelled.  The
    document is built in memory, where no [OSError] arises, so the
    retry decorator around [export_to_ods] never retries; it is
    modelled apart, as [retry_on_os_error]. *)
Record sheet : Type := {
  header_row : list string;
  body_rows : list (list json)
}.

Definition export_headers (use_majestic use_ahrefs use_dataforseo : bool)
  : list string :=
  ["URL"; "Status Code"]
  ++ (if use_majestic then ["Majestic Topics"] else [])
  ++ (if use_ahrefs
      then ["Ahrefs Referring Domains"; "Ahrefs Traffic"; "Ahrefs Domain Rating"]
      else [])
  ++ (if use_dataforseo
      then ["DataForSEO Referring Domains"; "DataForSEO Traffic"; "DataForSEO Rank"]
      else [])
  ++ ["HTTPS"].

Definition key_map : gmap string string :=
  list_to_map
    [ ("URL", "url");
      ("Status Code", "status_code");
      ("Majestic Topics", "majestic_topics");
      ("Ahrefs Referring Domains", "ahrefs_refdomains");
      ("Ahrefs Traffic", "ahrefs_traffic");
      ("Ahrefs Domain Rating", "ahrefs_dr");
      ("DataForSEO Referring Domains", "dataforseo_referring_domains");
      ("DataForSEO Traffic", "dataforseo_traffic");
      ("DataForSEO Rank", "dataforseo_rank");
      ("HTTPS", "secure") ].

Definition export_to_ods (results : list (gmap string json))
    (use_majestic use_ahrefs use_dataforseo : bool) : sheet :=
  let headers := export_headers use_majestic use_ahrefs use_dataforseo in
  {| header_row := headers;
     body_rows :=
       map (fun result : gmap string json =>
              map (fun header =>
                     default NA (result !! default EmptyString (key_map !! header)))
                  headers)
           results |}.

(** * JobProcessor *)

(** The job descriptor, as [submit_job] writes it. *)
Record JobData : Type := {
  urls : list string;
  use_majestic : bool;
  use_ahrefs : bool;
  use_dataforseo : bool;
  credentials : api_keys
}.

Inductive file : Type :=
| FDescriptor (job_data : JobData)
| FStatus (status_data : gmap string json)
| FSheet (doc : sheet).

Definition job_path (job_id : string) : string := "jobs/" +:+ job_id +:+ ".json".
Definition status_path (job_id : string) : string := "jobs/" +:+ job_id +:+ ".status".
Definition result_path (job_id : string) : string := "results/" +:+ job_id +:+ ".ods".

(** The statement of [process_job] that writes a file. *)
Inductive write_site : Type :=
| Claim
| Progress
| SaveResult
| Completion
| Failure.

(** What lies outside the worker: the network, the disk (whether the
    write of a given rank succeeds), whether the HTTP session can be
    set up, and the front end (whether [cancel_job] is called once a
    given number of URLs are done). *)
Record Env : Type := {
  network : NetEnv;
  disk_ok : nat -> bool;
  session_ok : bool;
  cancel_request : nat -> bool
}.

Record JobState : Type := {
  net_state : NetState;
  fs : gmap string file;
  disk_writes : nat;
  results : option (list (gmap string json));
  journal : list (write_site * file)
}.

(** The coroutines of the job processor. *)
Abbreviation M := (SM Env JobState).

Definition set_net_state (ns : NetState) (st : JobState) : JobState :=
  {| net_state := ns; fs := fs st; disk_writes := disk_writes st;
     results := results st; journal := journal st |}.

Definition set_fs (f : gmap string file) (st : JobState) : JobState :=
  {| net_state := net_state st; fs := f; disk_writes := disk_writes st;
     results := results st; journal := journal st |}.

Definition set_results (rs : option (list (gmap string json))) (st : JobState)
  : JobState :=
  {| net_state := net_state st; fs := fs st; disk_writes := disk_writes st;
     results := rs; journal := journal st |}.

(** The worker awaits a network coroutine; no deadline is in force
    around [process_job]. *)
Definition run_net {A} (m : N A) : M A :=
  fun env st =>
    match m {| net := network env; deadline := None |} (net_state st) with
    | (res, ns) => (res, set_net_state ns st)
    end.

(** [with open(path, 'w') as f: ...]: the file is replaced, or [OSError]
    is raised and the file is as before. *)
Definition write_file (site : write_site) (path : string) (content : file) : M unit :=
  fun env st =>
    if disk_ok env (disk_writes st)
    then (Ok tt,
          {| net_state := net_state st;
             fs := <[path := content]> (fs st);
             disk_writes := S (disk_writes st);
             results := results st;
             journal := journal st ++ [(site, content)] |})
    else (Raise OSError,
          {| net_state := net_state st; fs := fs st;
             disk_writes := S (disk_writes st);
             results := results st; journal := journal st |}).

(** [aiohttp.TCPConnector(...)] and [aiohttp.ClientSession(...)] *)
Definition open_session : M unit :=
  fun env st => if session_ok env then (Ok tt, st) else (Raise OSError, st).

(** [results.append(result)] *)
Definition append_result (result : gmap string json) : M unit :=
  modify (fun st => set_results (Some (default [] (results st) ++ [result])) st).

(** [cancel_job] of the front end, on the files of one job. *)
Definition cancel_job (job_id : string) (files : gmap string file) : gmap string file :=
  let files :=
    match files !! job_path job_id with
    | Some _ => delete (job_path job_id) files
    | None => files
    end in
  match files !! status_path job_id with
  | Some (FStatus status_data) =>
      if py_eq_str (default JNull (status_data !! "status")) "processing"
      then <[status_path job_id :=
               FStatus (<["status" := JStr "cancelled"]> status_data)]> files
      else files
  | _ => files
  end.

(** The front end is another process: where the environment says so, it
    runs [cancel_job] between two URLs, after the progress of the
    [done]-th URL is written. *)
Definition front_end (job_id : string) (done : nat) : M unit :=
  fun env st =>
    if cancel_request env done
    then (Ok tt, set_fs (cancel_job job_id (fs st)) st)
    else (Ok tt, st).

Definition is_error_status (v : option json) : bool :=
  match v with
  | Some x => py_eq_str x "Timeout" || py_eq_str x "Error" || py_eq_str x "N/A"
  | None => false
  end.

Definition exn_name (e : exn) : string :=
  match e with
  | TimeoutError => "TimeoutError"
  | ClientError => "ClientError"
  | ContentTypeError => "ContentTypeError"
  | AttributeError => "AttributeError"
  | KeyError => "KeyError"
  | IndexError => "IndexError"
  | TypeError => "TypeError"
  | ValueError => "ValueError"
  | OSError => "OSError"
  end.

(** The status record written after the [progress]-th URL. *)
Definition progress_status (progress total : nat) (elapsed : Q) : gmap string json :=
  let avg_time_per_url := (elapsed / inject_Z (Z.of_nat progress))%Q in
  let remaining_estimate :=
    (avg_time_per_url * inject_Z (Z.of_nat total - Z.of_nat progress))%Q in
  <["estimated_remaining_seconds" := JNum remaining_estimate]>
    (<["elapsed_seconds" := JNum elapsed]>
       (<["total" := jnat total]>
          (<["progress" := jnat progress]>
             (<["status" := JStr "processing"]> ∅)))).

(** One turn of [for i, url in enumerate(urls)]. *)
Definition url_step (job_id : string) (job_data : JobData) (keys : api_keys)
    (start_time : Q) (i : nat) (url : string) : M unit :=
  _ <- try_except
         (result <- run_net (process_url_with_timeout url keys) ;;
          append_result result)
         (fun _ =>
            append_result
              (blank_result url (JStr "Error")
                 (use_majestic job_data) (use_ahrefs job_data)
                 (use_dataforseo job_data))) ;;
  let progress := (i + 1)%nat in
  now <- gets (fun st => clock (net_state st)) ;;
  let elapsed := (now - start_time)%Q in
  _ <- write_file Progress (status_path job_id)
         (FStatus (progress_status progress (length (urls job_data)) elapsed)) ;;
  front_end job_id progress.

(** The turns of the loop from index [i] on. *)
Fixpoint url_loop (job_id : string) (job_data : JobData) (keys : api_keys)
    (start_time : Q) (i : nat) (todo : list string) : M unit :=
  match todo with
  | [] => ret tt
  | url :: rest =>
      _ <- url_step job_id job_data keys start_time i url ;;
      url_loop job_id job_data keys start_time (S i) rest
  end.

(** The status record of a finished job. *)
Definition completed_status (job_id : string) (total : nat)
    (results : list (gmap string json)) (total_duration : Q) : gmap string json :=
  let successful_urls :=
    length (List.filter
              (fun r : gmap string json => negb (is_error_status (r !! "status_code")))
              results) in
  let error_urls := (length results - successful_urls)%nat in
  <["download_url" := JStr ("/download_result/" +:+ job_id)]>
    (<["avg_time_per_url" :=
         JNum (if (0 <? total)%nat
               then (total_duration / inject_Z (Z.of_nat total))%Q
               else 0%Q)]>
       (<["duration_seconds" := JNum total_duration]>
          (<["errors" := jnat error_urls]>
             (<["successful" := jnat successful_urls]>
                (<["total" := jnat total]>
                   (<["progress" := jnat (length results)]>
                      (<["status" := JStr "completed"]> ∅))))))).

(** The credentials [process_job] passes down: that of a source that is
    switched off is [None]. *)
Definition job_keys (job_data : JobData) : api_keys :=
  {| majestic_api_key :=
       if use_majestic job_data then majestic_api_key (credentials job_data) else None;
     ahrefs_api_key :=
       if use_ahrefs job_data then ahrefs_api_key (credentials job_data) else None;
     dataforseo_api_key :=
       if use_dataforseo job_data
       then dataforseo_api_key (credentials job_data) else None |}.

(** The [try] block of [process_job]. *)
Definition job_body (job_id : string) (job_data : JobData) (start_time : Q) : M unit :=
  _ <- open_session ;;
  _ <- modify (set_results (Some [])) ;;
  _ <- url_loop job_id job_data (job_keys job_data) start_time 0 (urls job_data) ;;
  results <- gets (fun st => default [] (results st)) ;;
  let output :=
    export_to_ods results (use_majestic job_data) (use_ahrefs job_data)
      (use_dataforseo job_data) in
  _ <- write_file SaveResult (result_path job_id) (FSheet output) ;;
  now <- gets (fun st => clock (net_state st)) ;;
  let total_duration := (now - start_time)%Q in
  write_file Completion (status_path job_id)
    (FStatus (completed_status job_id (length (urls job_data)) results total_duration)).

(** The [except Exception as e] block of [process_job]. *)
Definition job_failed (job_id : string) (job_data : JobData) (e : exn) : M unit :=
  done <- gets (fun st =>
            match results st with
            | Some rs => length rs
            | None => 0%nat
            end) ;;
  write_file Failure (status_path job_id)
    (FStatus
       (<["total" := jnat (length (urls job_data))]>
          (<["progress" := jnat done]>
             (<["error" := JStr (exn_name e)]>
                (<["status" := JStr "error"]> ∅))))).

(** The status record that claims a job. *)
Definition claim_status (total : nat) : gmap string json :=
  <["total" := jnat total]>
    (<["progress" := jnat 0]> (<["status" := JStr "processing"]> ∅)).

(** [results] lives in the frame of the call: it is unbound on entry. *)
Definition process_job (job_id : string) (job_data : JobData) : M unit :=
  _ <- modify (set_results None) ;;
  start_time <- gets (fun st => clock (net_state st)) ;;
  _ <- write_file Claim (status_path job_id)
         (FStatus (claim_status (length (urls job_data)))) ;;
  try_except (job_body job_id job_data start_time) (job_failed job_id job_data).

(** * States to run from *)

(** The three limiters as the module creates them. *)
Definition fresh_limiter (calls_per_unit : Z) (unit_time : Q) : RateLimiter :=
  {| calls_per_unit := calls_per_unit; unit_time := unit_time; calls := [] |}.

Definition worker_start (t0 : Q) : NetState :=
  {| clock := t0; seq := 0;
     ahrefs_limiter := fresh_limiter 60 60;
     majestic_limiter := fresh_limiter 300 1;
     dataforseo_limiter := fresh_limiter 500 60;
     trace := [] |}.

(** A queued job: its descriptor is on disk, nothing else. *)
Definition queued (job_id : string) (job_data : JobData) (t0 : Q) : JobState :=
  {| net_state := worker_start t0;
     fs := {[ job_path job_id := FDescriptor job_data ]};
     disk_writes := 0;
     results := None;
     journal := [] |}.

(** * Notions the properties are stated with *)

(** ** Strings *)

Definition not_space (c : ascii) : bool := negb (Str.isspace c).

Definition lowered (c : ascii) : bool := Ascii.eqb (Str.lower_char c) c.

Definition not_sep (c : ascii) : bool :=
  negb (Ascii.eqb c "/") && negb (Ascii.eqb c "?") && negb (Ascii.eqb c "#").

(** [s] up to its first '/', '?' or '#'. *)
Definition cut (s : string) : string :=
  Str.split_first "#" (Str.split_first "?" (Str.split_first "/" s)).

(** ** Coroutines *)

(** A computation that never ends in an exception. *)
Definition unraised {R S A} (m : SM R S A) : Prop :=
  forall r s e s', m r s <> (Raise e, s').

(** A coroutine is [timed] when it is cancelled only at the deadline in
    force, on the instant. *)
Definition timed {A} (m : N A) : Prop :=
  forall c s s', m c s = (Cancelled, s') ->
    exists D, deadline c = Some D /\ clock s' = D.

Definition ev_start (e : event) : Q :=
  match e with ENet _ _ t _ => t | ESleep t _ => t end.

Definition ev_end (e : event) : Q :=
  match e with ENet _ _ _ t => t | ESleep _ t => t end.

(** Events that follow one another from time [t] to time [t']: each
    starts at the instant the one before it has ended. *)
Inductive chained : Q -> list event -> Q -> Prop :=
| chained_nil t : chained t [] t
| chained_cons t e evs t' :
    ev_start e = t -> chained (ev_end e) evs t' -> chained t (e :: evs) t'.

(** A coroutine is [sequential] when the events it adds to the trace
    are chained from the time it starts to the time it ends. *)
Definition sequential {A} (m : N A) : Prop :=
  forall c s o s', m c s = (o, s') ->
    exists evs, trace s' = trace s ++ evs /\ chained (clock s) evs (clock s').

(** ** The rate limiter *)

(** The timestamps a limiter keeps at time [now]. *)
Definition retained (self : RateLimiter) (now : Q) : list Q :=
  List.filter (fun call_time => Qltb (now - call_time)%Q (unit_time self)) (calls self).

(** ** Adapters *)







(** ** Records and jobs *)

(** The fields a record must have: those every record has and those of
    the sources that are switched on. *)
Definition source_fields (majestic ahrefs dataforseo : bool) : gset string :=
  {[ "url"; "status_code"; "secure" ]}
  ∪ (if majestic then {[ "majestic_topics" ]} else ∅)
  ∪ (if ahrefs then {[ "ahrefs_dr"; "ahrefs_refdomains"; "ahrefs_traffic" ]} else ∅)
  ∪ (if dataforseo
     then {[ "dataforseo_referring_domains"; "dataforseo_traffic"; "dataforseo_rank" ]}
     else ∅).

(** The fields of the records of a job. *)
Definition job_fields (job_data : JobData) : gset string :=
  source_fields (use_majestic job_data) (use_ahrefs job_data) (use_dataforseo job_data).

(** The fields of a record, by the credentials the worker passes down. *)
Definition job_record_fields (job_data : JobData) (r : gmap string json) : Prop :=
  dom r = source_fields (key_given (majestic_api_key (job_keys job_data)))
            (key_given (ahrefs_api_key (job_keys job_data)))
            (key_given (dataforseo_api_key (job_keys job_data))).

(** Every source that is switched on comes with a non-empty credential. *)
Definition credentials_given (job_data : JobData) : Prop :=
  (use_majestic job_data = true -> key_given (majestic_api_key (credentials job_data)) = true)
  /\ (use_ahrefs job_data = true -> key_given (ahrefs_api_key (credentials job_data)) = true)
  /\ (use_dataforseo job_data = true ->
      key_given (dataforseo_api_key (credentials job_data)) = true).

(** The progress records of a stretch of the loop that starts at index
    [i]: one per turn, in order, each counting one URL more. *)
Inductive progress_entries (total : nat) : nat -> list (write_site * file) -> Prop :=
| progress_done i : progress_entries total i []
| progress_next i elapsed rest :
    progress_entries total (S i) rest ->
    progress_entries total i
      ((Progress, FStatus (progress_status (i + 1) total elapsed)) :: rest).

(** The status file of the job does not say "completed". *)
Definition uncompleted (job_id : string) (files : gmap string file) : Prop :=
  forall d, files !! status_path job_id = Some (FStatus d) ->
            d !! "status" <> Some (JStr "completed").

(** A field of the status file of a job. *)
Definition status_field (job_id key : string) (st : JobState) : option json :=
  match fs st !! status_path job_id with
  | Some (FStatus d) => d !! key
  | _ => None
  end.

(** ** Scenarios *)

(** Every request is answered after one second with an empty object. *)
Definition steady_net : NetEnv :=
  fun _ _ _ =>
    {| latency := Some 1%Q;
       wire_of := Answered {| status := 200; body := Some (JObj []) |} |}.

Definition majestic_only : api_keys :=
  {| majestic_api_key := Some "key"; ahrefs_api_key := None; dataforseo_api_key := None |}.

Definition ahrefs_only : api_keys :=
  {| majestic_api_key := None; ahrefs_api_key := Some "token"; dataforseo_api_key := None |}.

(** A job of five URLs with the topic source switched on. *)
Definition five_urls : JobData :=
  {| urls := ["a.com"; "b.com"; "c.com"; "d.com"; "e.com"];
     use_majestic := true; use_ahrefs := false; use_dataforseo := false;
     credentials := majestic_only |}.

(** Nothing fails, and the front end calls [cancel_job] once, between
    the first URL and the second. *)
Definition cancel_after_first : Env :=
  {| network := steady_net;
     disk_ok := fun _ => true;
     session_ok := true;
     cancel_request := fun done => Nat.eqb done 1 |}.

(** The state in which the loop of [process_job] starts for a queued
    job: the claim is written, the session is open, [results] is empty. *)
Definition claimed (job_id : string) (job_data : JobData) (env : Env) (t0 : Q)
  : JobState :=
  snd ((_ <- modify (set_results None) ;;
        _ <- write_file Claim (status_path job_id)
               (FStatus (claim_status (length (urls job_data)))) ;;
        _ <- open_session ;;
        modify (set_results (Some [])))
         env (queued job_id job_data t0)).

(** The status fetch and the HTTPS probe take nine seconds each and the
    topic source fourteen: each within the timeout of its own request. *)
Definition slow_net : NetEnv :=
  fun _ ep _ =>
    {| latency :=
         Some (match ep with
               | StatusFetch | HttpsProbe => 9%Q
               | _ => 14%Q
               end);
       wire_of :=
         Answered
           {| status := 200;
              body :=
                Some (JObj [("Code", JStr "OK");
                            ("DataTables",
                             JObj [("Topics",
                                    JObj [("Data",
                                           JArr [JObj [("Topic", JStr "News")]])])])]) |} |}.

(** The rating and the traffic requests of Ahrefs are never answered;
    the status fetch takes a second and everything else is answered at
    once. *)
Definition ahrefs_silent : NetEnv :=
  fun _ ep _ =>
    {| latency :=
         match ep with
         | AhrefsDomainRating | AhrefsMetrics => None
         | StatusFetch => Some 1%Q
         | _ => Some 0%Q
         end;
       wire_of :=
         Answered {| status := 200; body := Some (JObj [("refdomains", JNum 42)]) |} |}.

(** A worker whose topic limiter admits 2 calls per unit of time. *)
Definition two_per_unit : NetState :=
  set_limiter Majestic (fresh_limiter 2 1) (worker_start 0).

(** * The retry decorator *)

Section Retry.
Context {R St A : Type}.

(** The loop [for attempt in range(max_attempts)] of [wrapper] with
    [todo] attempts left: the last attempt is the one after which none
    is left.  [pause] is [time.sleep(delay)]; the value [None] is what
    the wrapper returns when the loop runs out. *)
Fixpoint retry_loop (pause : SM R St unit) (func : SM R St A) (todo : nat)
  : SM R St (option A) :=
  match todo with
  | O => ret None
  | S todo' =>
      fun r s =>
        match func r s with
        | (Ok a, s') => (Ok (Some a), s')
        | (Raise OSError, s') =>
            match todo' with
            | O => (Raise OSError, s')
            | S _ => (_ <- pause ;; retry_loop pause func todo') r s'
            end
        | (Raise e, s') => (Raise e, s')
        | (Cancelled, s') => (Cancelled, s')
        end
  end.

(** [retry_on_os_error(max_attempts, delay)(func)]; the [range] of a
    number below 1 is empty. *)
Definition retry_on_os_error (max_attempts : Z) (pause : SM R St unit)
    (func : SM R St A) : SM R St (option A) :=
  retry_loop pause func (Z.to_nat max_attempts).

End Retry.

(** [time.sleep(delay)]: the worker does nothing else meanwhile. *)
Definition time_sleep (delay : Q) : M unit :=
  modify (fun st =>
    set_net_state (set_clock (clock (net_state st) + delay)%Q (net_state st)) st).

(** [export_to_ods] under its decorator, as [process_job] calls it. *)
Definition export_to_ods_retried (results : list (gmap string json))
    (use_majestic use_ahrefs use_dataforseo : bool) : M (option sheet) :=
  retry_on_os_error 3 (time_sleep 1)
    (ret (export_to_ods results use_majestic use_ahrefs use_dataforseo)).

(** * The main loop of the worker *)

(** [s.endswith(suffix)] *)
Fixpoint endswith (suffix s : string) : bool :=
  if String.eqb s suffix then true
  else match s with
       | EmptyString => false
       | String _ s' => endswith suffix s'
       end.

(** [for x in items: body(x)] *)
Fixpoint for_each {R S A} (items : list A) (body : A -> SM R S unit) : SM R S unit :=
  match items with
  | [] => ret tt
  | x :: rest => _ <- body x ;; for_each rest body
  end.

Definition exists_in (files : gmap string file) (path : string) : bool :=
  match files !! path with
  | Some _ => true
  | None => false
  end.

(** [os.path.exists(path)] *)
Definition path_exists (path : string) : M bool :=
  gets (fun st => exists_in (fs st) path).

(** [os.remove(path)]; a missing file raises [FileNotFoundError], an
    [OSError].  Removing a file that is there does not fail. *)
Definition os_remove (path : string) : M unit :=
  fun _ st =>
    match fs st !! path with
    | Some _ => (Ok tt, set_fs (delete path (fs st)) st)
    | None => (Raise OSError, st)
    end.

(** [os.path.getmtime(path)]; the times of last modification are given
    from outside. *)
Definition getmtime (mtime : string -> Q) (path : string) : M Q :=
  fun _ st =>
    match fs st !! path with
    | Some _ => (Ok (mtime path), st)
    | None => (Raise OSError, st)
    end.

(** [json.load(f).get('status')] on the file at [path].  A descriptor is
    a JSON object without that key; a spreadsheet is no JSON text. *)
Definition load_status (path : string) : M (option json) :=
  fun _ st =>
    match fs st !! path with
    | Some (FStatus status_data) => (Ok (status_data !! "status"), st)
    | Some (FDescriptor _) => (Ok None, st)
    | Some (FSheet _) => (Raise ValueError, st)
    | None => (Raise OSError, st)
    end.

(** [json.load(f)] on a job file.  The files under a [.json] name are
    the descriptors [submit_job] writes; on anything else the model
    raises, and the renaming of an undecodable file to [.error] is left
    out. *)
Definition load_job (path : string) : M JobData :=
  fun _ st =>
    match fs st !! path with
    | Some (FDescriptor job_data) => (Ok job_data, st)
    | Some _ => (Raise ValueError, st)
    | None => (Raise OSError, st)
    end.

(** One turn of the loop of [main] that removes stale status files. *)
Definition stale_step (filename : string) : M unit :=
  if endswith ".status" filename then
    let job_id := Str.split_first "." filename in
    job_exists <- path_exists (job_path job_id) ;;
    if negb job_exists then os_remove ("jobs/" +:+ filename) else ret tt
  else ret tt.

(** The loop before the main loop, over [os.listdir(JOBS_DIR)]. *)
Definition remove_stale_statuses (listing : list string) : M unit :=
  for_each listing stale_step.

(** One turn of the loop of [main] that looks for new job files. *)
Definition scan_step (filename : string) : M unit :=
  if endswith ".json" filename then
    let job_id := Str.split_first "." filename in
    let job_file := "jobs/" +:+ filename in
    let status_file := status_path job_id in
    taken <- path_exists status_file ;;
    if taken then ret tt else
    try_except
      (job_data <- load_job job_file ;;
       process_job job_id job_data)
      (fun _ => ret tt)
  else ret tt.

Definition scan_jobs (listing : list string) : M unit :=
  for_each listing scan_step.

(** [status_data.get('status') in ['completed', 'error', 'cancelled']] *)
Definition finished (status : option json) : bool :=
  match status with
  | Some v => py_eq_str v "completed" || py_eq_str v "error" || py_eq_str v "cancelled"
  | None => false
  end.

(** [if os.path.exists(f): os.remove(f)] *)
Definition remove_if_exists (path : string) : M unit :=
  there <- path_exists path ;;
  if there then os_remove path else ret tt.

(** One turn of the loop of [main] that removes the jobs that ended
    more than 24 hours ago. *)
Definition retention_step (mtime : string -> Q) (current_time : Q)
    (filename : string) : M unit :=
  if endswith ".status" filename then
    let file_path := "jobs/" +:+ filename in
    modified <- getmtime mtime file_path ;;
    let file_age := (current_time - modified)%Q in
    if Qltb 86400 file_age then
      try_except
        (status <- load_status file_path ;;
         if finished status then
           let job_id := Str.split_first "." filename in
           let result_file := result_path job_id in
           let job_file := job_path job_id in
           _ <- remove_if_exists result_file ;;
           _ <- remove_if_exists job_file ;;
           remove_if_exists file_path
         else ret tt)
        (fun _ => ret tt)
    else ret tt
  else ret tt.

Definition remove_finished_jobs (mtime : string -> Q) (listing : list string) : M unit :=
  current_time <- gets (fun st => clock (net_state st)) ;;
  for_each listing (retention_step mtime current_time).

(** * The front end *)

(** [os.path.basename(p)]: what follows the last '/'. *)
Definition basename (p : string) : string :=
  List.last (Str.split "/" p) EmptyString.

(** The form [submit_job] receives; [None] is a field that is not sent. *)
Record job_form : Type := {
  form_urls : list string;
  form_use_majestic : option string;
  form_use_ahrefs : option string;
  form_use_dataforseo : option string;
  form_majestic_api_key : option string;
  form_ahrefs_api_key : option string;
  form_dataforseo_api_key : option string
}.

(** [request.form.get(name) == 'true'] *)
Definition checked (field : option string) : bool :=
  match field with
  | Some s => String.eqb s "true"
  | None => false
  end.

(** The answers of [submit_job]: an error with its HTTP status, or the
    job that was queued. *)
Inductive submit_reply : Type :=
| SubmitError (code : Z) (error : string)
| Submitted (job_id : string) (total_urls : nat).

(** [submit_job].  [job_id] is the identifier [uuid.uuid4()] draws, and
    [writable] tells whether the job file can be written; the time of
    creation, which the worker never reads, is not kept. *)
Definition submit_job (job_id : string) (writable : bool) (form : job_form)
    (files : gmap string file) : submit_reply * gmap string file :=
  let urls := form_urls form in
  let use_majestic := checked (form_use_majestic form) in
  let use_ahrefs := checked (form_use_ahrefs form) in
  let use_dataforseo := checked (form_use_dataforseo form) in
  let majestic_api_key := if use_majestic then form_majestic_api_key form else None in
  let ahrefs_api_key := if use_ahrefs then form_ahrefs_api_key form else None in
  let dataforseo_api_key :=
    if use_dataforseo then form_dataforseo_api_key form else None in
  if match urls with [] => true | _ => false end
  then (SubmitError 400 "No URLs provided", files) else
  if negb use_majestic && negb use_ahrefs && negb use_dataforseo
  then (SubmitError 400 "At least one API must be selected", files) else
  if use_majestic && negb (key_given majestic_api_key)
  then (SubmitError 400 "Majestic API key is required when Majestic API is selected",
        files) else
  if use_ahrefs && negb (key_given ahrefs_api_key)
  then (SubmitError 400 "Ahrefs API key is required when Ahrefs API is selected",
        files) else
  if use_dataforseo && negb (key_given dataforseo_api_key)
  then (SubmitError 400
          "DataForSEO API key is required when DataForSEO API is selected",
        files) else
  let cleaned_urls := List.filter Str.nonempty (map Str.strip urls) in
  let job_data :=
    {| urls := cleaned_urls;
       use_majestic := use_majestic;
       use_ahrefs := use_ahrefs;
       use_dataforseo := use_dataforseo;
       credentials :=
         {| majestic_api_key := majestic_api_key;
            ahrefs_api_key := ahrefs_api_key;
            dataforseo_api_key := dataforseo_api_key |} |} in
  if writable
  then (Submitted job_id (length cleaned_urls),
        <[job_path job_id := FDescriptor job_data]> files)
  else (SubmitError 500 "Failed to submit job", files).

(** The answers of [job_status]: queued, not found (404), the content of
    the status file, or a failure (500). *)
Inductive status_reply : Type :=
| StatusQueued
| StatusNotFound
| StatusData (status_data : gmap string json)
| StatusOther (job_data : JobData)
| StatusFailed.

Definition job_status (job_id : string) (files : gmap string file) : status_reply :=
  let job_id := basename job_id in
  let status_file := status_path job_id in
  let result_file := result_path job_id in
  match files !! status_file with
  | None =>
      let job_file := job_path job_id in
      if exists_in files job_file then StatusQueued else StatusNotFound
  | Some (FStatus status_data) =>
      if py_eq_str (default JNull (status_data !! "status")) "completed"
         && exists_in files result_file
      then StatusData
             (<["download_url" := JStr ("/download_result/" +:+ job_id)]> status_data)
      else StatusData status_data
  | Some (FDescriptor job_data) => StatusOther job_data
  | Some (FSheet _) => StatusFailed
  end.

(** The answers of [download_result]: an error with its HTTP status, or
    the file, sent under a name. *)
Inductive download_reply : Type :=
| DownloadError (code : Z) (error : string)
| Download (content : file) (filename : string).

Definition download_result (job_id : string) (files : gmap string file)
  : download_reply :=
  let job_id := basename job_id in
  let result_file := result_path job_id in
  match files !! result_file with
  | None => DownloadError 404 "Result file not found"
  | Some content =>
      let status_file := status_path job_id in
      let send :=
        Download content
          ("imscraper_results_" +:+ String.substring 0 8 job_id +:+ ".ods") in
      match files !! status_file with
      | None => send
      | Some (FStatus status_data) =>
          if negb (py_eq_str (default JNull (status_data !! "status")) "completed")
          then DownloadError 400 "Job is not yet complete"
          else send
      | Some (FDescriptor _) => DownloadError 400 "Job is not yet complete"
      | Some (FSheet _) => DownloadError 500 "Failed to download result"
      end
  end.

(** The route [/cancel_job/<job_id>]: [cancel_job] on the sanitized
    identifier. *)
Definition cancel_job_route (job_id : string) (files : gmap string file)
  : gmap string file :=
  cancel_job (basename job_id) files.

Definition max_age_seconds : Q := 7 * 24 * 60 * 60.

(** One of the two loops of [cleanup_old_jobs], over the listing of the
    directory [dir]; it threads [count] and the files. *)
Fixpoint remove_old (dir : string) (mtime : string -> Q) (current_time : Q)
    (listing : list string) (count : nat) (files : gmap string file)
  : nat * gmap string file :=
  match listing with
  | [] => (count, files)
  | filename :: rest =>
      let file_path := dir +:+ filename in
      if exists_in files file_path
      then
        let file_age := (current_time - mtime file_path)%Q in
        if Qltb max_age_seconds file_age
        then remove_old dir mtime current_time rest (S count) (delete file_path files)
        else remove_old dir mtime current_time rest count files
      else remove_old dir mtime current_time rest count files
  end.

(** [cleanup_old_jobs]: the number it reports and the files it leaves. *)
Definition cleanup_old_jobs (mtime : string -> Q) (current_time : Q)
    (jobs_listing results_listing : list string) (files : gmap string file)
  : nat * gmap string file :=
  let (count, files) := remove_old "jobs/" mtime current_time jobs_listing 0 files in
  remove_old "results/" mtime current_time results_listing count files.

(** * Notions of the further properties *)

(** What [process_url] makes of the reply to the status fetch. *)
Definition fetch_answer (rep : reply) : json :=
  match snd (settle 10 rep) with
  | Ok resp => JNum (inject_Z (status resp))
  | _ => NA
  end.

(** What [check_https] makes of the reply to its probe. *)
Definition probe_answer (rep : reply) : json :=
  match snd (settle 10 rep) with
  | Ok resp => if (status resp =? 200)%Z then JStr "Yes" else JStr "No"
  | _ => JStr "No"
  end.

(** A context without deadline, as around [process_job]. *)
Definition free (n : NetEnv) : Ctx := {| net := n; deadline := None |}.

(** [n] admissions in a row at one limiter. *)
Fixpoint admissions (id : limiter_id) (n : nat) : N unit :=
  match n with
  | O => ret tt
  | S n' => _ <- wait_if_needed id ;; admissions id n'
  end.

(** A record that [process_url_with_timeout] can return for [url]. *)
Definition made_for (keys : api_keys) (url : string) (r : gmap string json) : Prop :=
  exists c s s', process_url_with_timeout url keys c s = (Ok r, s').

(** The record of [url] is that of a URL whose enrichment ended in
    time, with the normalized URL and the status of the status fetch or
    "N/A", or that of one whose enrichment was cut off, with the URL as
    given and "Timeout". *)
Definition record_of (url : string) (r : gmap string json) : Prop :=
  (r !! "url" = Some (JStr (normalize_url url))
   /\ (r !! "status_code" = Some NA
       \/ exists code : Z, r !! "status_code" = Some (JNum (inject_Z code))))
  \/ (r !! "url" = Some (JStr url) /\ r !! "status_code" = Some (JStr "Timeout")).

(** The status file of the job, when there is one, says "processing" or
    "cancelled". *)
Definition in_progress (job_id : string) (files : gmap string file) : Prop :=
  forall d, files !! status_path job_id = Some (FStatus d) ->
            d !! "status" = Some (JStr "processing")
            \/ d !! "status" = Some (JStr "cancelled").

(** The status record of a job that failed with [e] after [done]
    records. *)
Definition failure_status (e : exn) (done total : nat) : gmap string json :=
  <["total" := jnat total]>
    (<["progress" := jnat done]>
       (<["error" := JStr (exn_name e)]>
          (<["status" := JStr "error"]> ∅))).

(** ** Further scenarios *)

(** The disk is reliable and the front end is silent, but the HTTP
    session cannot be set up. *)
Definition no_session : Env :=
  {| network := steady_net;
     disk_ok := fun _ => true;
     session_ok := false;
     cancel_request := fun _ => false |}.

(** Nothing fails but the write of rank [k]. *)
Definition one_bad_write (k : nat) : Env :=
  {| network := steady_net;
     disk_ok := fun i => negb (Nat.eqb i k);
     session_ok := true;
     cancel_request := fun _ => false |}.

(** Nothing fails and the front end is silent. *)
Definition quiet : Env :=
  {| network := steady_net;
     disk_ok := fun _ => true;
     session_ok := true;
     cancel_request := fun _ => false |}.

(** [k] attempts in a row, from state [s], that each end in [OSError]
    and are each followed by the pause; [s'] is the state after the
    last pause. *)
Inductive failed_attempts {R St A} (pause : SM R St unit) (func : SM R St A) (r : R)
  : nat -> St -> St -> Prop :=
| failed_none s : failed_attempts pause func r 0 s s
| failed_next k s s1 s2 s3 :
    func r s = (Raise OSError, s1) ->
    pause r s1 = (Ok tt, s2) ->
    failed_attempts pause func r k s2 s3 ->
    failed_attempts pause func r (S k) s s3.

(** The first two writes fail, the others succeed. *)
Definition flaky_disk : Env :=
  {| network := steady_net;
     disk_ok := fun i => (2 <=? i)%nat;
     session_ok := true;
     cancel_request := fun _ => false |}.

(** A job without URLs. *)
Definition no_urls : JobData :=
  {| urls := []; use_majestic := true; use_ahrefs := false; use_dataforseo := false;
     credentials := majestic_only |}.

(** A form with three URLs, one of them blank, that selects the topic
    source and gives its key. *)
Definition topic_form : job_form :=
  {| form_urls := [" a.com "; "   "; "b.com"];
     form_use_majestic := Some "true";
     form_use_ahrefs := None;
     form_use_dataforseo := Some "false";
     form_majestic_api_key := Some "key";
     form_ahrefs_api_key := Some "unused";
     form_dataforseo_api_key := None |}.

(** The job that form describes. *)
Definition topic_job : JobData :=
  {| urls := ["a.com"; "b.com"];
     use_majestic := true; use_ahrefs := false; use_dataforseo := false;
     credentials := majestic_only |}.

(** A file last modified more than 7 days before [current_time]. *)
Definition is_old (mtime : string -> Q) (current_time : Q) (path : string) : bool :=
  Qltb max_age_seconds (current_time - mtime path)%Q.

(** Times of last modification: the files of job "old" are ten days
    old at time 864000, every other file is new. *)
Definition ten_days_ago (path : string) : Q :=
  if String.eqb path (job_path "old") || String.eqb path (status_path "old")
     || String.eqb path (result_path "old")
  then 0%Q else 864000%Q.

(** The files of two jobs that are done, "old" and "new". *)
Definition two_done_jobs : gmap string file :=
  {[ job_path "old" := FDescriptor no_urls;
     status_path "old" := FStatus (completed_status "old" 0 [] 0);
     result_path "old" := FSheet (export_to_ods [] true false false);
     job_path "new" := FDescriptor no_urls;
     status_path "new" := FStatus (completed_status "new" 0 [] 0);
     result_path "new" := FSheet (export_to_ods [] true false false) ]}.

(** A status file without the descriptor of its job. *)
Definition stale (files : gmap string file) (filename : string) : bool :=
  endswith ".status" filename
  && negb (exists_in files (job_path (Str.split_first "." filename))).

(** The status file of a job that has ended, last modified more than
    24 hours before [current_time]. *)
Definition expired (mtime : string -> Q) (current_time : Q) (files : gmap string file)
    (filename : string) : bool :=
  endswith ".status" filename
  && Qltb 86400 (current_time - mtime ("jobs/" +:+ filename))%Q
  && match files !! ("jobs/" +:+ filename) with
     | Some (FStatus status_data) => finished (status_data !! "status")
     | _ => false
     end.

(** An identifier without a dot, as [uuid.uuid4()] draws them. *)
Definition dotless (job_id : string) : Prop :=
  Str.all_chars (fun a => negb (Ascii.eqb a ".")) job_id = true.

(** What a turn of the retention loop removes for an expired status
    file: the file, and the descriptor and the result file of its job. *)
Definition purge (filename : string) (files : gmap string file) : gmap string file :=
  delete ("jobs/" +:+ filename)
    (delete (job_path (Str.split_first "." filename))
       (delete (result_path (Str.split_first "." filename)) files)).

(** The paths of the files of the job a status file belongs to. *)
Definition of_job (filename path : string) : bool :=
  String.eqb path ("jobs/" +:+ filename)
  || String.eqb path (job_path (Str.split_first "." filename))
  || String.eqb path (result_path (Str.split_first "." filename)).

(** How a scan may change the files: a status file that is there stays
    as it is, and a descriptor stays unless its job gets a status file. *)
Definition scanned (files files' : gmap string file) : Prop :=
  (forall job_id, is_Some (files !! status_path job_id) ->
     files' !! status_path job_id = files !! status_path job_id)
  /\ (forall name job_data, endswith ".json" name = true ->
        files !! ("jobs/" +:+ name) = Some (FDescriptor job_data) ->
        files' !! ("jobs/" +:+ name) = Some (FDescriptor job_data)
        \/ is_Some (files' !! status_path (Str.split_first "." name))).

(** After a crash: job "a" has its descriptor and a status file that
    says "processing"; of job "b" only a status file is left. *)
Definition after_crash : JobState :=
  {| net_state := worker_start 0;
     fs := {[ job_path "a" := FDescriptor no_urls;
              status_path "a" := FStatus (claim_status 0);
              status_path "b" := FStatus (claim_status 0) ]};
     disk_writes := 0;
     results := None;
     journal := [] |}.

(** The worker at time 864000, with the files of [two_done_jobs]. *)
Definition day_ten : JobState :=
  {| net_state := worker_start 864000;
     fs := two_done_jobs;
     disk_writes := 0;
     results := None;
     journal := [] |}.

(** The characters of a host name that DataForSEO is asked about. *)
Definition host_char (c : ascii) : bool :=
  is_lower_alnum c || Ascii.eqb c "-" || Ascii.eqb c ".".

(** * Properties of URL normalization *)

Ltac each_char c := destruct c as [[] [] [] [] [] [] [] []].

Lemma isspace_lower_char c : Str.isspace (Str.lower_char c) = Str.isspace c.
Proof. each_char c; reflexivity. Qed.

Lemma lowered_lower_char c : lowered (Str.lower_char c) = true.
Proof. each_char c; reflexivity. Qed.

Lemma lowered_fixed c : lowered c = true -> Str.lower_char c = c.
Proof. unfold lowered. intros H. now apply Ascii.eqb_eq. Qed.

Lemma rstrip_keep c s :
  Str.isspace c = false -> Str.rstrip (String c s) = String c (Str.rstrip s).
Proof. intros H. simpl. rewrite H. now destruct (Str.rstrip s). Qed.

Lemma all_chars_lower s : Str.all_chars lowered (Str.lower s) = true.
Proof. induction s as [|c s IH]; simpl; [easy|]. now rewrite lowered_lower_char, IH. Qed.

Lemma lower_fixed s : Str.all_chars lowered s = true -> Str.lower s = s.
Proof.
  induction s as [|c s IH]; simpl; [easy|].
  intros [Hc Hs]%andb_prop. now rewrite (lowered_fixed _ Hc), IH.
Qed.

Lemma all_chars_split_first P c s :
  Str.all_chars P s = true -> Str.all_chars P (Str.split_first c s) = true.
Proof.
  induction s as [|a s IH]; simpl; [easy|].
  intros [Ha Hs]%andb_prop. destruct (Ascii.eqb a c); simpl; [easy|].
  now rewrite Ha, IH.
Qed.

Lemma all_chars_strip_prefix P p : forall s r,
  Str.strip_prefix p s = Some r -> Str.all_chars P s = true -> Str.all_chars P r = true.
Proof.
  induction p as [|a p IH]; simpl; intros s r.
  - now intros [= ->].
  - destruct s as [|b s]; [easy|]. destruct (Ascii.eqb a b); [|easy].
    simpl. intros H [_ Hs]%andb_prop. eauto.
Qed.

Lemma all_chars_lstrip P s :
  Str.all_chars P s = true -> Str.all_chars P (Str.lstrip s) = true.
Proof.
  induction s as [|a s IH]; simpl; [easy|].
  intros H. destruct (Str.isspace a); [|easy].
  apply andb_prop in H as [_ Hs]. auto.
Qed.

Lemma all_chars_rstrip P s :
  Str.all_chars P s = true -> Str.all_chars P (Str.rstrip s) = true.
Proof.
  induction s as [|a s IH]; simpl; [easy|].
  intros [Ha Hs]%andb_prop. specialize (IH Hs).
  destruct (Str.rstrip s) as [|b r].
  - destruct (Str.isspace a); simpl; [easy|]. now rewrite Ha.
  - simpl in *. now rewrite Ha, IH.
Qed.

Lemma all_chars_app P s t :
  Str.all_chars P (s +:+ t) = Str.all_chars P s && Str.all_chars P t.
Proof. induction s as [|a s IH]; simpl; [easy|]. now rewrite IH, andb_assoc. Qed.

Lemma all_chars_impl (P Q : ascii -> bool) s :
  (forall c, P c = true -> Q c = true) ->
  Str.all_chars P s = true -> Str.all_chars Q s = true.
Proof.
  intros HPQ. induction s as [|a s IH]; simpl; [easy|].
  intros [Ha Hs]%andb_prop. now rewrite (HPQ _ Ha), IH.
Qed.

Lemma not_space_lower s :
  Str.all_chars not_space s = true -> Str.all_chars not_space (Str.lower s) = true.
Proof.
  induction s as [|a s IH]; simpl; [easy|].
  intros [Ha Hs]%andb_prop. unfold not_space at 1.
  rewrite isspace_lower_char. fold (not_space a). now rewrite Ha, IH.
Qed.

Lemma rstrip_fixed s : Str.all_chars not_space s = true -> Str.rstrip s = s.
Proof.
  induction s as [|a s IH]; [easy|].
  cbn [Str.all_chars]. intros [Ha Hs]%andb_prop.
  rewrite rstrip_keep, IH; [easy|easy|].
  unfold not_space in Ha. now destruct (Str.isspace a).
Qed.

Lemma split_first_absent c s :
  Str.all_chars (fun a => negb (Ascii.eqb a c)) s = true -> Str.split_first c s = s.
Proof.
  induction s as [|a s IH]; simpl; [easy|].
  intros [Ha Hs]%andb_prop. destruct (Ascii.eqb a c); [easy|]. now rewrite IH.
Qed.

Lemma split_first_free c s :
  Str.all_chars (fun a => negb (Ascii.eqb a c)) (Str.split_first c s) = true.
Proof.
  induction s as [|a s IH]; simpl; [easy|].
  destruct (Ascii.eqb a c) eqn:E; simpl; [easy|]. now rewrite E, IH.
Qed.

Lemma cut_free s : Str.all_chars not_sep (cut s) = true.
Proof.
  unfold cut.
  pose proof (split_first_free "/" s) as H1.
  apply (all_chars_split_first _ "?") in H1.
  apply (all_chars_split_first _ "#") in H1.
  pose proof (split_first_free "?" (Str.split_first "/" s)) as H2.
  apply (all_chars_split_first _ "#") in H2.
  pose proof (split_first_free "#" (Str.split_first "?" (Str.split_first "/" s))) as H3.
  revert H1 H2 H3.
  generalize (Str.split_first "#" (Str.split_first "?" (Str.split_first "/" s))).
  intros d. induction d as [|a d IH]; simpl; [easy|].
  intros [A1 H1]%andb_prop [A2 H2]%andb_prop [A3 H3]%andb_prop.
  unfold not_sep at 1. now rewrite A1, A2, A3, IH.
Qed.

Lemma cut_fixed s : Str.all_chars not_sep s = true -> cut s = s.
Proof.
  intros H. unfold cut.
  assert (forall x, (forall c, not_sep c = true -> negb (Ascii.eqb c x) = true) ->
                    Str.split_first x s = s) as Hx.
  { intros x Hsep. apply split_first_absent. now apply (all_chars_impl not_sep). }
  rewrite (Hx "/"%char), (Hx "?"%char), (Hx "#"%char); [easy | | |];
    unfold not_sep; intros c Hc;
    apply andb_prop in Hc as [[H1 H2]%andb_prop H3]; easy.
Qed.

Lemma all_chars_cut P s : Str.all_chars P s = true -> Str.all_chars P (cut s) = true.
Proof. intros H. unfold cut. now do 3 apply all_chars_split_first. Qed.

Lemma re_sub_scheme_sub P s :
  Str.all_chars P s = true -> Str.all_chars P (re_sub_scheme s) = true.
Proof.
  intros H. unfold re_sub_scheme.
  destruct (Str.strip_prefix "http://" s) eqn:E1; [now apply (all_chars_strip_prefix _ _ _ _ E1)|].
  destruct (Str.strip_prefix "https://" s) eqn:E2; [now apply (all_chars_strip_prefix _ _ _ _ E2)|].
  exact H.
Qed.

Lemma rstrip_lower s : Str.rstrip (Str.lower s) = Str.lower (Str.rstrip s).
Proof.
  induction s as [|a s IH]; simpl; [easy|].
  rewrite IH, isspace_lower_char.
  destruct (Str.rstrip s); simpl; [now destruct (Str.isspace a)|easy].
Qed.

(** The helper on an input that opens with a lower-case scheme. *)
Lemma normalize_url_http rest :
  normalize_url ("http://" +:+ rest) = "http://" +:+ cut (Str.lower (Str.rstrip rest)).
Proof.
  unfold normalize_url. change (has_scheme ("http://" +:+ rest)) with true. cbv iota.
  unfold Str.strip. change (Str.lstrip ("http://" +:+ rest)) with ("http://" +:+ rest).
  change ("http://" +:+ rest) with
    (String "h" (String "t" (String "t" (String "p"
       (String ":" (String "/" (String "/" rest))))))).
  rewrite !rstrip_keep by reflexivity. reflexivity.
Qed.

Lemma normalize_url_https rest :
  normalize_url ("https://" +:+ rest) = "http://" +:+ cut (Str.lower (Str.rstrip rest)).
Proof.
  unfold normalize_url. change (has_scheme ("https://" +:+ rest)) with true. cbv iota.
  unfold Str.strip. change (Str.lstrip ("https://" +:+ rest)) with ("https://" +:+ rest).
  change ("https://" +:+ rest) with
    (String "h" (String "t" (String "t" (String "p" (String "s"
       (String ":" (String "/" (String "/" rest)))))))).
  rewrite !rstrip_keep by reflexivity. reflexivity.
Qed.

Lemma strip_prefix_sound p : forall s r, Str.strip_prefix p s = Some r -> s = p +:+ r.
Proof.
  induction p as [|a p IH]; simpl; intros s r.
  - now intros [= ->].
  - destruct s as [|b s]; [easy|]. destruct (Ascii.eqb a b) eqn:E; [|easy].
    apply Ascii.eqb_eq in E as ->. intros H. now rewrite (IH _ _ H).
Qed.

(** A closed form of the helper: the scheme is looked for in the input
    as given. *)
Lemma normalize_url_closed url :
  normalize_url url = "http://" +:+ cut (Str.lower (Str.rstrip (re_sub_scheme url))).
Proof.
  unfold re_sub_scheme.
  destruct (Str.strip_prefix "http://" url) as [r|] eqn:E1.
  { apply strip_prefix_sound in E1 as ->. apply normalize_url_http. }
  destruct (Str.strip_prefix "https://" url) as [r|] eqn:E2.
  { apply strip_prefix_sound in E2 as ->. apply normalize_url_https. }
  rewrite <- normalize_url_http. unfold normalize_url at 1.
  unfold has_scheme, Str.startswith. rewrite E1, E2. reflexivity.
Qed.

Lemma rstrip_scheme d : Str.rstrip ("http://" +:+ d) = "http://" +:+ Str.rstrip d.
Proof.
  change ("http://" +:+ d) with
    (String "h" (String "t" (String "t" (String "p"
       (String ":" (String "/" (String "/" d))))))).
  rewrite !rstrip_keep by reflexivity. reflexivity.
Qed.

Lemma normalize_url_domain url :
  let d := cut (Str.lower (Str.rstrip (re_sub_scheme url))) in
  Str.all_chars lowered d = true /\ Str.all_chars not_sep d = true.
Proof.
  intros d. split; [|apply cut_free].
  apply all_chars_cut, all_chars_lower.
Qed.

Lemma normalize_url_again url :
  normalize_url (normalize_url url) =
  "http://" +:+ Str.rstrip (cut (Str.lower (Str.rstrip (re_sub_scheme url)))).
Proof.
  rewrite (normalize_url_closed url) at 1. rewrite normalize_url_http.
  destruct (normalize_url_domain url) as [Hl Hs]. cbv zeta in Hl, Hs.
  set (d := cut (Str.lower (Str.rstrip (re_sub_scheme url)))) in *.
  rewrite lower_fixed by now apply all_chars_rstrip.
  rewrite cut_fixed by now apply all_chars_rstrip.
  reflexivity.
Qed.

(** C4 (as amended).  The result of [normalize_url] is "http://" followed
    by a lower-case string free of '/', '?' and '#'.  On an input without
    whitespace whose scheme, if it has one, is spelled in lower case,
    that string is the lower-cased input without its scheme, cut at the
    first '/', '?' or '#'.  Nothing removes a leading "www.". *)
Theorem normalize_url_canonical (url : string) :
  exists d,
    normalize_url url = "http://" +:+ d
    /\ Str.lower d = d
    /\ Str.all_chars not_sep d = true
    /\ (Str.all_chars not_space url = true ->
        (has_scheme (Str.lower url) = true -> has_scheme url = true) ->
        d = cut (Str.lower (re_sub_scheme url))).
Proof.
  exists (cut (Str.lower (Str.rstrip (re_sub_scheme url)))).
  destruct (normalize_url_domain url) as [Hl Hs]. cbv zeta in Hl, Hs.
  split; [apply normalize_url_closed|].
  split; [now apply lower_fixed|].
  split; [exact Hs|].
  intros Hw _. rewrite rstrip_fixed; [reflexivity|].
  now apply re_sub_scheme_sub.
Qed.

Lemma normalize_url_canonical_witness :
  normalize_url "https://Example.com/Shop?id=1#top" = "http://example.com".
Proof.
  destruct (normalize_url_canonical "https://Example.com/Shop?id=1#top")
    as (d & E & _ & _ & H).
  rewrite E, H; reflexivity.
Defined.

(** C4, on the code: a leading "www." survives normalization. *)
Lemma normalize_url_keeps_www :
  normalize_url "www.Example.com/about" = "http://www.example.com"
  /\ Str.startswith "http://www." (normalize_url "www.Example.com/about") = true.
Proof. split; reflexivity. Qed.

(** C10 (as amended).  After its "http://" the result of [normalize_url]
    holds no '/', '?' or '#'.  Normalizing a result again gives it back
    exactly when it does not end in whitespace; it does so for every
    input that holds no whitespace. *)
Theorem normalize_url_idempotent_iff (url : string) :
  (exists d, normalize_url url = "http://" +:+ d /\ Str.all_chars not_sep d = true)
  /\ (normalize_url (normalize_url url) = normalize_url url
      <-> Str.rstrip (normalize_url url) = normalize_url url)
  /\ (Str.all_chars not_space url = true ->
      normalize_url (normalize_url url) = normalize_url url).
Proof.
  destruct (normalize_url_domain url) as [Hl Hs]. cbv zeta in Hl, Hs.
  split; [|split].
  - eexists. split; [apply normalize_url_closed|exact Hs].
  - rewrite normalize_url_again, normalize_url_closed, rstrip_scheme. tauto.
  - intros Hw. rewrite normalize_url_again, normalize_url_closed.
    rewrite rstrip_fixed; [reflexivity|].
    apply all_chars_cut, not_space_lower, all_chars_rstrip, re_sub_scheme_sub, Hw.
Qed.

Lemma normalize_url_idempotent_witness :
  normalize_url (normalize_url "Example.com/a?b") = normalize_url "Example.com/a?b".
Proof.
  apply (normalize_url_idempotent_iff "Example.com/a?b"). reflexivity.
Defined.

(** C10, on the code: a blank before the path survives the first
    normalization and is dropped by the second. *)
Lemma normalize_url_not_idempotent :
  normalize_url "a.com /b" = "http://a.com "
  /\ normalize_url (normalize_url "a.com /b") = "http://a.com".
Proof. split; reflexivity. Qed.

(** * Reasoning about coroutines *)

Section Outcomes.
Context {R S : Type}.

Lemma bind_Ok {A B} (m : SM R S A) (f : A -> SM R S B) r s a s' :
  m r s = (Ok a, s') -> bind m f r s = f a r s'.
Proof. unfold bind. now intros ->. Qed.

Lemma bind_Raise {A B} (m : SM R S A) (f : A -> SM R S B) r s e s' :
  m r s = (Raise e, s') -> bind m f r s = (Raise e, s').
Proof. unfold bind. now intros ->. Qed.

Lemma bind_Cancelled {A B} (m : SM R S A) (f : A -> SM R S B) r s s' :
  m r s = (Cancelled, s') -> bind m f r s = (Cancelled, s').
Proof. unfold bind. now intros ->. Qed.

Lemma bind_Ok_inv {A B} (m : SM R S A) (f : A -> SM R S B) r s b s' :
  bind m f r s = (Ok b, s') ->
  exists a s1, m r s = (Ok a, s1) /\ f a r s1 = (Ok b, s').
Proof.
  unfold bind. destruct (m r s) as [[a|e|] s1]; [eauto|easy|easy].
Qed.

Lemma try_Ok {A} (m : SM R S A) h r s a s' :
  m r s = (Ok a, s') -> try_except m h r s = (Ok a, s').
Proof. unfold try_except. now intros ->. Qed.

Lemma try_Raise {A} (m : SM R S A) h r s e s' :
  m r s = (Raise e, s') -> try_except m h r s = h e r s'.
Proof. unfold try_except. now intros ->. Qed.

Lemma try_Cancelled {A} (m : SM R S A) h r s s' :
  m r s = (Cancelled, s') -> try_except m h r s = (Cancelled, s').
Proof. unfold try_except. now intros ->. Qed.

Lemma unraised_ret {A} (a : A) : unraised (ret a : SM R S A).
Proof. intros r s e s'. unfold ret. congruence. Qed.


Lemma unraised_try {A} (m : SM R S A) h :
  (forall e, unraised (h e)) -> unraised (try_except m h).
Proof.
  intros Hh r s e s'. unfold try_except.
  destruct (m r s) as [[a|e1|] s1]; [congruence|apply Hh|congruence].
Qed.

End Outcomes.

Lemma timed_ret {A} (a : A) : timed (ret a).
Proof. intros c s s'. unfold ret. congruence. Qed.

Lemma timed_raise {A} e : timed (@raise Ctx NetState A e).
Proof. intros c s s'. unfold raise. congruence. Qed.

Lemma timed_lift {A} (o : outcome A) : o <> Cancelled -> timed (lift o).
Proof. intros H c s s'. unfold lift. congruence. Qed.

Lemma timed_gets {A} (f : NetState -> A) : timed (gets f).
Proof. intros c s s'. unfold gets. congruence. Qed.

Lemma timed_modify f : timed (@modify Ctx NetState f).
Proof. intros c s s'. unfold modify. congruence. Qed.

Lemma timed_bind {A B} (m : N A) (f : A -> N B) :
  timed m -> (forall a, timed (f a)) -> timed (bind m f).
Proof.
  intros Hm Hf c s s'. unfold bind.
  destruct (m c s) as [[a|e|] s1] eqn:E; [apply Hf|congruence|].
  intros [= <-]. now apply Hm in E.
Qed.

Lemma timed_try {A} (m : N A) h :
  timed m -> (forall e, timed (h e)) -> timed (try_except m h).
Proof.
  intros Hm Hh c s s'. unfold try_except.
  destruct (m c s) as [[a|e|] s1] eqn:E; [congruence|apply Hh|].
  intros [= <-]. now apply Hm in E.
Qed.

Lemma timed_suspend mk d : timed (suspend mk d).
Proof.
  intros c s s'. unfold suspend.
  destruct (deadline c) as [D|]; [|congruence].
  destruct (Qltb D (clock s + d)); [|congruence].
  intros [= <-]. now exists D.
Qed.

Lemma timed_wait_for {A} (m : N A) t : timed (wait_for m t).
Proof.
  intros c s s'. unfold wait_for.
  now destruct (m _ s) as [[a|e|] s1].
Qed.

Lemma py_get_settled d k v : py_get d k v <> Cancelled.
Proof. destruct d; simpl; try congruence. now destruct (assoc k fields). Qed.

Lemma py_item_settled d k : py_item d k <> Cancelled.
Proof. destruct d; simpl; try congruence. now destruct (assoc k fields). Qed.

Lemma py_first_settled d : py_first d <> Cancelled.
Proof. destruct d as [| | |[|? ?]|[|? ?]|]; simpl; congruence. Qed.

Lemma settle_settled t rep : snd (settle t rep) <> Cancelled.
Proof.
  unfold settle. destruct (latency rep) as [l|]; [|simpl; congruence].
  destruct (Qle_bool l t); simpl; [|congruence].
  destruct (wire_of rep); congruence.
Qed.

Lemma timed_response_json resp : timed (response_json resp).
Proof. unfold response_json. destruct (body resp); [apply timed_ret|apply timed_raise]. Qed.

Ltac timed_step :=
  lazymatch goal with
  | |- timed (bind _ _) => apply timed_bind; [|intros ?]
  | |- timed (try_except _ _) => apply timed_try; [|intros ?]
  | |- timed (ret _) => apply timed_ret
  | |- timed (raise _) => apply timed_raise
  | |- timed (gets _) => apply timed_gets
  | |- timed (modify _) => apply timed_modify
  | |- timed (suspend _ _) => apply timed_suspend
  | |- timed (sleep _) => apply timed_suspend
  | |- timed (response_json _) => apply timed_response_json
  | |- timed (wait_for _ _) => apply timed_wait_for
  | |- timed (lift (py_get _ _ _)) => apply timed_lift, py_get_settled
  | |- timed (lift (py_item _ _)) => apply timed_lift, py_item_settled
  | |- timed (lift (py_first _)) => apply timed_lift, py_first_settled
  | |- timed (lift (snd (settle _ _))) => apply timed_lift, settle_settled
  | |- timed (if ?b then _ else _) => destruct b
  | |- timed (match ?x with _ => _ end) => destruct x
  end.

Lemma timed_wait_if_needed id : timed (wait_if_needed id).
Proof. unfold wait_if_needed, time_time. repeat timed_step. Qed.

Lemma timed_http ep target t : timed (http ep target t).
Proof.
  unfold http. apply timed_bind; [|intros rep; repeat timed_step].
  intros c s s'. congruence.
Qed.

Lemma timed_majestic_topic resp : timed (majestic_topic resp).
Proof. unfold majestic_topic. repeat timed_step. Qed.

Lemma timed_get_majestic_data url key : timed (get_majestic_data url key).
Proof.
  unfold get_majestic_data. repeat timed_step;
    first [apply timed_wait_if_needed | apply timed_http | apply timed_majestic_topic].
Qed.

Lemma timed_ahrefs url key : timed (get_ahrefs_data url key).
Proof.
  unfold get_ahrefs_data, ahrefs_domain_rating, ahrefs_refdomains, ahrefs_org_traffic.
  repeat timed_step; first [apply timed_wait_if_needed | apply timed_http].
Qed.

Lemma timed_dataforseo_backlinks resp : timed (dataforseo_backlinks resp).
Proof. unfold dataforseo_backlinks. repeat timed_step. Qed.

Lemma timed_dataforseo_traffic resp : timed (dataforseo_traffic resp).
Proof. unfold dataforseo_traffic. repeat timed_step. Qed.

Lemma timed_dataforseo url key : timed (get_dataforseo_data url key).
Proof.
  unfold get_dataforseo_data.
  repeat timed_step;
    first [apply timed_wait_if_needed | apply timed_http
          | apply timed_dataforseo_backlinks | apply timed_dataforseo_traffic].
Qed.

Lemma timed_check_https url : timed (check_https url).
Proof. unfold check_https. repeat timed_step; apply timed_http. Qed.

Lemma timed_process_url url keys : timed (process_url url keys).
Proof.
  unfold process_url.
  repeat timed_step;
    first [apply timed_http | apply timed_check_https | apply timed_get_majestic_data
          | apply timed_ahrefs | apply timed_dataforseo].
Qed.

(** Without a deadline nothing is cancelled. *)
Lemma timed_free {A} (m : N A) c s :
  timed m -> deadline c = None -> fst (m c s) <> Cancelled.
Proof.
  intros Hm Hd. destruct (m c s) as [o s'] eqn:E. simpl. intros ->.
  apply Hm in E as (D & HD & _). congruence.
Qed.




Lemma unraised_process_url url keys : unraised (process_url url keys).
Proof. unfold process_url. apply unraised_try. intros _. apply unraised_ret. Qed.

(** A coroutine that is neither cancelled nor left by an exception
    returns. *)
Lemma returns {A} (m : N A) c s :
  timed m -> unraised m -> deadline c = None ->
  exists a s', m c s = (Ok a, s').
Proof.
  intros Ht Hu Hd. pose proof (timed_free m c s Ht Hd) as Hc.
  destruct (m c s) as [[a|e|] s'] eqn:E; [eauto| |easy].
  now apply Hu in E.
Qed.

(** * Properties of the rate limiter *)

Lemma Qltb_lt x y : Qltb x y = true <-> (x < y)%Q.
Proof.
  unfold Qltb. rewrite negb_true_iff, <- not_true_iff_false, Qle_bool_iff.
  split; [apply Qnot_le_lt | apply Qlt_not_le].
Qed.

Lemma Qltb_ge x y : Qltb x y = false <-> (y <= x)%Q.
Proof. unfold Qltb. now rewrite negb_false_iff, Qle_bool_iff. Qed.

Lemma limiter_set_limiter id l s : limiter id (set_limiter id l s) = l.
Proof. now destruct id. Qed.

Lemma set_limiter_twice id l l' s :
  set_limiter id l (set_limiter id l' s) = set_limiter id l s.
Proof. now destruct id. Qed.

Lemma wait_if_needed_below (c : Ctx) (s : NetState) (id : limiter_id) :
  (Z.of_nat (length (retained (limiter id s) (clock s))) < calls_per_unit (limiter id s))%Z ->
  wait_if_needed id c s =
  (Ok tt, set_limiter id
            (set_calls (retained (limiter id s) (clock s) ++ [clock s]) (limiter id s)) s).
Proof.
  intros H. apply Z.leb_gt in H.
  cbv [wait_if_needed bind gets modify time_time ret].
  fold (retained (limiter id s) (clock s)). rewrite H.
  rewrite limiter_set_limiter, set_limiter_twice. reflexivity.
Qed.

Lemma wait_if_needed_full (c : Ctx) (s : NetState) (id : limiter_id) first rest :
  deadline c = None ->
  (calls_per_unit (limiter id s) <= Z.of_nat (length (retained (limiter id s) (clock s))))%Z ->
  retained (limiter id s) (clock s) = first :: rest ->
  exists s',
    wait_if_needed id c s = (Ok tt, s')
    /\ (clock s' == first + unit_time (limiter id s))%Q
    /\ limiter id s' = set_calls (rest ++ [clock s]) (limiter id s)
    /\ seq s' = seq s
    /\ (forall id', calls_per_unit (limiter id' s') = calls_per_unit (limiter id' s)).
Proof.
  intros Hd H Hk. apply Z.leb_le in H.
  assert (In first (retained (limiter id s) (clock s))) as Hin by (rewrite Hk; now left).
  apply filter_In in Hin as [_ Hy%Qltb_lt].
  assert (Qltb 0 (first + unit_time (limiter id s) - clock s) = true) as Hs
    by (apply Qltb_lt; lra).
  cbv [wait_if_needed bind gets modify time_time ret sleep suspend].
  fold (retained (limiter id s) (clock s)). rewrite H, Hk, Hs.
  replace (deadline c) with (@None Q).
  eexists. split; [reflexivity|].
  split; [destruct id; cbn; lra|].
  split; [now destruct id|]. split; [now destruct id|].
  intros id'. now destruct id, id'.
Qed.


Lemma retained_In self now t :
  In t (retained self now) <-> In t (calls self) /\ (now - t < unit_time self)%Q.
Proof. unfold retained. now rewrite filter_In, Qltb_lt. Qed.






(** * Properties of the URL enricher *)

Lemma blank_result_dom url st m a d :
  dom (blank_result url st m a d) = source_fields m a d.
Proof.
  unfold blank_result, source_fields.
  destruct m, a, d; rewrite ?dom_insert_L, dom_empty_L; set_solver.
Qed.

Lemma blank_result_status url st m a d :
  blank_result url st m a d !! "status_code" = Some st.
Proof. unfold blank_result. now destruct m, a, d. Qed.

Lemma blank_result_lookup url st m a d k v :
  blank_result url st m a d !! k = Some v ->
  (k = "url" /\ v = JStr url) \/ (k = "status_code" /\ v = st) \/ v = NA.
Proof.
  unfold blank_result. intros H.
  destruct m, a, d;
    repeat (apply lookup_insert_Some in H as [[<- <-]|[_ H]]; [tauto|]);
    now rewrite lookup_empty in H.
Qed.

Lemma blank_result_field url st m a d k :
  k ∈ source_fields m a d -> k <> "url" -> k <> "status_code" ->
  blank_result url st m a d !! k = Some NA.
Proof.
  rewrite <- (blank_result_dom url st). intros [v Hv]%elem_of_dom Hu Hs.
  destruct (blank_result_lookup _ _ _ _ _ _ _ Hv) as [[? _]|[[? _]| ->]]; easy.
Qed.

Lemma try_Ok_inv {R S A} (m : SM R S A) h r s a s' :
  try_except m h r s = (Ok a, s') ->
  m r s = (Ok a, s') \/ exists e s1, m r s = (Raise e, s1) /\ h e r s1 = (Ok a, s').
Proof.
  unfold try_except. destruct (m r s) as [[a0|e|] s1]; [now left|eauto|easy].
Qed.

Lemma process_url_fields url keys c s r s' :
  process_url url keys c s = (Ok r, s') ->
  dom r = source_fields (key_given (majestic_api_key keys))
            (key_given (ahrefs_api_key keys)) (key_given (dataforseo_api_key keys)).
Proof.
  unfold process_url. intros [H|(e & s1 & _ & H)]%try_Ok_inv.
  - repeat (apply bind_Ok_inv in H as (? & ? & _ & H)).
    unfold ret in H. injection H as <- _. unfold source_fields.
    destruct (key_given (majestic_api_key keys)),
      (key_given (ahrefs_api_key keys)), (key_given (dataforseo_api_key keys));
      rewrite ?dom_insert_L, dom_empty_L; set_solver.
  - unfold ret in H. injection H as <- _. apply blank_result_dom.
Qed.

(** What [process_url_with_timeout] returns: the record of [process_url]
    when that settles under the deadline, the "Timeout" record when it
    is cancelled there. *)
Lemma process_url_with_timeout_run url keys c s :
  let inner :=
    process_url url keys
      {| net := net c; deadline := Some (clock s + URL_TIMEOUT)%Q |} s in
  match fst inner with
  | Ok r => process_url_with_timeout url keys c s = (Ok r, snd inner)
  | Raise e => False
  | Cancelled =>
      process_url_with_timeout url keys c s =
      (Ok (blank_result url (JStr "Timeout")
             (key_given (majestic_api_key keys))
             (key_given (ahrefs_api_key keys))
             (key_given (dataforseo_api_key keys))), snd inner)
  end.
Proof.
  cbv zeta. unfold process_url_with_timeout, try_except, wait_for.
  destruct (process_url url keys _ s) as [[r|e|] s1] eqn:E; simpl; try reflexivity.
  now apply unraised_process_url in E.
Qed.

Lemma process_url_with_timeout_returns url keys c s :
  exists r s',
    process_url_with_timeout url keys c s = (Ok r, s')
    /\ dom r = source_fields (key_given (majestic_api_key keys))
                 (key_given (ahrefs_api_key keys)) (key_given (dataforseo_api_key keys)).
Proof.
  pose proof (process_url_with_timeout_run url keys c s) as H. cbv zeta in H.
  destruct (process_url url keys _ s) as [[r|e|] s1] eqn:E; simpl in H; [|easy|].
  - exists r, s1. split; [exact H|]. eapply process_url_fields, E.
  - eexists _, s1. split; [exact H|]. apply blank_result_dom.
Qed.

(** C2.  When the enrichment of a URL is still running at the deadline of
    [URL_TIMEOUT] seconds, [process_url_with_timeout] returns at that
    instant, with "Timeout" as status code and "N/A" in every field
    other than the URL and the status code; the field of every source
    whose credential was passed is there. *)
Theorem timeout_record (c : Ctx) (s : NetState) (url : string) (keys : api_keys) :
  let inner :=
    process_url url keys
      {| net := net c; deadline := Some (clock s + URL_TIMEOUT)%Q |} s in
  fst inner = Cancelled ->
  exists r,
    process_url_with_timeout url keys c s = (Ok r, snd inner)
    /\ clock (snd inner) = (clock s + URL_TIMEOUT)%Q
    /\ r !! "status_code" = Some (JStr "Timeout")
    /\ (forall k v, r !! k = Some v -> k <> "url" -> k <> "status_code" -> v = NA)
    /\ (forall k,
          k ∈ source_fields (key_given (majestic_api_key keys))
                (key_given (ahrefs_api_key keys)) (key_given (dataforseo_api_key keys)) ->
          k <> "url" -> k <> "status_code" -> r !! k = Some NA).
Proof.
  intros inner Hc.
  pose proof (process_url_with_timeout_run url keys c s) as H. cbv zeta in H.
  fold inner in H. rewrite Hc in H.
  eexists. split; [exact H|]. split; [|split; [|split]].
  - destruct inner as [o s1] eqn:E. simpl in *. subst o.
    apply timed_process_url in E as (D & HD & ->). simpl in HD. congruence.
  - apply blank_result_status.
  - intros k v Hv Hu Hs.
    destruct (blank_result_lookup _ _ _ _ _ _ _ Hv) as [[? _]|[[? _]|?]]; easy.
  - intros k. apply blank_result_field.
Qed.

(** * Properties of the adapters *)



























(** * The order of the network operations *)

Lemma chained_app t evs t' evs' t'' :
  chained t evs t' -> chained t' evs' t'' -> chained t (evs ++ evs') t''.
Proof. induction 1; cbn; [easy|]. intros H'. constructor; auto. Qed.

Lemma sequential_still {A} (m : N A) :
  (forall c s, clock (snd (m c s)) = clock s /\ trace (snd (m c s)) = trace s) ->
  sequential m.
Proof.
  intros H c s o s' E. destruct (H c s) as [Hc Ht]. rewrite E in Hc, Ht. cbn in Hc, Ht.
  exists []. rewrite Hc, Ht, app_nil_r. split; [reflexivity|constructor].
Qed.

Lemma sequential_ret {A} (a : A) : sequential (ret a).
Proof. now apply sequential_still. Qed.

Lemma sequential_raise {A} e : sequential (@raise Ctx NetState A e).
Proof. now apply sequential_still. Qed.

Lemma sequential_lift {A} (o : outcome A) : sequential (lift o).
Proof. now apply sequential_still. Qed.

Lemma sequential_gets {A} (f : NetState -> A) : sequential (gets f).
Proof. now apply sequential_still. Qed.

Lemma sequential_bind {A B} (m : N A) (f : A -> N B) :
  sequential m -> (forall a, sequential (f a)) -> sequential (bind m f).
Proof.
  intros Hm Hf c s o s'. unfold bind.
  destruct (m c s) as [[a|e|] s1] eqn:E; destruct (Hm _ _ _ _ E) as (evs & Ht & Hc).
  - intros E'. destruct (Hf a _ _ _ _ E') as (evs' & Ht' & Hc').
    exists (evs ++ evs'). split; [now rewrite Ht', Ht, app_assoc|].
    eapply chained_app; eauto.
  - intros [= <- <-]. eauto.
  - intros [= <- <-]. eauto.
Qed.

Lemma sequential_try {A} (m : N A) h :
  sequential m -> (forall e, sequential (h e)) -> sequential (try_except m h).
Proof.
  intros Hm Hh c s o s'. unfold try_except.
  destruct (m c s) as [[a|e|] s1] eqn:E; destruct (Hm _ _ _ _ E) as (evs & Ht & Hc).
  - intros [= <- <-]. eauto.
  - intros E'. destruct (Hh e _ _ _ _ E') as (evs' & Ht' & Hc').
    exists (evs ++ evs'). split; [now rewrite Ht', Ht, app_assoc|].
    eapply chained_app; eauto.
  - intros [= <- <-]. eauto.
Qed.

Lemma sequential_suspend mk d :
  (forall t t', ev_start (mk t t') = t /\ ev_end (mk t t') = t') ->
  sequential (suspend mk d).
Proof.
  intros Hmk c s o s'. unfold suspend.
  destruct (deadline c) as [D|]; [destruct (Qltb D (clock s + d))|];
    intros [= <- <-]; eexists [_]; (split; [reflexivity|]); cbn;
    (constructor; [apply Hmk|]);
    match goal with |- chained ?a _ ?b =>
      replace a with b by (symmetry; apply Hmk); constructor end.
Qed.

Lemma sequential_wait_for {A} (m : N A) t : sequential m -> sequential (wait_for m t).
Proof.
  intros Hm c s o s'. unfold wait_for.
  destruct (m _ s) as [[a|e|] s1] eqn:E; destruct (Hm _ _ _ _ E) as (evs & Ht & Hc);
    intros [= <- <-]; eauto.
Qed.

Lemma sequential_response_json resp : sequential (response_json resp).
Proof.
  unfold response_json. destruct (body resp); [apply sequential_ret|apply sequential_raise].
Qed.

Ltac sequential_step :=
  lazymatch goal with
  | |- sequential (bind _ _) => apply sequential_bind; [|intros ?]
  | |- sequential (try_except _ _) => apply sequential_try; [|intros ?]
  | |- sequential (ret _) => apply sequential_ret
  | |- sequential (raise _) => apply sequential_raise
  | |- sequential (gets _) => apply sequential_gets
  | |- sequential (lift _) => apply sequential_lift
  | |- sequential (response_json _) => apply sequential_response_json
  | |- sequential (wait_for _ _) => apply sequential_wait_for
  | |- sequential (if ?b then _ else _) => destruct b
  | |- sequential (match ?x with _ => _ end) => destruct x
  end.

Lemma sequential_wait_if_needed id : sequential (wait_if_needed id).
Proof.
  unfold wait_if_needed, time_time, sleep.
  repeat sequential_step;
    try (apply sequential_suspend; now intros);
    apply sequential_still; intros c s; cbn; now destruct id.
Qed.

Lemma sequential_http ep target t : sequential (http ep target t).
Proof.
  unfold http.
  apply sequential_bind; [now apply sequential_still|intros rep].
  apply sequential_bind; [apply sequential_suspend; now intros|intros _].
  apply sequential_lift.
Qed.

Ltac sequential_leaf :=
  first [ apply sequential_wait_if_needed | apply sequential_http ].

Lemma sequential_majestic url key : sequential (get_majestic_data url key).
Proof.
  unfold get_majestic_data, majestic_topic. repeat sequential_step; sequential_leaf.
Qed.

Lemma sequential_ahrefs url key : sequential (get_ahrefs_data url key).
Proof.
  unfold get_ahrefs_data, ahrefs_domain_rating, ahrefs_refdomains, ahrefs_org_traffic.
  repeat sequential_step; sequential_leaf.
Qed.

Lemma sequential_dataforseo url key : sequential (get_dataforseo_data url key).
Proof.
  unfold get_dataforseo_data, dataforseo_backlinks, dataforseo_traffic.
  repeat sequential_step; sequential_leaf.
Qed.

Lemma sequential_check_https url : sequential (check_https url).
Proof. unfold check_https. repeat sequential_step; sequential_leaf. Qed.

(** The network operations of one URL take place one after the other. *)
Lemma sequential_process_url url keys : sequential (process_url url keys).
Proof.
  unfold process_url.
  repeat sequential_step;
    first [ sequential_leaf | apply sequential_check_https | apply sequential_majestic
          | apply sequential_ahrefs | apply sequential_dataforseo ].
Qed.

Lemma sequential_process_url_with_timeout url keys :
  sequential (process_url_with_timeout url keys).
Proof.
  unfold process_url_with_timeout.
  repeat sequential_step; apply sequential_process_url.
Qed.

(** * Properties of the job processor *)

Lemma job_keys_fields job_data :
  credentials_given job_data ->
  source_fields (key_given (majestic_api_key (job_keys job_data)))
    (key_given (ahrefs_api_key (job_keys job_data)))
    (key_given (dataforseo_api_key (job_keys job_data))) = job_fields job_data.
Proof.
  intros (Hm & Ha & Hd). unfold job_fields, job_keys. simpl.
  destruct (use_majestic job_data), (use_ahrefs job_data), (use_dataforseo job_data);
    rewrite ?Hm, ?Ha, ?Hd by reflexivity; reflexivity.
Qed.

Lemma length_append s t :
  String.length (s +:+ t) = (String.length s + String.length t)%nat.
Proof. induction s as [|a s IH]; simpl; [reflexivity|now rewrite IH]. Qed.

Lemma status_path_neq_job job_id : status_path job_id <> job_path job_id.
Proof.
  unfold status_path, job_path. intros H.
  apply (f_equal String.length) in H.
  rewrite !length_append in H. simpl in H. lia.
Qed.

Lemma status_path_neq_result job_id : status_path job_id <> result_path job_id.
Proof. unfold status_path, result_path. intros H. cbn in H. discriminate H. Qed.

Lemma uncompleted_cancel job_id files :
  uncompleted job_id files -> uncompleted job_id (cancel_job job_id files).
Proof.
  intros H. unfold cancel_job.
  set (files' := match files !! job_path job_id with
                 | Some _ => delete (job_path job_id) files
                 | None => files
                 end).
  assert (files' !! status_path job_id = files !! status_path job_id) as E.
  { unfold files'. destruct (files !! job_path job_id); [|reflexivity].
    apply lookup_delete_ne. intros Hp. now apply (status_path_neq_job job_id). }
  assert (uncompleted job_id files') as H'.
  { intros d. rewrite E. apply H. }
  destruct (files' !! status_path job_id) as [[ | status_data | ]|]; try exact H'.
  destruct (py_eq_str _ _); [|exact H'].
  intros d. rewrite lookup_insert_eq. intros [= <-].
  rewrite lookup_insert_eq. congruence.
Qed.

Lemma uncompleted_progress job_id files progress total elapsed :
  uncompleted job_id
    (<[status_path job_id := FStatus (progress_status progress total elapsed)]> files).
Proof.
  intros d. rewrite lookup_insert_eq. intros [= <-].
  unfold progress_status. now rewrite !lookup_insert_ne by congruence.
Qed.

Lemma result_cancel job_id files :
  cancel_job job_id files !! result_path job_id = files !! result_path job_id.
Proof.
  unfold cancel_job.
  set (files' := match files !! job_path job_id with
                 | Some _ => delete (job_path job_id) files
                 | None => files
                 end).
  assert (files' !! result_path job_id = files !! result_path job_id) as E.
  { unfold files'. destruct (files !! job_path job_id); [|reflexivity].
    apply lookup_delete_ne. unfold job_path, result_path. intros Hp. cbn in Hp.
    discriminate Hp. }
  destruct (files' !! status_path job_id) as [[ | status_data | ]|]; try exact E.
  destruct (py_eq_str _ _); [|exact E].
  rewrite lookup_insert_ne; [exact E|apply status_path_neq_result].
Qed.

(** One turn of the loop, in any environment. *)
Lemma url_step_run job_id job_data start_time i url env st :
  exists r ns' st',
    url_step job_id job_data (job_keys job_data) start_time i url env st =
      (if disk_ok env (disk_writes st) then Ok tt else Raise OSError, st')
    /\ dom r = source_fields (key_given (majestic_api_key (job_keys job_data)))
                 (key_given (ahrefs_api_key (job_keys job_data)))
                 (key_given (dataforseo_api_key (job_keys job_data)))
    /\ results st' = Some (default [] (results st) ++ [r])
    /\ net_state st' = ns'
    /\ disk_writes st' = S (disk_writes st)
    /\ (disk_ok env (disk_writes st) = true ->
        let content :=
          FStatus (progress_status (i + 1) (length (urls job_data))
                     (clock ns' - start_time)) in
        journal st' = journal st ++ [(Progress, content)]
        /\ fs st' =
           (if cancel_request env (i + 1)%nat
            then cancel_job job_id (<[status_path job_id := content]> (fs st))
            else <[status_path job_id := content]> (fs st)))
    /\ (disk_ok env (disk_writes st) = false ->
        journal st' = journal st /\ fs st' = fs st).
Proof.
  destruct (process_url_with_timeout_returns url (job_keys job_data)
              {| net := network env; deadline := None |} (net_state st))
    as (r & ns' & Hrun & Hdom).
  exists r, ns'.
  unfold url_step.
  cbv [bind try_except run_net append_result modify gets write_file front_end].
  rewrite Hrun. cbn [net_state disk_writes set_results set_net_state results fs journal].
  destruct (disk_ok env (disk_writes st)) eqn:Hdisk.
  - destruct (cancel_request env (i + 1)%nat); eexists; (split; [reflexivity|]);
      cbn; repeat split; try easy.
  - eexists; (split; [reflexivity|]); cbn; repeat split; easy.
Qed.

(** The loop from index [i] on, in any environment: it ends normally or
    on a failed write; it appends one record per URL done and one
    progress entry per URL whose progress was written. *)
Lemma url_loop_run job_id job_data start_time env : forall todo i st rs,
  results st = Some rs ->
  exists o st' new entries,
    url_loop job_id job_data (job_keys job_data) start_time i todo env st = (o, st')
    /\ (o = Ok tt \/ o = Raise OSError)
    /\ results st' = Some (rs ++ new)
    /\ List.Forall
         (fun r : gmap string json =>
            dom r = source_fields (key_given (majestic_api_key (job_keys job_data)))
                      (key_given (ahrefs_api_key (job_keys job_data)))
                      (key_given (dataforseo_api_key (job_keys job_data)))) new
    /\ journal st' = journal st ++ entries
    /\ progress_entries (length (urls job_data)) i entries
    /\ (o = Ok tt -> length new = length todo /\ length entries = length todo)
    /\ ((forall k, disk_ok env k = true) -> o = Ok tt)
    /\ (uncompleted job_id (fs st) -> uncompleted job_id (fs st'))
    /\ fs st' !! result_path job_id = fs st !! result_path job_id.
Proof.
  induction todo as [|url rest IH]; intros i st rs Hrs.
  - exists (Ok tt), st, [], []. cbn. rewrite !app_nil_r.
    repeat split; auto using progress_done.
  - destruct (url_step_run job_id job_data start_time i url env st)
      as (r & ns' & st1 & Hstep & Hdom & Hres & _ & _ & Hok & Hko).
    rewrite Hrs in Hres. cbn in Hres.
    cbn [url_loop].
    destruct (disk_ok env (disk_writes st)) eqn:Hdisk.
    + destruct (Hok eq_refl) as [Hj Hfs]. cbv zeta in Hj, Hfs.
      destruct (IH (S i) st1 _ Hres)
        as (o & st' & new & entries & Hrun & Ho & Hres' & Hall & Hj' & Hpe & Hlen
            & Hrel & Hun & Hrp).
      exists o, st', (r :: new),
        ((Progress, FStatus (progress_status (i + 1) (length (urls job_data))
                               (clock ns' - start_time))) :: entries).
      rewrite (bind_Ok _ _ _ _ _ _ Hstep), Hrun.
      split; [reflexivity|]. split; [exact Ho|].
      split; [now rewrite Hres', <- app_assoc|].
      split; [now constructor|].
      split; [now rewrite Hj', Hj, <- app_assoc|].
      split; [now constructor|].
      split; [intros Heq; destruct (Hlen Heq); cbn; lia|].
      split; [exact Hrel|].
      split.
      * intros _. apply Hun. rewrite Hfs.
        destruct (cancel_request env (i + 1)%nat);
          [apply uncompleted_cancel|]; apply uncompleted_progress.
      * rewrite Hrp, Hfs.
        destruct (cancel_request env (i + 1)%nat); rewrite ?result_cancel;
          apply lookup_insert_ne, status_path_neq_result.
    + destruct (Hko eq_refl) as [Hj Hfs].
      exists (Raise OSError), st1, [r], [].
      rewrite (bind_Raise _ _ _ _ _ _ Hstep).
      split; [reflexivity|]. split; [now right|].
      split; [exact Hres|].
      split; [now repeat constructor|].
      split; [now rewrite Hj, app_nil_r|].
      split; [constructor|].
      split; [easy|].
      split; [intros Hall; now rewrite Hall in Hdisk|].
      now rewrite Hfs.
Qed.

(** The [except] block: it leaves [results] alone and never makes the
    status file say "completed". *)
Lemma job_failed_run job_id job_data e env st :
  exists o st',
    job_failed job_id job_data e env st = (o, st')
    /\ results st' = results st
    /\ (uncompleted job_id (fs st) -> uncompleted job_id (fs st'))
    /\ Forall (fun entry => fst entry = Failure)
         (drop (length (journal st)) (journal st')).
Proof.
  unfold job_failed. cbv [bind gets write_file].
  destruct (disk_ok env (disk_writes st)); eexists _, _; (split; [reflexivity|]); cbn.
  - split; [reflexivity|]. split.
    + intros _ d. rewrite lookup_insert_eq. intros [= <-].
      now rewrite !lookup_insert_ne by congruence.
    + rewrite drop_app_length. now repeat constructor.
  - split; [reflexivity|]. split; [easy|]. rewrite drop_all. constructor.
Qed.

(** The [try] block, in any environment. *)
Lemma job_body_run job_id job_data start_time env st :
  results st = None ->
  exists o st',
    job_body job_id job_data start_time env st = (o, st')
    /\ (results st' = None
        \/ exists rs, results st' = Some rs /\ List.Forall (job_record_fields job_data) rs)
    /\ (session_ok env = true -> (forall k, disk_ok env k = true) -> o = Ok tt)
    /\ (o = Ok tt ->
        exists rs entries,
          results st' = Some rs
          /\ length rs = length (urls job_data)
          /\ length entries = length (urls job_data)
          /\ progress_entries (length (urls job_data)) 0 entries
          /\ journal st' =
             journal st ++ entries
             ++ [(SaveResult,
                  FSheet (export_to_ods rs (use_majestic job_data) (use_ahrefs job_data)
                            (use_dataforseo job_data)));
                 (Completion,
                  FStatus (completed_status job_id (length (urls job_data)) rs
                             (clock (net_state st') - start_time)))]
          /\ fs st' !! status_path job_id =
             Some (FStatus (completed_status job_id (length (urls job_data)) rs
                              (clock (net_state st') - start_time)))
          /\ fs st' !! result_path job_id =
             Some (FSheet (export_to_ods rs (use_majestic job_data) (use_ahrefs job_data)
                             (use_dataforseo job_data))))
    /\ (o <> Ok tt ->
        (exists e, o = Raise e)
        /\ (uncompleted job_id (fs st) -> uncompleted job_id (fs st'))).
Proof.
  intros Hnone. unfold job_body. cbv [bind open_session modify gets].
  destruct (session_ok env) eqn:Hsession.
  2:{ exists (Raise OSError), st. split; [reflexivity|].
      split; [now left|]. split; [easy|]. split; [easy|].
      intros _. split; [now exists OSError|easy]. }
  destruct (url_loop_run job_id job_data start_time env (urls job_data) 0
              (set_results (Some []) st) [] eq_refl)
    as (o & st1 & new & entries & Hrun & Ho & Hres & Hall & Hj & Hpe & Hlen & Hrel
        & Hun & Hrp).
  rewrite Hrun. cbn [app] in Hres. cbn [set_results journal fs] in Hj, Hun, Hrp.
  destruct Ho as [-> | ->].
  2:{ exists (Raise OSError), st1. split; [reflexivity|].
      split; [right; eauto|]. split; [intros _ Hd; now specialize (Hrel Hd)|].
      split; [easy|]. intros _. split; [now exists OSError|exact Hun]. }
  destruct (Hlen eq_refl) as [Hn He]. clear Hlen Hrel.
  rewrite Hres. cbn [default from_option id]. unfold write_file at 1.
  destruct (disk_ok env (disk_writes st1)) eqn:Hd1.
  2:{ eexists (Raise OSError), _. split; [reflexivity|]. cbn.
      split; [right; eauto|]. split; [intros _ Hd; now rewrite Hd in Hd1|].
      split; [easy|]. intros _. split; [now exists OSError|exact Hun]. }
  cbn [net_state disk_writes]. unfold write_file.
  cbn [net_state disk_writes fs results journal].
  destruct (disk_ok env (S (disk_writes st1))) eqn:Hd2.
  2:{ eexists (Raise OSError), _. split; [reflexivity|]. cbn.
      split; [right; eauto|]. split; [intros _ Hd; now rewrite Hd in Hd2|].
      split; [easy|]. intros _. split; [now exists OSError|].
      intros Hu d.
      rewrite lookup_insert_ne by (intros H; now apply (status_path_neq_result job_id)).
      now apply Hun. }
  eexists (Ok tt), _. split; [reflexivity|]. cbn.
  split; [right; eauto|]. split; [easy|]. split; [|easy].
  intros _. exists new, entries.
  split; [exact Hres|]. split; [exact Hn|]. split; [exact He|]. split; [exact Hpe|].
  split; [now rewrite Hj, <- !app_assoc|].
  split; [apply lookup_insert_eq|].
  rewrite lookup_insert_ne by apply status_path_neq_result. apply lookup_insert_eq.
Qed.

Lemma uncompleted_claim job_id files total :
  uncompleted job_id (<[status_path job_id := FStatus (claim_status total)]> files).
Proof.
  intros d. rewrite lookup_insert_eq. intros [= <-].
  unfold claim_status. now rewrite !lookup_insert_ne by congruence.
Qed.

Lemma completed_status_status job_id total rs duration :
  completed_status job_id total rs duration !! "status" = Some (JStr "completed").
Proof. unfold completed_status. now rewrite !lookup_insert_ne by congruence. Qed.

(** A whole job, in any environment. *)
Lemma process_job_run job_id job_data env st :
  exists o st',
    process_job job_id job_data env st = (o, st')
    /\ (results st' = None
        \/ exists rs, results st' = Some rs /\ List.Forall (job_record_fields job_data) rs)
    /\ (session_ok env = true -> (forall k, disk_ok env k = true) ->
        exists rs entries,
          o = Ok tt
          /\ results st' = Some rs
          /\ length rs = length (urls job_data)
          /\ length entries = length (urls job_data)
          /\ progress_entries (length (urls job_data)) 0 entries
          /\ journal st' =
             journal st
             ++ (Claim, FStatus (claim_status (length (urls job_data)))) :: entries
             ++ [(SaveResult,
                  FSheet (export_to_ods rs (use_majestic job_data) (use_ahrefs job_data)
                            (use_dataforseo job_data)));
                 (Completion,
                  FStatus (completed_status job_id (length (urls job_data)) rs
                             (clock (net_state st') - clock (net_state st))))]
          /\ fs st' !! status_path job_id =
             Some (FStatus (completed_status job_id (length (urls job_data)) rs
                              (clock (net_state st') - clock (net_state st))))
          /\ fs st' !! result_path job_id =
             Some (FSheet (export_to_ods rs (use_majestic job_data) (use_ahrefs job_data)
                             (use_dataforseo job_data))))
    /\ (fs st !! status_path job_id = None ->
        forall d,
          fs st' !! status_path job_id = Some (FStatus d) ->
          d !! "status" = Some (JStr "completed") ->
          exists rs,
            results st' = Some rs
            /\ length rs = length (urls job_data)
            /\ d = completed_status job_id (length (urls job_data)) rs
                     (clock (net_state st') - clock (net_state st))).
Proof.
  unfold process_job. cbv [bind modify gets write_file try_except].
  cbn [set_results net_state disk_writes fs results journal].
  destruct (disk_ok env (disk_writes st)) eqn:Hclaim.
  2:{ eexists _, _. split; [reflexivity|]. cbn.
      split; [now left|]. split; [intros _ Hd; now rewrite Hd in Hclaim|].
      intros Hq d Hd. congruence. }
  set (st1 := {| net_state := net_state st;
                 fs := <[status_path job_id :=
                           FStatus (claim_status (length (urls job_data)))]> (fs st);
                 disk_writes := S (disk_writes st);
                 results := None;
                 journal := journal st
                            ++ [(Claim, FStatus (claim_status (length (urls job_data))))] |}).
  destruct (job_body_run job_id job_data (clock (net_state st)) env st1 eq_refl)
    as (o & st2 & Hrun & Hres & Hrel & Hok & Hko).
  rewrite Hrun.
  assert (uncompleted job_id (fs st1)) as Hu1 by apply uncompleted_claim.
  destruct o as [[]|e|].
  - exists (Ok tt), st2. split; [reflexivity|]. split; [exact Hres|].
    destruct (Hok eq_refl) as (rs & entries & Hrs & Hn & He & Hpe & Hj & Hst & Hrf).
    split.
    + intros _ _. exists rs, entries. repeat split; try assumption.
      rewrite Hj. unfold st1. cbn [journal]. now rewrite <- app_assoc.
    + intros _ d Hd _. exists rs. rewrite Hst in Hd. injection Hd as <-. auto.
  - destruct (Hko ltac:(congruence)) as [_ Hu2].
    destruct (job_failed_run job_id job_data e env st2) as (o' & st3 & Hf & Hr3 & Hu3 & _).
    rewrite Hf. exists o', st3. split; [reflexivity|].
    split; [now rewrite Hr3|].
    split; [intros Hs Hd; now specialize (Hrel Hs Hd)|].
    intros _ d Hd Hc. exfalso. exact (Hu3 (Hu2 Hu1) d Hd Hc).
  - destruct (Hko ltac:(congruence)) as [[e He] _]. congruence.
Qed.

(** * Properties of whole jobs *)

(** C6.  With a non-empty credential for every source that is switched
    on, every record of a job has exactly the fields [url],
    [status_code] and [secure] and those of the sources switched on:
    the records [process_job] collects, what [process_url_with_timeout]
    returns (the "Timeout" record included), and the "Error" record. *)
Theorem result_fields (job_id : string) (job_data : JobData) (env : Env) (st : JobState) :
  credentials_given job_data ->
  (forall rs,
      results (snd (process_job job_id job_data env st)) = Some rs ->
      List.Forall (fun r : gmap string json => dom r = job_fields job_data) rs)
  /\ (forall url c s r s',
        process_url_with_timeout url (job_keys job_data) c s = (Ok r, s') ->
        dom r = job_fields job_data)
  /\ (forall url,
        dom (blank_result url (JStr "Error") (use_majestic job_data)
               (use_ahrefs job_data) (use_dataforseo job_data)) = job_fields job_data).
Proof.
  intros Hcred. pose proof (job_keys_fields job_data Hcred) as Hf.
  split; [|split].
  - intros rs Hrs.
    destruct (process_job_run job_id job_data env st) as (o & st' & Hrun & Hres & _).
    rewrite Hrun in Hrs. cbn in Hrs.
    destruct Hres as [Hnone|(rs' & Hsome & Hall)]; [congruence|].
    rewrite Hsome in Hrs. injection Hrs as <-.
    unfold job_record_fields in Hall. now rewrite Hf in Hall.
  - intros url c s r s' Hrun.
    destruct (process_url_with_timeout_returns url (job_keys job_data) c s)
      as (r' & s'' & Hrun' & Hdom).
    rewrite Hrun' in Hrun. injection Hrun as <- _. now rewrite Hdom.
  - intros url. apply blank_result_dom.
Qed.




Lemma is_error_status_spec v :
  is_error_status v = true <->
  v = Some (JStr "Timeout") \/ v = Some (JStr "Error") \/ v = Some (JStr "N/A").
Proof.
  unfold is_error_status, py_eq_str. split.
  - destruct v as [[| | |s| |]|]; try discriminate.
    rewrite !orb_true_iff, !String.eqb_eq. intuition congruence.
  - intros [->|[->| ->]]; reflexivity.
Qed.

Lemma filter_split {A} (f : A -> bool) (l : list A) :
  (length (List.filter (fun x => negb (f x)) l) + length (List.filter f l) = length l)%nat.
Proof. induction l as [|a l IH]; cbn; [reflexivity|]. destruct (f a); cbn; lia. Qed.

(** C9.  When a job that was not yet claimed ends with a status file
    that says "completed", the worker has one record per URL, the file
    counts as errors the records whose status code is "Timeout",
    "Error" or "N/A" and as successes the others, and the two counts
    add up to the number of URLs. *)
Theorem completed_counts (job_id : string) (job_data : JobData) (env : Env)
    (st : JobState) (d : gmap string json) :
  fs st !! status_path job_id = None ->
  fs (snd (process_job job_id job_data env st)) !! status_path job_id = Some (FStatus d) ->
  d !! "status" = Some (JStr "completed") ->
  exists rs,
    let is_error := fun r : gmap string json => is_error_status (r !! "status_code") in
    let errors := length (List.filter is_error rs) in
    let successful := length (List.filter (fun r => negb (is_error r)) rs) in
    results (snd (process_job job_id job_data env st)) = Some rs
    /\ length rs = length (urls job_data)
    /\ d !! "successful" = Some (jnat successful)
    /\ d !! "errors" = Some (jnat errors)
    /\ (successful + errors = length (urls job_data))%nat
    /\ (forall r, is_error r = true <->
          r !! "status_code" = Some (JStr "Timeout")
          \/ r !! "status_code" = Some (JStr "Error")
          \/ r !! "status_code" = Some (JStr "N/A")).
Proof.
  intros Hq Hd Hc.
  destruct (process_job_run job_id job_data env st) as (o & st' & Hrun & _ & _ & Hdone).
  rewrite Hrun in *. cbn [snd] in *.
  destruct (Hdone Hq d Hd Hc) as (rs & Hrs & Hn & ->).
  exists rs. cbv zeta.
  pose proof (filter_split (fun r : gmap string json => is_error_status (r !! "status_code")) rs)
    as Hsplit.
  split; [exact Hrs|]. split; [exact Hn|].
  split; [unfold completed_status; now simplify_map_eq|].
  split.
  - unfold completed_status. simplify_map_eq. do 2 f_equal. lia.
  - split; [lia|]. intros r. apply is_error_status_spec.
Qed.

(** * Scenarios *)

(** Whatever the front end asks for between two URLs, a job whose
    session opens and whose writes succeed ends "completed", with one
    record per URL and with its result file. *)
Lemma cancel_request_ignored job_id job_data env st :
  session_ok env = true ->
  (forall k, disk_ok env k = true) ->
  exists rs st',
    process_job job_id job_data env st = (Ok tt, st')
    /\ results st' = Some rs
    /\ length rs = length (urls job_data)
    /\ status_field job_id "status" st' = Some (JStr "completed")
    /\ status_field job_id "progress" st' = Some (jnat (length (urls job_data)))
    /\ fs st' !! result_path job_id =
       Some (FSheet (export_to_ods rs (use_majestic job_data) (use_ahrefs job_data)
                       (use_dataforseo job_data))).
Proof.
  intros Hs Hd.
  destruct (process_job_run job_id job_data env st) as (o & st' & Hrun & _ & Hrel & _).
  destruct (Hrel Hs Hd) as (rs & entries & -> & Hrs & Hn & _ & _ & _ & Hst & Hrf).
  exists rs, st'. split; [exact Hrun|]. split; [exact Hrs|]. split; [exact Hn|].
  unfold status_field. rewrite Hst. unfold completed_status.
  split; [now simplify_map_eq|]. split; [|exact Hrf].
  simplify_map_eq. now rewrite Hn.
Qed.

(** A request that comes between two URLs does reach the status file:
    after the turn of the loop it says "cancelled", with the progress
    made so far. *)
Lemma cancel_request_lands job_id job_data start_time i url env st :
  disk_ok env (disk_writes st) = true ->
  cancel_request env (i + 1)%nat = true ->
  let st' := snd (url_step job_id job_data (job_keys job_data) start_time i url env st) in
  status_field job_id "status" st' = Some (JStr "cancelled")
  /\ status_field job_id "progress" st' = Some (jnat (i + 1)).
Proof.
  intros Hd Hc st'.
  destruct (url_step_run job_id job_data start_time i url env st)
    as (r & ns' & st1 & Hstep & _ & _ & _ & _ & Hok & _).
  destruct (Hok Hd) as [_ Hfs]. cbv zeta in Hfs. rewrite Hc in Hfs.
  subst st'. rewrite Hstep. cbn [snd]. unfold status_field. rewrite Hfs.
  unfold cancel_job. rewrite lookup_insert_ne by apply status_path_neq_job.
  set (content := progress_status _ _ _).
  assert (forall files : gmap string file,
            files !! status_path job_id = Some (FStatus content) ->
            match
              (if py_eq_str (default JNull (content !! "status")) "processing"
               then <[status_path job_id :=
                        FStatus (<["status" := JStr "cancelled"]> content)]> files
               else files) !! status_path job_id
            with
            | Some (FStatus d) => d !! "status"
            | _ => None
            end = Some (JStr "cancelled")
            /\ match
                 (if py_eq_str (default JNull (content !! "status")) "processing"
                  then <[status_path job_id :=
                           FStatus (<["status" := JStr "cancelled"]> content)]> files
                  else files) !! status_path job_id
               with
               | Some (FStatus d) => d !! "progress"
               | _ => None
               end = Some (jnat (i + 1))) as Hflip.
  { intros files Hfiles. unfold content, progress_status. simplify_map_eq. split; reflexivity. }
  destruct (fs st !! job_path job_id) eqn:Ej.
  - rewrite lookup_delete_ne, lookup_insert_eq by
      (intros H; now apply (status_path_neq_job job_id)).
    apply Hflip. rewrite lookup_delete_ne by
      (intros H; now apply (status_path_neq_job job_id)).
    apply lookup_insert_eq.
  - rewrite lookup_insert_eq. apply Hflip, lookup_insert_eq.
Qed.

(** C1, on the code.  In a job of five URLs the front end calls
    [cancel_job] between the first URL and the second.  The status file
    then says "cancelled" with a progress of 1; the worker does not read
    it: it writes the progress of the four other URLs over it, saves the
    result file with five rows and ends with the status "completed". *)
Theorem cancel_between_urls_is_lost :
  let env := cancel_after_first in
  let boundary :=
    snd (url_step "job" five_urls (job_keys five_urls) 0 0 "a.com" env
           (claimed "job" five_urls env 0)) in
  let run := process_job "job" five_urls env (queued "job" five_urls 0) in
  status_field "job" "status" boundary = Some (JStr "cancelled")
  /\ status_field "job" "progress" boundary = Some (jnat 1)
  /\ fst run = Ok tt
  /\ status_field "job" "status" (snd run) = Some (JStr "completed")
  /\ status_field "job" "progress" (snd run) = Some (jnat 5)
  /\ map fst (journal (snd run)) =
     [Claim; Progress; Progress; Progress; Progress; Progress; SaveResult; Completion]
  /\ match fs (snd run) !! result_path "job" with
     | Some (FSheet doc) => length (body_rows doc)
     | _ => 0%nat
     end = 5%nat.
Proof. vm_compute. repeat split. Qed.

(** C3, on the code.  A URL whose status fetch and HTTPS probe take nine
    seconds each and whose topic request takes fourteen: the three
    operations are awaited in turn, the third is cut at the thirtieth
    second and the URL is reported as "Timeout", although each
    operation stays within the timeout of its own request. *)
Theorem url_operations_take_turns :
  let run :=
    process_url_with_timeout "example.com" majestic_only
      {| net := slow_net; deadline := None |} (worker_start 0) in
  trace (snd run) =
    [ENet StatusFetch "http://example.com" 0 9;
     ENet HttpsProbe "https://example.com" 9 18;
     ENet MajesticTopics "example.com" 18 30]
  /\ exists r,
       fst run = Ok r
       /\ r !! "status_code" = Some (JStr "Timeout")
       /\ r !! "majestic_topics" = Some NA.
Proof.
  vm_compute. split; [reflexivity|]. eexists. split; [reflexivity|]. split; reflexivity.
Qed.

(** ** Instances *)

Lemma timeout_record_witness :
  exists r,
    fst (process_url_with_timeout "example.com" ahrefs_only
           {| net := ahrefs_silent; deadline := None |} (worker_start 0)) = Ok r
    /\ r !! "status_code" = Some (JStr "Timeout")
    /\ r !! "ahrefs_refdomains" = Some NA.
Proof.
  assert (fst (process_url "example.com" ahrefs_only
                 {| net := ahrefs_silent;
                    deadline := Some (clock (worker_start 0) + URL_TIMEOUT)%Q |}
                 (worker_start 0)) = Cancelled) as Hc by (vm_compute; reflexivity).
  destruct (timeout_record {| net := ahrefs_silent; deadline := None |} (worker_start 0)
              "example.com" ahrefs_only Hc) as (r & Hrun & _ & Hst & _ & Hfield).
  exists r. rewrite Hrun. split; [reflexivity|]. split; [exact Hst|].
  apply Hfield; [|discriminate|discriminate].
  cbn. set_solver.
Defined.


Lemma result_fields_witness :
  List.Forall (fun r : gmap string json => dom r = job_fields five_urls)
    (default []
       (results (snd (process_job "job" five_urls cancel_after_first
                        (queued "job" five_urls 0))))).
Proof.
  assert (credentials_given five_urls) as Hcred.
  { repeat split; cbn; intros; first [reflexivity|discriminate]. }
  destruct (result_fields "job" five_urls cancel_after_first (queued "job" five_urls 0) Hcred)
    as (Hall & _).
  destruct (results _) as [rs|] eqn:E; cbn; [now apply Hall|constructor].
Defined.



Lemma completed_counts_witness :
  exists rs,
    results (snd (process_job "job" five_urls cancel_after_first
                    (queued "job" five_urls 0))) = Some rs
    /\ length rs = 5%nat
    /\ status_field "job" "successful"
         (snd (process_job "job" five_urls cancel_after_first (queued "job" five_urls 0)))
       = Some (jnat 5).
Proof.
  set (run := process_job "job" five_urls cancel_after_first (queued "job" five_urls 0)).
  set (d := match fs (snd run) !! status_path "job" with
            | Some (FStatus d) => d
            | _ => ∅
            end).
  assert (fs (queued "job" five_urls 0) !! status_path "job" = None) as H0
    by (vm_compute; reflexivity).
  assert (fs (snd run) !! status_path "job" = Some (FStatus d)) as H1
    by (vm_compute; reflexivity).
  assert (d !! "status" = Some (JStr "completed")) as H2 by (vm_compute; reflexivity).
  destruct (completed_counts "job" five_urls cancel_after_first
              (queued "job" five_urls 0) d H0 H1 H2) as (rs & Hrs & Hlen & _).
  exists rs. split; [exact Hrs|]. split; [exact Hlen|].
  vm_compute. reflexivity.
Defined.

(** * Properties of the probes *)

Lemma to_https_http d : to_https ("http://" +:+ d) = "https://" +:+ d.
Proof. reflexivity. Qed.

Lemma probe_answer_yes rep :
  probe_answer rep = JStr "Yes" <->
  exists l resp,
    latency rep = Some l /\ (l <= 10)%Q /\ wire_of rep = Answered resp
    /\ status resp = 200%Z.
Proof.
  unfold probe_answer, settle. split.
  - destruct (latency rep) as [l|]; [|easy].
    destruct (Qle_bool l 10) eqn:Hl; [|easy]. cbn.
    destruct (wire_of rep) as [|resp]; [easy|].
    destruct (status resp =? 200)%Z eqn:Hs; [|easy]. intros _.
    exists l, resp. repeat split; [now apply Qle_bool_iff|now apply Z.eqb_eq].
  - intros (l & resp & -> & Hl%Qle_bool_iff & -> & Hs). rewrite Hl. cbn.
    now rewrite Hs.
Qed.

Lemma check_https_run url n s :
  exists s',
    check_https url (free n) s = (Ok (probe_answer (n (seq s) HttpsProbe (to_https url))), s')
    /\ seq s' = S (seq s)
    /\ (forall id, limiter id s' = limiter id s).
Proof.
  unfold check_https, free, probe_answer.
  cbv [try_except bind http suspend lift ret]. cbn [deadline net clock next_seq seq].
  pose proof (settle_settled 10 (n (seq s) HttpsProbe (to_https url))) as Hs.
  destruct (snd (settle 10 (n (seq s) HttpsProbe (to_https url)))) as [resp|e|];
    [| |easy];
    (eexists; split; [reflexivity|]; split; [reflexivity|]; intros id; now destruct id).
Qed.

Lemma fetch_run url n s :
  exists s',
    try_except
      (response <- http StatusFetch url 10 ;;
       ret (JNum (inject_Z (status response))))
      (fun _ => ret NA) (free n) s
    = (Ok (fetch_answer (n (seq s) StatusFetch url)), s')
    /\ seq s' = S (seq s)
    /\ (forall id, limiter id s' = limiter id s).
Proof.
  unfold free, fetch_answer.
  cbv [try_except bind http suspend lift ret]. cbn [deadline net clock next_seq seq].
  pose proof (settle_settled 10 (n (seq s) StatusFetch url)) as Hs.
  destruct (snd (settle 10 (n (seq s) StatusFetch url))) as [resp|e|];
    [| |easy];
    (eexists; split; [reflexivity|]; split; [reflexivity|]; intros id; now destruct id).
Qed.

Lemma guarded_returns {A} (b : bool) (m : N A) (dflt : A) n s :
  timed m ->
  exists a s', (if b then try_except m (fun _ => ret dflt) else ret dflt) (free n) s
               = (Ok a, s').
Proof.
  intros Ht. destruct b; [|now eexists _, _].
  apply returns; [|apply unraised_try; intros _; apply unraised_ret|reflexivity].
  apply timed_try; [exact Ht|intros _; apply timed_ret].
Qed.

Lemma fetch_answer_error rep :
  is_error_status (Some (fetch_answer rep)) = false <->
  exists l resp, latency rep = Some l /\ (l <= 10)%Q /\ wire_of rep = Answered resp.
Proof.
  unfold fetch_answer, settle. split.
  - destruct (latency rep) as [l|]; [|discriminate].
    destruct (Qle_bool l 10) eqn:Hl; [|discriminate]. cbn [snd].
    destruct (wire_of rep) as [|resp]; [discriminate|]. intros _.
    exists l, resp. repeat split. now apply Qle_bool_iff.
  - intros (l & resp & -> & Hl%Qle_bool_iff & ->). rewrite Hl. reflexivity.
Qed.

(** X1.  Without a deadline [process_url] returns a record whose URL is
    the normalized one, whose status code is the status of the reply to
    the status fetch when that reply comes within 10 seconds and "N/A"
    otherwise, and whose HTTPS field is what the probe of the
    [https://] form of the normalized URL gives; the fetch and the
    probe are the first two requests.  So the record counts as
    successful in the status of the job exactly when the status fetch
    was answered within 10 seconds, whatever the status of the answer
    (404 and 500 as well) and whatever the sources gave. *)
Theorem process_url_record (url : string) (keys : api_keys) (n : NetEnv) (s : NetState) :
  exists r s',
    process_url url keys (free n) s = (Ok r, s')
    /\ r !! "url" = Some (JStr (normalize_url url))
    /\ r !! "status_code" = Some (fetch_answer (n (seq s) StatusFetch (normalize_url url)))
    /\ r !! "secure" =
       Some (probe_answer (n (S (seq s)) HttpsProbe
                             ("https://" +:+ cut (Str.lower (Str.rstrip (re_sub_scheme url))))))
    /\ (is_error_status (r !! "status_code") = false <->
        exists l resp,
          latency (n (seq s) StatusFetch (normalize_url url)) = Some l
          /\ (l <= 10)%Q
          /\ wire_of (n (seq s) StatusFetch (normalize_url url)) = Answered resp).
Proof.
  unfold process_url.
  destruct (fetch_run (normalize_url url) n s) as (s1 & H1 & Hq1 & _).
  destruct (check_https_run (normalize_url url) n s1) as (s2 & H2 & Hq2 & _).
  rewrite Hq1 in H2.
  assert (to_https (normalize_url url) =
          "https://" +:+ cut (Str.lower (Str.rstrip (re_sub_scheme url)))) as Ht
    by (rewrite normalize_url_closed; reflexivity).
  rewrite Ht in H2.
  destruct (guarded_returns (key_given (majestic_api_key keys))
              (get_majestic_data (normalize_url url) (majestic_api_key keys)) NA n s2
              (timed_get_majestic_data _ _)) as (v3 & s3 & H3).
  destruct (guarded_returns (key_given (ahrefs_api_key keys))
              (get_ahrefs_data (normalize_url url) (ahrefs_api_key keys)) ahrefs_na n s3
              (timed_ahrefs _ _)) as (v4 & s4 & H4).
  destruct (guarded_returns (key_given (dataforseo_api_key keys))
              (get_dataforseo_data (normalize_url url) (dataforseo_api_key keys))
              dataforseo_na n s4 (timed_dataforseo _ _)) as (v5 & s5 & H5).
  eexists _, s5. split.
  - apply try_Ok.
    erewrite bind_Ok by exact H1.
    erewrite bind_Ok by (apply try_Ok; exact H2).
    erewrite bind_Ok by exact H3.
    erewrite bind_Ok by exact H4.
    erewrite bind_Ok by exact H5.
    reflexivity.
  - assert (forall r : gmap string json,
              r !! "status_code" =
                Some (fetch_answer (n (seq s) StatusFetch (normalize_url url))) ->
              is_error_status (r !! "status_code") = false <->
              exists l resp,
                latency (n (seq s) StatusFetch (normalize_url url)) = Some l
                /\ (l <= 10)%Q
                /\ wire_of (n (seq s) StatusFetch (normalize_url url)) = Answered resp)
      as Hcount by (intros r ->; apply fetch_answer_error).
    destruct (key_given (majestic_api_key keys)),
      (key_given (ahrefs_api_key keys)), (key_given (dataforseo_api_key keys));
      (split; [reflexivity|]); (split; [reflexivity|]); (split; [reflexivity|]);
      apply Hcount; reflexivity.
Qed.

(** X2.  With no deadline in force [check_https] sends one request, to
    the URL with its leading [http://] (in any letter case) replaced by
    [https://], and never raises: it answers "Yes" when the reply comes
    within 10 seconds, is not a transport error and has status 200, and
    "No" in every other case. *)
Theorem check_https_verdict (url : string) (n : NetEnv) (s : NetState) :
  let rep := n (seq s) HttpsProbe (to_https url) in
  exists v s',
    check_https url (free n) s = (Ok (JStr v), s')
    /\ seq s' = S (seq s)
    /\ (v = "Yes" \/ v = "No")
    /\ (v = "Yes" <->
        exists l resp,
          latency rep = Some l /\ (l <= 10)%Q /\ wire_of rep = Answered resp
          /\ status resp = 200%Z).
Proof.
  intros rep. destruct (check_https_run url n s) as (s' & Hrun & Hseq & _).
  fold rep in Hrun. pose proof (probe_answer_yes rep) as Hyes.
  assert (probe_answer rep = JStr "Yes" \/ probe_answer rep = JStr "No") as Hv.
  { unfold probe_answer. destruct (snd (settle 10 rep)) as [resp|e|]; auto.
    destruct (status resp =? 200)%Z; auto. }
  destruct Hv as [Hv|Hv]; rewrite Hv in Hrun, Hyes.
  - exists "Yes", s'. split; [exact Hrun|]. split; [exact Hseq|]. split; [now left|].
    split; [intros _; now apply Hyes|reflexivity].
  - exists "No", s'. split; [exact Hrun|]. split; [exact Hseq|]. split; [now right|].
    split; [discriminate|]. intros H. apply Hyes in H. discriminate H.
Qed.

(** * Further properties of the rate limiter *)








Lemma retained_repeat self t j :
  (0 < unit_time self)%Q -> calls self = repeat t j -> retained self t = repeat t j.
Proof.
  intros HW Hc. unfold retained. rewrite Hc. clear Hc. induction j as [|j IH]; [reflexivity|]. cbn.
  assert (Qltb (t - t) (unit_time self) = true) as -> by (apply Qltb_lt; lra).
  now rewrite IH.
Qed.

Lemma retained_stale self now t j :
  (unit_time self <= now - t)%Q -> calls self = repeat t j -> retained self now = [].
Proof.
  intros HW Hc. unfold retained. rewrite Hc. clear Hc. induction j as [|j IH]; [reflexivity|]. cbn.
  assert (Qltb (now - t) (unit_time self) = false) as -> by now apply Qltb_ge.
  exact IH.
Qed.

Lemma repeat_snoc {A} (x : A) j : repeat x j ++ [x] = repeat x (S j).
Proof. induction j as [|j IH]; [reflexivity|]. cbn. now rewrite IH. Qed.

(** Admissions that find the limiter below its capacity: none waits. *)
Lemma admissions_immediate id c : forall k j s,
  (0 < unit_time (limiter id s))%Q ->
  retained (limiter id s) (clock s) = repeat (clock s) j ->
  (Z.of_nat (j + k) <= calls_per_unit (limiter id s))%Z ->
  exists s',
    admissions id k c s = (Ok tt, s')
    /\ clock s' = clock s
    /\ retained (limiter id s') (clock s') = repeat (clock s) (j + k)
    /\ calls_per_unit (limiter id s') = calls_per_unit (limiter id s)
    /\ unit_time (limiter id s') = unit_time (limiter id s).
Proof.
  induction k as [|k IH]; intros j s HW Hr HK.
  - exists s. rewrite Nat.add_0_r. now repeat split.
  - cbn [admissions].
    assert (wait_if_needed id c s =
            (Ok tt, set_limiter id
                      (set_calls (repeat (clock s) (S j)) (limiter id s)) s)) as Hrun.
    { rewrite wait_if_needed_below; [now rewrite Hr, repeat_snoc|].
      rewrite Hr, repeat_length. lia. }
    set (s1 := set_limiter id (set_calls (repeat (clock s) (S j)) (limiter id s)) s)
      in Hrun.
    assert (clock s1 = clock s) as Hc1 by (subst s1; now destruct id).
    assert (limiter id s1 = set_calls (repeat (clock s) (S j)) (limiter id s)) as Hl1
      by (subst s1; now destruct id).
    destruct (IH (S j) s1) as (s' & Hrest & Hc & Hr' & HK' & HW').
    + rewrite Hl1. exact HW.
    + rewrite Hc1. apply retained_repeat; rewrite Hl1; [exact HW|reflexivity].
    + rewrite Hl1. cbn [calls_per_unit set_calls]. lia.
    + exists s'. split; [now rewrite (bind_Ok _ _ _ _ _ _ Hrun)|].
      rewrite Hr', Hc, HK', HW', Hc1, Hl1.
      replace (S j + k)%nat with (j + S k)%nat by lia. now repeat split.
Qed.

Lemma admissions_add id c : forall a b s,
  admissions id (a + b) c s =
  match admissions id a c s with
  | (Ok _, s') => admissions id b c s'
  | (Raise e, s') => (Raise e, s')
  | (Cancelled, s') => (Cancelled, s')
  end.
Proof.
  induction a as [|a IH]; intros b s; [reflexivity|].
  cbn [Nat.add admissions]. unfold bind.
  destruct (wait_if_needed id c s) as [[[]|e|] s1]; [apply IH|reflexivity..].
Qed.

(** X5.  At a fresh limiter of capacity K >= 1 per window W > 0, with
    no deadline in force, admissions made in a row do not wait up to
    the K-th; the (K+1)-th ends one window after the start, and so do
    the K admissions after it: 2K+1 calls are let through in one
    window. *)
Theorem limiter_burst (n : NetEnv) (s : NetState) (id : limiter_id)
    (K : nat) (W : Q) (k : nat) :
  limiter id s = fresh_limiter (Z.of_nat K) W ->
  (1 <= K)%nat ->
  (0 < W)%Q ->
  (k <= 2 * K + 1)%nat ->
  exists s',
    admissions id k (free n) s = (Ok tt, s')
    /\ (clock s' == if (k <=? K)%nat then clock s else clock s + W)%Q.
Proof.
  intros Hl HK HW Hk.
  assert (retained (limiter id s) (clock s) = repeat (clock s) 0) as Hr0
    by now rewrite Hl.
  destruct (Nat.leb_spec k K) as [Hle|Hgt].
  - destruct (admissions_immediate id (free n) k 0 s) as (s' & Hrun & Hc & _).
    + now rewrite Hl.
    + exact Hr0.
    + rewrite Hl. cbn. lia.
    + exists s'. split; [exact Hrun|]. now rewrite Hc.
  - replace k with (K + (1 + (k - K - 1)))%nat by lia.
    rewrite admissions_add.
    destruct (admissions_immediate id (free n) K 0 s) as (s1 & Hrun1 & Hc1 & Hr1 & HK1 & HW1).
    { now rewrite Hl. }
    { exact Hr0. }
    { rewrite Hl. cbn. lia. }
    rewrite Hrun1, admissions_add. cbn [admissions Nat.add] in *.
    destruct K as [|K']; [lia|]. cbn [repeat] in Hr1.
    destruct (wait_if_needed_full (free n) s1 id (clock s) (repeat (clock s) K') eq_refl)
      as (s2 & Hrun2 & Hc2 & Hl2 & _).
    { rewrite Hr1, HK1, Hl. cbn [calls_per_unit fresh_limiter length].
      rewrite repeat_length. lia. }
    { exact Hr1. }
    rewrite (bind_Ok _ _ _ _ _ _ Hrun2). cbn [ret].
    rewrite HW1, Hl in Hc2. cbn [unit_time fresh_limiter] in Hc2.
    destruct (admissions_immediate id (free n) (k - S K' - 1) 0 s2)
      as (s3 & Hrun3 & Hc3 & _).
    + rewrite Hl2. cbn [unit_time set_calls]. now rewrite HW1, Hl.
    + cbn [repeat]. apply (retained_stale _ _ (clock s) (S K')).
      * rewrite Hl2. cbn [unit_time set_calls]. rewrite HW1, Hl.
        cbn [unit_time fresh_limiter]. lra.
      * rewrite Hl2, Hc1. cbn [calls set_calls]. apply repeat_snoc.
    + rewrite Hl2. cbn [calls_per_unit set_calls]. rewrite HK1, Hl.
      cbn [calls_per_unit fresh_limiter]. lia.
    + exists s3. split; [exact Hrun3|]. rewrite Hc3, Hc2. reflexivity.
Qed.

Lemma limiter_burst_witness :
  exists s',
    admissions Majestic 5 (free steady_net) two_per_unit = (Ok tt, s')
    /\ (clock s' == clock two_per_unit + 1)%Q.
Proof.
  apply (limiter_burst steady_net two_per_unit Majestic 2 1 5).
  - reflexivity.
  - lia.
  - lra.
  - lia.
Defined.

(** X6.  An admission that has to wait and meets the deadline of the
    enclosing [asyncio.wait_for] before its wait is over is cancelled
    at the deadline; the limiter then holds the timestamps it has
    retained and nothing else: the time of entry is not recorded and
    no request has been sent. *)
Theorem admission_cut_off (c : Ctx) (s : NetState) (id : limiter_id) (D first : Q)
    (rest : list Q) :
  deadline c = Some D ->
  retained (limiter id s) (clock s) = first :: rest ->
  (calls_per_unit (limiter id s) <= Z.of_nat (length (first :: rest)))%Z ->
  (D < first + unit_time (limiter id s))%Q ->
  exists s',
    wait_if_needed id c s = (Cancelled, s')
    /\ clock s' = D
    /\ calls (limiter id s') = first :: rest
    /\ seq s' = seq s.
Proof.
  intros Hd Hk HK HD. apply Z.leb_le in HK.
  assert (In first (retained (limiter id s) (clock s))) as Hin by (rewrite Hk; now left).
  apply retained_In in Hin as [_ Hyoung].
  assert (Qltb 0 (first + unit_time (limiter id s) - clock s) = true) as Hs
    by (apply Qltb_lt; lra).
  assert (Qltb D (clock s + (first + unit_time (limiter id s) - clock s)) = true) as Hcut
    by (apply Qltb_lt; lra).
  cbv [wait_if_needed bind gets modify time_time ret sleep suspend].
  fold (retained (limiter id s) (clock s)). rewrite Hk, HK, Hs, Hd.
  assert (forall l, clock (set_limiter id l s) = clock s) as Hclock by now destruct id.
  rewrite Hclock, Hcut.
  eexists. split; [reflexivity|]. now destruct id.
Qed.

Lemma admission_cut_off_witness :
  exists s',
    wait_if_needed Majestic {| net := steady_net; deadline := Some (1 # 2) |}
      (snd (admissions Majestic 2 (free steady_net) two_per_unit)) = (Cancelled, s')
    /\ clock s' = 1 # 2
    /\ calls (limiter Majestic s') = [0%Q; 0%Q]
    /\ seq s' = 0%nat.
Proof.
  apply (admission_cut_off {| net := steady_net; deadline := Some (1 # 2) |}
           (snd (admissions Majestic 2 (free steady_net) two_per_unit)) Majestic
           (1 # 2) 0 [0%Q]).
  - reflexivity.
  - reflexivity.
  - vm_compute. discriminate.
  - vm_compute. reflexivity.
Defined.

(** * Further properties of the job processor *)

Lemma blank_result_url url st m a d :
  blank_result url st m a d !! "url" = Some (JStr url).
Proof. unfold blank_result. now destruct m, a, d. Qed.

Lemma process_url_shape url keys c s r s' :
  process_url url keys c s = (Ok r, s') ->
  r !! "url" = Some (JStr (normalize_url url))
  /\ (r !! "status_code" = Some NA
      \/ exists code : Z, r !! "status_code" = Some (JNum (inject_Z code))).
Proof.
  unfold process_url. intros [H|(e & s1 & _ & H)]%try_Ok_inv.
  - apply bind_Ok_inv in H as (status_code & s1 & Hfetch & H).
    assert (status_code = NA \/ exists code : Z, status_code = JNum (inject_Z code))
      as Hcode.
    { apply try_Ok_inv in Hfetch as [Hf|(e & s0 & _ & Hf)].
      - apply bind_Ok_inv in Hf as (resp & s0 & _ & Hf).
        unfold ret in Hf. injection Hf as <- _. right. now eexists.
      - unfold ret in Hf. injection Hf as <- _. now left. }
    repeat (apply bind_Ok_inv in H as (? & ? & _ & H)).
    unfold ret in H. injection H as <- _.
    split.
    + destruct (key_given (majestic_api_key keys)),
        (key_given (ahrefs_api_key keys)), (key_given (dataforseo_api_key keys));
        reflexivity.
    + destruct Hcode as [->|(code & ->)]; [left|right; exists code];
        destruct (key_given (majestic_api_key keys)),
          (key_given (ahrefs_api_key keys)), (key_given (dataforseo_api_key keys));
        reflexivity.
  - unfold ret in H. injection H as <- _.
    split; [apply blank_result_url|left; apply blank_result_status].
Qed.

Lemma made_for_record keys url r : made_for keys url r -> record_of url r.
Proof.
  intros (c & s & s' & Hrun).
  pose proof (process_url_with_timeout_run url keys c s) as H. cbv zeta in H.
  destruct (process_url url keys _ s) as [[r'|e|] s1] eqn:E; cbn [fst snd] in H;
    [|easy|]; rewrite H in Hrun; injection Hrun as <- _.
  - left. eapply process_url_shape, E.
  - right. split; [apply blank_result_url|apply blank_result_status].
Qed.

Lemma made_for_dom keys url r :
  made_for keys url r ->
  dom r = source_fields (key_given (majestic_api_key keys))
            (key_given (ahrefs_api_key keys)) (key_given (dataforseo_api_key keys)).
Proof.
  intros (c & s & s' & Hrun).
  destruct (process_url_with_timeout_returns url keys c s) as (r' & s'' & Hrun' & Hdom).
  rewrite Hrun' in Hrun. now injection Hrun as <- _.
Qed.

(** One turn of the loop, run. *)
Lemma url_step_exec job_id job_data keys start_time i url env st :
  exists r ns',
    process_url_with_timeout url keys (free (network env)) (net_state st) = (Ok r, ns')
    /\ let content :=
         FStatus (progress_status (i + 1) (length (urls job_data))
                    (clock ns' - start_time)) in
       url_step job_id job_data keys start_time i url env st =
       if disk_ok env (disk_writes st)
       then (Ok tt,
             {| net_state := ns';
                fs := if cancel_request env (i + 1)%nat
                      then cancel_job job_id (<[status_path job_id := content]> (fs st))
                      else <[status_path job_id := content]> (fs st);
                disk_writes := S (disk_writes st);
                results := Some (default [] (results st) ++ [r]);
                journal := journal st ++ [(Progress, content)] |})
       else (Raise OSError,
             {| net_state := ns'; fs := fs st;
                disk_writes := S (disk_writes st);
                results := Some (default [] (results st) ++ [r]);
                journal := journal st |}).
Proof.
  destruct (process_url_with_timeout_returns url keys
              (free (network env)) (net_state st)) as (r & ns' & Hrun & _).
  exists r, ns'. split; [exact Hrun|]. cbv zeta. unfold free in Hrun.
  unfold url_step.
  cbv [bind try_except run_net append_result modify gets write_file front_end].
  cbn [net]. rewrite Hrun.
  cbn [net_state disk_writes set_results set_net_state results fs journal].
  destruct (disk_ok env (disk_writes st)); [|reflexivity].
  destruct (cancel_request env (i + 1)%nat); reflexivity.
Qed.

Lemma job_path_neq_result job_id job_id' : job_path job_id <> result_path job_id'.
Proof. unfold job_path, result_path. intros H. cbn in H. discriminate H. Qed.

Lemma cancel_job_other job_id files path :
  path <> status_path job_id -> path <> job_path job_id ->
  cancel_job job_id files !! path = files !! path.
Proof.
  intros Hs Hj. unfold cancel_job.
  set (files' := match files !! job_path job_id with
                 | Some _ => delete (job_path job_id) files
                 | None => files
                 end).
  assert (files' !! path = files !! path) as <-.
  { unfold files'. destruct (files !! job_path job_id); [|reflexivity].
    now apply lookup_delete_ne. }
  destruct (files' !! status_path job_id) as [[ | status_data | ]|]; try reflexivity.
  destruct (py_eq_str _ _); [|reflexivity].
  now apply lookup_insert_ne.
Qed.

(** The loop from index [i] on, run in any environment: it ends
    normally after all its writes have succeeded, or on the first write
    that fails; either way the records it has appended are those of the
    first URLs, in order, and it has touched no file but the status
    file and, through the front end, the descriptor. *)
Lemma url_loop_exec job_id job_data keys start_time env : forall todo i st rs,
  results st = Some rs ->
  exists o st' new,
    url_loop job_id job_data keys start_time i todo env st = (o, st')
    /\ results st' = Some (rs ++ new)
    /\ Forall2 (made_for keys) (take (length new) todo) new
    /\ disk_writes st' = (disk_writes st + length new)%nat
    /\ ((o = Ok tt /\ length new = length todo
         /\ forall k, (k < length todo)%nat -> disk_ok env (disk_writes st + k) = true)
        \/ (o = Raise OSError /\ (1 <= length new <= length todo)%nat
            /\ disk_ok env (disk_writes st + length new - 1) = false
            /\ forall k, (k < length new - 1)%nat ->
                 disk_ok env (disk_writes st + k) = true))
    /\ (forall path, path <> status_path job_id -> path <> job_path job_id ->
          fs st' !! path = fs st !! path)
    /\ ((forall k, cancel_request env k = false) ->
        fs st' !! job_path job_id = fs st !! job_path job_id).
Proof.
  induction todo as [|url rest IH]; intros i st rs Hrs.
  - exists (Ok tt), st, []. cbn. rewrite app_nil_r, Nat.add_0_r.
    repeat split; auto. left. repeat split; auto. intros k Hk. lia.
  - destruct (url_step_exec job_id job_data keys start_time i url env st)
      as (r & ns' & Hmade & Hstep). cbv zeta in Hstep.
    cbn [url_loop].
    destruct (disk_ok env (disk_writes st)) eqn:Hdisk.
    + match type of Hstep with _ = (_, ?s) => set (st1 := s) in Hstep end.
      destruct (IH (S i) st1 (rs ++ [r])) as (o & st' & new & Hrun & Hres & Hall & Hdw
                                              & Hout & Hframe & Hjob).
      { subst st1. cbn. now rewrite Hrs. }
      exists o, st', (r :: new).
      rewrite (bind_Ok _ _ _ _ _ _ Hstep), Hrun.
      split; [reflexivity|].
      split; [now rewrite Hres, <- app_assoc|].
      split; [cbn; constructor; [now exists (free (network env)), (net_state st), ns'|exact Hall]|].
      split; [rewrite Hdw; subst st1; cbn; lia|].
      split.
      * replace (disk_writes st1) with (S (disk_writes st)) in Hout by reflexivity.
        destruct Hout as [(-> & Hlen & Hok)|(-> & Hlen & Hko & Hok)].
        -- left. split; [reflexivity|]. split; [cbn; lia|].
           intros [|k] Hk; [now rewrite Nat.add_0_r|].
           cbn in Hk. rewrite <- Nat.add_succ_comm. apply Hok. lia.
        -- right. split; [reflexivity|]. split; [cbn; lia|]. cbn [length]. split.
           ++ replace (disk_writes st + S (length new) - 1)%nat
                with (S (disk_writes st) + length new - 1)%nat by lia. exact Hko.
           ++ intros [|k] Hk; [now rewrite Nat.add_0_r|].
              rewrite <- Nat.add_succ_comm. apply Hok. lia.
      * split.
        -- intros path Hs Hj. rewrite (Hframe path Hs Hj). subst st1. cbn [fs].
           destruct (cancel_request env (i + 1)%nat);
             rewrite ?cancel_job_other by assumption; now apply lookup_insert_ne.
        -- intros Hquiet. rewrite (Hjob Hquiet). subst st1. cbn [fs].
           rewrite Hquiet. apply lookup_insert_ne, status_path_neq_job.
    + exists (Raise OSError). eexists. exists [r].
      rewrite (bind_Raise _ _ _ _ _ _ Hstep).
      split; [reflexivity|]. cbn [results fs disk_writes length].
      split; [now rewrite Hrs|].
      split; [cbn; constructor; [now exists (free (network env)), (net_state st), ns'|constructor]|].
      split; [lia|].
      split.
      * right. split; [reflexivity|]. split; [cbn; lia|]. split.
        -- now replace (disk_writes st + 1 - 1)%nat with (disk_writes st) by lia.
        -- intros k Hk. lia.
      * split; reflexivity.
Qed.

Lemma job_failed_exec job_id job_data e env st :
  exists o st',
    job_failed job_id job_data e env st = (o, st')
    /\ results st' = results st
    /\ net_state st' = net_state st
    /\ (forall path, path <> status_path job_id -> fs st' !! path = fs st !! path).
Proof.
  unfold job_failed. cbv [bind gets write_file].
  destruct (disk_ok env (disk_writes st)); eexists _, _; (split; [reflexivity|]); cbn.
  - repeat split. intros path Hp. now apply lookup_insert_ne.
  - now repeat split.
Qed.

(** The [try] block, run in any environment: the records and the files
    it leaves. *)
Lemma job_body_exec job_id job_data start_time env st :
  results st = None ->
  exists o st',
    job_body job_id job_data start_time env st = (o, st')
    /\ o <> Cancelled
    /\ Forall2 (made_for (job_keys job_data))
         (take (length (default [] (results st'))) (urls job_data))
         (default [] (results st'))
    /\ (forall path,
          path <> status_path job_id -> path <> job_path job_id ->
          path <> result_path job_id -> fs st' !! path = fs st !! path)
    /\ ((forall k, cancel_request env k = false) ->
        fs st' !! job_path job_id = fs st !! job_path job_id).
Proof.
  intros Hnone. unfold job_body. cbv [bind open_session modify gets].
  destruct (session_ok env).
  2:{ exists (Raise OSError), st. split; [reflexivity|]. rewrite Hnone. cbn.
      repeat split; auto; constructor. }
  destruct (url_loop_exec job_id job_data (job_keys job_data) start_time env
              (urls job_data) 0 (set_results (Some []) st) [] eq_refl)
    as (o & st1 & new & Hrun & Hres & Hall & _ & Hout & Hframe & Hjob).
  rewrite Hrun. cbn [app] in Hres. cbn [set_results fs] in Hframe, Hjob.
  destruct Hout as [(-> & Hlen & _)|(-> & _)].
  2:{ exists (Raise OSError), st1. split; [reflexivity|]. rewrite Hres. cbn.
      repeat split; auto. }
  rewrite Hres. cbn [default from_option id]. unfold write_file at 1.
  destruct (disk_ok env (disk_writes st1)).
  2:{ eexists (Raise OSError), _. split; [reflexivity|]. cbn. rewrite Hres. cbn.
      repeat split; auto. }
  cbn [net_state disk_writes]. unfold write_file.
  cbn [net_state disk_writes fs results journal].
  destruct (disk_ok env (S (disk_writes st1)));
    eexists _, _; (split; [reflexivity|]); cbn; rewrite Hres; cbn;
    (split; [easy|]); (split; [exact Hall|]); split.
  - intros path Hs Hj Hr. rewrite !lookup_insert_ne by congruence. auto.
  - intros Hq. rewrite lookup_insert_ne by apply status_path_neq_job.
    rewrite lookup_insert_ne by (intros H; now apply (job_path_neq_result job_id job_id)).
    auto.
  - intros path Hs Hj Hr. rewrite !lookup_insert_ne by congruence. auto.
  - intros Hq.
    rewrite lookup_insert_ne by (intros H; now apply (job_path_neq_result job_id job_id)).
    auto.
Qed.

(** A whole job, run in any environment: the records and the files it
    leaves. *)
Lemma process_job_exec job_id job_data env st :
  exists o st',
    process_job job_id job_data env st = (o, st')
    /\ o <> Cancelled
    /\ Forall2 (made_for (job_keys job_data))
         (take (length (default [] (results st'))) (urls job_data))
         (default [] (results st'))
    /\ (forall path,
          path <> status_path job_id -> path <> job_path job_id ->
          path <> result_path job_id -> fs st' !! path = fs st !! path)
    /\ ((forall k, cancel_request env k = false) ->
        fs st' !! job_path job_id = fs st !! job_path job_id).
Proof.
  unfold process_job. cbv [bind modify gets write_file try_except].
  cbn [set_results net_state disk_writes fs results journal].
  destruct (disk_ok env (disk_writes st)).
  2:{ eexists _, _. split; [reflexivity|]. cbn. repeat split; auto; constructor. }
  set (st1 := {| net_state := net_state st;
                 fs := <[status_path job_id :=
                           FStatus (claim_status (length (urls job_data)))]> (fs st);
                 disk_writes := S (disk_writes st);
                 results := None;
                 journal := journal st
                            ++ [(Claim, FStatus (claim_status (length (urls job_data))))] |}).
  destruct (job_body_exec job_id job_data (clock (net_state st)) env st1 eq_refl)
    as (o & st2 & Hrun & Hnc & Hall & Hframe & Hjob).
  rewrite Hrun.
  assert (forall path, path <> status_path job_id -> fs st1 !! path = fs st !! path)
    as Hclaim by (intros path Hp; now apply lookup_insert_ne).
  destruct o as [[]|e|]; [| |easy].
  - exists (Ok tt), st2. split; [reflexivity|]. split; [easy|]. split; [exact Hall|].
    split.
    + intros path Hs Hj Hr. rewrite Hframe by assumption. auto.
    + intros Hq. rewrite Hjob by assumption. apply Hclaim.
      intros H. now apply (status_path_neq_job job_id).
  - destruct (job_failed_exec job_id job_data e env st2) as (o' & st3 & Hf & Hr3 & _ & Hfs3).
    rewrite Hf. exists o', st3. split; [reflexivity|].
    split.
    { intros ->. unfold job_failed in Hf. cbv [bind gets write_file] in Hf.
      destruct (disk_ok env (disk_writes st2)); discriminate Hf. }
    rewrite Hr3. split; [exact Hall|]. split.
    + intros path Hs Hj Hr. rewrite Hfs3, Hframe by assumption. auto.
    + intros Hq. rewrite Hfs3 by (intros H; now apply (status_path_neq_job job_id)).
      rewrite Hjob by assumption. apply Hclaim.
      intros H. now apply (status_path_neq_job job_id).
Qed.

Lemma in_progress_cancel job_id files :
  in_progress job_id files -> in_progress job_id (cancel_job job_id files).
Proof.
  intros H. unfold cancel_job.
  set (files' := match files !! job_path job_id with
                 | Some _ => delete (job_path job_id) files
                 | None => files
                 end).
  assert (files' !! status_path job_id = files !! status_path job_id) as E.
  { unfold files'. destruct (files !! job_path job_id); [|reflexivity].
    apply lookup_delete_ne. intros Hp. now apply (status_path_neq_job job_id). }
  assert (in_progress job_id files') as H'.
  { intros d. rewrite E. apply H. }
  destruct (files' !! status_path job_id) as [[ | status_data | ]|]; try exact H'.
  destruct (py_eq_str _ _); [|exact H'].
  intros d. rewrite lookup_insert_eq. intros [= <-].
  rewrite lookup_insert_eq. now right.
Qed.

Lemma in_progress_progress job_id files progress total elapsed :
  in_progress job_id
    (<[status_path job_id := FStatus (progress_status progress total elapsed)]> files).
Proof.
  intros d. rewrite lookup_insert_eq. intros [= <-]. left.
  unfold progress_status. now rewrite !lookup_insert_ne by congruence.
Qed.

Lemma in_progress_claim job_id files total :
  in_progress job_id (<[status_path job_id := FStatus (claim_status total)]> files).
Proof.
  intros d. rewrite lookup_insert_eq. intros [= <-]. left.
  unfold claim_status. now rewrite !lookup_insert_ne by congruence.
Qed.

Lemma url_loop_in_progress job_id job_data keys start_time env : forall todo i st,
  in_progress job_id (fs st) ->
  in_progress job_id (fs (snd (url_loop job_id job_data keys start_time i todo env st))).
Proof.
  induction todo as [|url rest IH]; intros i st Hin; [exact Hin|].
  destruct (url_step_exec job_id job_data keys start_time i url env st)
    as (r & ns' & _ & Hstep). cbv zeta in Hstep.
  cbn [url_loop].
  destruct (disk_ok env (disk_writes st)).
  - rewrite (bind_Ok _ _ _ _ _ _ Hstep). apply IH. cbn [fs].
    destruct (cancel_request env (i + 1)%nat);
      [apply in_progress_cancel|]; apply in_progress_progress.
  - rewrite (bind_Raise _ _ _ _ _ _ Hstep). exact Hin.
Qed.

Lemma cancel_job_status_kept job_id files :
  is_Some (files !! status_path job_id) ->
  is_Some (cancel_job job_id files !! status_path job_id).
Proof.
  intros H. unfold cancel_job.
  set (files' := match files !! job_path job_id with
                 | Some _ => delete (job_path job_id) files
                 | None => files
                 end).
  assert (files' !! status_path job_id = files !! status_path job_id) as E.
  { unfold files'. destruct (files !! job_path job_id); [|reflexivity].
    apply lookup_delete_ne. intros Hp. now apply (status_path_neq_job job_id). }
  rewrite <- E in H.
  destruct (files' !! status_path job_id) as [[ | status_data | ]|] eqn:E';
    [now rewrite E'| |now rewrite E'..].
  destruct (py_eq_str _ _); [|now rewrite E'].
  rewrite lookup_insert_eq. eauto.
Qed.

Lemma url_loop_status_kept job_id job_data keys start_time env : forall todo i st,
  is_Some (fs st !! status_path job_id) ->
  is_Some (fs (snd (url_loop job_id job_data keys start_time i todo env st))
             !! status_path job_id).
Proof.
  induction todo as [|url rest IH]; intros i st Hin; [exact Hin|].
  destruct (url_step_exec job_id job_data keys start_time i url env st)
    as (r & ns' & _ & Hstep). cbv zeta in Hstep.
  cbn [url_loop].
  destruct (disk_ok env (disk_writes st)).
  - rewrite (bind_Ok _ _ _ _ _ _ Hstep). apply IH. cbn [fs].
    destruct (cancel_request env (i + 1)%nat);
      [apply cancel_job_status_kept|]; rewrite lookup_insert_eq; eauto.
  - rewrite (bind_Raise _ _ _ _ _ _ Hstep). exact Hin.
Qed.

(** The [try] block, by cases: it ends normally with the job completed,
    or it raises [OSError] with the status file still in progress,
    because the session could not be set up or because a write failed. *)
Lemma job_body_cases job_id job_data start_time env st :
  results st = None ->
  in_progress job_id (fs st) ->
  is_Some (fs st !! status_path job_id) ->
  exists o st',
    job_body job_id job_data start_time env st = (o, st')
    /\ ((o = Ok tt
         /\ session_ok env = true
         /\ exists rs,
              results st' = Some rs
              /\ length rs = length (urls job_data)
              /\ fs st' !! status_path job_id =
                 Some (FStatus (completed_status job_id (length (urls job_data)) rs
                                  (clock (net_state st') - start_time))))
        \/ (o = Raise OSError
            /\ in_progress job_id (fs st')
            /\ is_Some (fs st' !! status_path job_id)
            /\ ((session_ok env = false /\ st' = st)
                \/ exists k, disk_ok env k = false))).
Proof.
  intros Hnone Hin Hsome. unfold job_body. cbv [bind open_session modify gets].
  destruct (session_ok env) eqn:Hsession.
  2:{ exists (Raise OSError), st. split; [reflexivity|]. right. auto 6. }
  pose proof (url_loop_in_progress job_id job_data (job_keys job_data) start_time env
                (urls job_data) 0 (set_results (Some []) st) Hin) as Hin1.
  pose proof (url_loop_status_kept job_id job_data (job_keys job_data) start_time env
                (urls job_data) 0 (set_results (Some []) st) Hsome) as Hsome1.
  destruct (url_loop_exec job_id job_data (job_keys job_data) start_time env
              (urls job_data) 0 (set_results (Some []) st) [] eq_refl)
    as (o & st1 & new & Hrun & Hres & _ & _ & Hout & _).
  rewrite Hrun in *. cbn [snd] in Hin1, Hsome1. cbn [app] in Hres.
  destruct Hout as [(-> & Hlen & _)|(-> & _ & Hko & _)].
  2:{ exists (Raise OSError), st1. split; [reflexivity|]. right.
      split; [reflexivity|]. split; [exact Hin1|]. split; [exact Hsome1|].
      right. eauto. }
  rewrite Hres. cbn [default from_option id]. unfold write_file at 1.
  destruct (disk_ok env (disk_writes st1)) eqn:Hd1.
  2:{ eexists (Raise OSError), _. split; [reflexivity|]. right. cbn.
      split; [reflexivity|]. split; [exact Hin1|]. split; [exact Hsome1|].
      right. eauto. }
  cbn [net_state disk_writes]. unfold write_file.
  cbn [net_state disk_writes fs results journal].
  destruct (disk_ok env (S (disk_writes st1))) eqn:Hd2.
  - eexists (Ok tt), _. split; [reflexivity|]. left. cbn.
    split; [reflexivity|]. split; [reflexivity|]. exists new.
    split; [exact Hres|]. split; [exact Hlen|]. apply lookup_insert_eq.
  - eexists (Raise OSError), _. split; [reflexivity|]. right. cbn.
    assert (result_path job_id <> status_path job_id) as Hne
      by (intros H; symmetry in H; now apply status_path_neq_result in H).
    split; [reflexivity|]. split; [|split; [|right; eauto]].
    + intros d. rewrite lookup_insert_ne by exact Hne. apply Hin1.
    + now rewrite lookup_insert_ne by exact Hne.
Qed.

Lemma failure_status_fields e done total :
  failure_status e done total !! "status" = Some (JStr "error")
  /\ failure_status e done total !! "progress" = Some (jnat done)
  /\ failure_status e done total !! "total" = Some (jnat total).
Proof. now repeat split. Qed.

(** A whole job, by cases. *)
Lemma process_job_cases job_id job_data env st :
  exists o st',
    process_job job_id job_data env st = (o, st')
    /\ ((o = Raise OSError
         /\ disk_ok env (disk_writes st) = false
         /\ fs st' = fs st /\ net_state st' = net_state st)
        \/ (o = Ok tt
            /\ session_ok env = true
            /\ exists rs,
                 results st' = Some rs
                 /\ length rs = length (urls job_data)
                 /\ fs st' !! status_path job_id =
                    Some (FStatus (completed_status job_id (length (urls job_data)) rs
                                     (clock (net_state st') - clock (net_state st)))))
        \/ (o = Ok tt
            /\ fs st' !! status_path job_id =
               Some (FStatus (failure_status OSError
                                (length (default [] (results st')))
                                (length (urls job_data))))
            /\ ((session_ok env = false /\ net_state st' = net_state st
                 /\ results st' = None)
                \/ exists k, disk_ok env k = false))
        \/ (o = Raise OSError
            /\ in_progress job_id (fs st')
            /\ is_Some (fs st' !! status_path job_id)
            /\ exists k, disk_ok env k = false)).
Proof.
  unfold process_job. cbv [bind modify gets write_file try_except].
  cbn [set_results net_state disk_writes fs results journal].
  destruct (disk_ok env (disk_writes st)) eqn:Hclaim.
  2:{ eexists _, _. split; [reflexivity|]. left. now cbn. }
  set (st1 := {| net_state := net_state st;
                 fs := <[status_path job_id :=
                           FStatus (claim_status (length (urls job_data)))]> (fs st);
                 disk_writes := S (disk_writes st);
                 results := None;
                 journal := journal st
                            ++ [(Claim, FStatus (claim_status (length (urls job_data))))] |}).
  destruct (job_body_cases job_id job_data (clock (net_state st)) env st1 eq_refl)
    as (o & st2 & Hrun & [(-> & Hs & rs & Hrs & Hlen & Hst)|(-> & Hin & Hsome & Hwhy)]).
  { apply in_progress_claim. }
  { unfold st1. cbn [fs]. rewrite lookup_insert_eq. eauto. }
  - rewrite Hrun. exists (Ok tt), st2. split; [reflexivity|]. right; left.
    split; [reflexivity|]. split; [exact Hs|]. exists rs. auto.
  - rewrite Hrun. unfold job_failed. cbv [bind gets write_file].
    assert (match results st2 with
            | Some rs => length rs
            | None => 0%nat
            end = length (default [] (results st2))) as Hdone
      by now destruct (results st2).
    destruct (disk_ok env (disk_writes st2)) eqn:Hfail.
    + eexists (Ok tt), _. split; [reflexivity|]. right; right; left.
      split; [reflexivity|]. cbn [fs results]. split.
      * rewrite lookup_insert_eq, Hdone. reflexivity.
      * destruct Hwhy as [[Hs ->]|Hk]; [left|right; exact Hk]. now cbn.
    + eexists (Raise OSError), _. split; [reflexivity|]. right; right; right.
      split; [reflexivity|]. cbn [fs]. split; [exact Hin|]. split; [exact Hsome|eauto].
Qed.

Lemma record_of_not_error url r :
  record_of url r -> r !! "status_code" <> Some (JStr "Error").
Proof.
  intros [[_ [H|(code & H)]]|[_ H]]; rewrite H; intros E; discriminate E.
Qed.

(** X7.  Whatever the network, the disk and the front end do, the
    records [process_job] has collected are those of the first URLs of
    the job, in the order of the list: each holds the normalized URL
    with the status of the status fetch or "N/A", or the URL as given
    with "Timeout".  None says "Error".  When the session is set up and
    no write fails there is one record per URL. *)
Theorem records_follow_urls (job_id : string) (job_data : JobData) (env : Env)
    (st : JobState) :
  let rs := default [] (results (snd (process_job job_id job_data env st))) in
  Forall2 record_of (take (length rs) (urls job_data)) rs
  /\ List.Forall (fun r : gmap string json => r !! "status_code" <> Some (JStr "Error")) rs
  /\ (session_ok env = true -> (forall k, disk_ok env k = true) ->
      length rs = length (urls job_data)).
Proof.
  intros rs.
  destruct (process_job_exec job_id job_data env st) as (o & st' & Hrun & _ & Hall & _).
  assert (Forall2 record_of (take (length rs) (urls job_data)) rs) as Hrec.
  { subst rs. rewrite Hrun. cbn [snd].
    eapply Forall2_impl; [exact Hall|]. intros url r. apply made_for_record. }
  split; [exact Hrec|]. split.
  - clear -Hrec. induction Hrec as [|url r urls rs' H _ IH]; constructor; [|exact IH].
    eapply record_of_not_error, H.
  - intros Hs Hd. subst rs.
    destruct (cancel_request_ignored job_id job_data env st Hs Hd)
      as (rs' & st'' & Hrun' & Hres & Hlen & _).
    rewrite Hrun'. cbn [snd]. now rewrite Hres.
Qed.

(** X8.  [process_job] works on the files of its own job: every file
    other than the status file, the result file and the descriptor of
    the job is after the call as it was before.  The descriptor itself
    is left alone unless the front end cancels the job meanwhile: the
    worker does not remove it. *)
Theorem process_job_frame (job_id : string) (job_data : JobData) (env : Env)
    (st : JobState) :
  let files := fs (snd (process_job job_id job_data env st)) in
  (forall path,
      path <> status_path job_id -> path <> result_path job_id ->
      path <> job_path job_id -> files !! path = fs st !! path)
  /\ ((forall k, cancel_request env k = false) ->
      files !! job_path job_id = fs st !! job_path job_id).
Proof.
  intros files. subst files.
  destruct (process_job_exec job_id job_data env st) as (o & st' & Hrun & _ & _ & Hf & Hj).
  rewrite Hrun. cbn [snd]. split; [|exact Hj].
  intros path Hs Hr Hd. now apply Hf.
Qed.


(** X10.  When the status file of a job that was queued says "error"
    after [process_job], the call has returned normally, and the
    status file holds, as progress, the number of records collected
    and, as total, the number of URLs of the job. *)
Theorem error_status_counts (job_id : string) (job_data : JobData) (env : Env)
    (st : JobState) (d : gmap string json) :
  fs st !! status_path job_id = None ->
  fs (snd (process_job job_id job_data env st)) !! status_path job_id = Some (FStatus d) ->
  d !! "status" = Some (JStr "error") ->
  fst (process_job job_id job_data env st) = Ok tt
  /\ d !! "progress" =
     Some (jnat (length (default [] (results (snd (process_job job_id job_data env st))))))
  /\ d !! "total" = Some (jnat (length (urls job_data))).
Proof.
  destruct (process_job_cases job_id job_data env st)
    as (o & st' & Hrun
        & [(-> & Hd & Hfs & _)
          |[(-> & Hs & rs & Hrs & Hlen & Hst)
           |[(-> & Hst & Hwhy)|(-> & Hin & _)]]]);
    rewrite Hrun; cbn [fst snd]; intros Hnone Hd' Herr.
  - rewrite Hfs in Hd'. congruence.
  - rewrite Hst in Hd'. injection Hd' as <-.
    rewrite completed_status_status in Herr. discriminate Herr.
  - rewrite Hst in Hd'. injection Hd' as <-. now repeat split.
  - destruct (Hin d Hd') as [H|H]; rewrite H in Herr; discriminate Herr.
Qed.

Lemma error_status_counts_witness :
  fst (process_job "job" five_urls no_session (queued "job" five_urls 0)) = Ok tt
  /\ failure_status OSError 0 5 !! "progress" =
     Some (jnat (length (default []
       (results (snd (process_job "job" five_urls no_session (queued "job" five_urls 0)))))))
  /\ failure_status OSError 0 5 !! "total" = Some (jnat (length (urls five_urls))).
Proof.
  apply (error_status_counts "job" five_urls no_session (queued "job" five_urls 0)
           (failure_status OSError 0 5)).
  - reflexivity.
  - vm_compute. reflexivity.
  - reflexivity.
Defined.

(** X11.  When the write of the progress of one URL fails and every
    other write succeeds, [process_job] returns normally with the job
    in status "error"; the progress it reports counts the URL whose
    progress could not be written, and no result file is written. *)
Theorem progress_write_failure (job_id : string) (job_data : JobData) (env : Env)
    (st : JobState) (j : nat) :
  session_ok env = true ->
  (j < length (urls job_data))%nat ->
  (forall k, disk_ok env k = negb (Nat.eqb k (disk_writes st + 1 + j))) ->
  let run := process_job job_id job_data env st in
  fst run = Ok tt
  /\ status_field job_id "status" (snd run) = Some (JStr "error")
  /\ status_field job_id "progress" (snd run) = Some (jnat (j + 1))
  /\ status_field job_id "total" (snd run) = Some (jnat (length (urls job_data)))
  /\ (exists rs, results (snd run) = Some rs /\ length rs = (j + 1)%nat)
  /\ fs (snd run) !! result_path job_id = fs st !! result_path job_id.
Proof.
  intros Hs Hj Hdisk run. subst run.
  assert (forall k, k <> (disk_writes st + 1 + j)%nat -> disk_ok env k = true) as Hgood.
  { intros k Hk. rewrite Hdisk. now apply negb_true_iff, Nat.eqb_neq. }
  unfold process_job. cbv [bind modify gets write_file try_except].
  cbn [set_results net_state disk_writes fs results journal].
  rewrite (Hgood (disk_writes st)) by lia.
  set (st1 := {| net_state := net_state st;
                 fs := <[status_path job_id :=
                           FStatus (claim_status (length (urls job_data)))]> (fs st);
                 disk_writes := S (disk_writes st);
                 results := None;
                 journal := journal st
                            ++ [(Claim, FStatus (claim_status (length (urls job_data))))] |}).
  unfold job_body. cbv [bind open_session modify gets]. rewrite Hs.
  destruct (url_loop_exec job_id job_data (job_keys job_data) (clock (net_state st)) env
              (urls job_data) 0 (set_results (Some []) st1) [] eq_refl)
    as (o & st2 & new & Hrun & Hres & _ & Hdw & Hout & Hframe & _).
  rewrite Hrun. cbn [app] in Hres. cbn [set_results fs disk_writes st1] in Hdw, Hout, Hframe.
  destruct Hout as [(-> & _ & Hok)|(-> & Hlen & Hko & _)].
  { specialize (Hok j Hj). rewrite Hdisk in Hok.
    replace (S (disk_writes st) + j)%nat with (disk_writes st + 1 + j)%nat in Hok by lia.
    now rewrite Nat.eqb_refl in Hok. }
  assert (length new = (j + 1)%nat) as Hnew.
  { rewrite Hdisk in Hko. apply negb_false_iff, Nat.eqb_eq in Hko. lia. }
  unfold job_failed. cbv [bind gets write_file]. rewrite Hres.
  rewrite (Hgood (disk_writes st2)) by lia.
  cbn [fst snd]. unfold status_field. cbn [fs results].
  rewrite lookup_insert_eq, Hnew.
  split; [reflexivity|]. split; [reflexivity|]. split; [reflexivity|].
  split; [reflexivity|]. split; [now exists new|].
  rewrite lookup_insert_ne by apply status_path_neq_result.
  rewrite Hframe.
  - now apply lookup_insert_ne, status_path_neq_result.
  - intros H. symmetry in H. now apply status_path_neq_result in H.
  - intros H. symmetry in H. now apply job_path_neq_result in H.
Qed.

Lemma progress_write_failure_witness :
  status_field "job" "status"
    (snd (process_job "job" five_urls (one_bad_write 3) (queued "job" five_urls 0)))
  = Some (JStr "error")
  /\ status_field "job" "progress"
       (snd (process_job "job" five_urls (one_bad_write 3) (queued "job" five_urls 0)))
     = Some (jnat 3).
Proof.
  destruct (progress_write_failure "job" five_urls (one_bad_write 3)
              (queued "job" five_urls 0) 2) as (_ & Hstatus & Hprogress & _).
  - reflexivity.
  - cbn. lia.
  - intros k. reflexivity.
  - split; [exact Hstatus|exact Hprogress].
Defined.

(** X12.  A job without URLs completes at once when the session is set
    up and the disk takes every write: no request is sent and the
    clock does not move; the result file holds the header row and no
    other row; the status file says "completed" with every count at 0,
    and the average time per URL is 0, not a division by zero. *)
Theorem empty_job_completes (job_id : string) (job_data : JobData) (env : Env)
    (st : JobState) :
  urls job_data = [] ->
  session_ok env = true ->
  (forall k, disk_ok env k = true) ->
  exists st',
    process_job job_id job_data env st = (Ok tt, st')
    /\ net_state st' = net_state st
    /\ fs st' !! result_path job_id =
       Some (FSheet {| header_row :=
                         export_headers (use_majestic job_data) (use_ahrefs job_data)
                           (use_dataforseo job_data);
                       body_rows := [] |})
    /\ status_field job_id "status" st' = Some (JStr "completed")
    /\ status_field job_id "progress" st' = Some (jnat 0)
    /\ status_field job_id "total" st' = Some (jnat 0)
    /\ status_field job_id "successful" st' = Some (jnat 0)
    /\ status_field job_id "errors" st' = Some (jnat 0)
    /\ status_field job_id "avg_time_per_url" st' = Some (JNum 0).
Proof.
  intros Hurls Hs Hd.
  unfold process_job, job_body.
  cbv [bind modify gets write_file try_except open_session].
  rewrite Hs, Hurls.
  cbn [set_results net_state disk_writes fs results journal url_loop ret length
       default from_option id].
  rewrite !Hd. eexists. split; [reflexivity|].
  unfold status_field. cbn [fs net_state]. rewrite lookup_insert_eq.
  split; [reflexivity|]. split.
  - rewrite lookup_insert_ne by apply status_path_neq_result.
    rewrite lookup_insert_eq. reflexivity.
  - now repeat split.
Qed.

Lemma empty_job_completes_witness :
  exists st',
    process_job "job" no_urls quiet (queued "job" no_urls 0) = (Ok tt, st')
    /\ status_field "job" "status" st' = Some (JStr "completed")
    /\ status_field "job" "avg_time_per_url" st' = Some (JNum 0).
Proof.
  destruct (empty_job_completes "job" no_urls quiet (queued "job" no_urls 0))
    as (st' & Hrun & _ & _ & Hstatus & _ & _ & _ & _ & Havg).
  - reflexivity.
  - reflexivity.
  - intros k. reflexivity.
  - exists st'. split; [exact Hrun|]. split; [exact Hstatus|exact Havg].
Defined.

(** * Properties of the retry decorator *)

Section RetryFacts.
Context {R St A : Type}.
Implicit Types (pause : SM R St unit) (func : SM R St A).

Lemma retry_loop_value pause func : forall n r s a s',
  retry_loop pause func n r s = (Ok (Some a), s') ->
  exists s0, func r s0 = (Ok a, s').
Proof.
  induction n as [|n IH]; intros r s a s' H; [discriminate H|].
  cbn [retry_loop] in H.
  destruct (func r s) as [[a0|e|] s1] eqn:E.
  - injection H as <- <-. eauto.
  - destruct e; try discriminate H.
    destruct n as [|n]; [discriminate H|].
    unfold bind in H. destruct (pause r s1) as [[[]|e|] s2]; try discriminate H.
    eapply IH, H.
  - discriminate H.
Qed.

Lemma retry_loop_not_none pause func : forall n r s s',
  retry_loop pause func (S n) r s <> (Ok None, s').
Proof.
  induction n as [|n IH]; intros r s s' H; cbn [retry_loop] in H.
  - destruct (func r s) as [[a0|e|] s1]; [discriminate H| |discriminate H].
    destruct e; discriminate H.
  - destruct (func r s) as [[a0|e|] s1]; [discriminate H| |discriminate H].
    destruct e; try discriminate H.
    unfold bind in H. destruct (pause r s1) as [[[]|e|] s2]; try discriminate H.
    eapply IH, H.
Qed.

Lemma retry_loop_failed pause func r : forall k s s_k,
  failed_attempts pause func r k s s_k ->
  forall n, (k < n)%nat ->
  retry_loop pause func n r s = retry_loop pause func (n - k) r s_k.
Proof.
  induction 1 as [s|k s s1 s2 s3 Hf Hp _ IH]; intros n Hn.
  - now rewrite Nat.sub_0_r.
  - destruct n as [|n]; [lia|]. cbn [retry_loop]. rewrite Hf.
    destruct n as [|n]; [lia|]. unfold bind. rewrite Hp.
    rewrite (IH (S n)) by lia. reflexivity.
Qed.

End RetryFacts.

(** X13.  What [retry_on_os_error] gives is what the function it wraps
    gives: a value it returns is one the function has returned, in the
    state the function left; when the first call returns, no other is
    made and nothing is paused for.  [None] is returned only when the
    number of attempts is below 1, and then the function is not
    called.  So the decorated exporter returns the spreadsheet of the
    plain one and leaves the state alone. *)
Theorem retry_on_os_error_value :
  (forall (R St A : Type) (max_attempts : Z) (pause : SM R St unit) (func : SM R St A)
          (r : R) (s s' : St) (a : A),
      (retry_on_os_error max_attempts pause func r s = (Ok (Some a), s') ->
       exists s0, func r s0 = (Ok a, s'))
      /\ ((1 <= max_attempts)%Z ->
          retry_on_os_error max_attempts pause func r s <> (Ok None, s'))
      /\ ((1 <= max_attempts)%Z -> func r s = (Ok a, s') ->
          retry_on_os_error max_attempts pause func r s = (Ok (Some a), s'))
      /\ ((max_attempts < 1)%Z ->
          retry_on_os_error max_attempts pause func r s = (Ok None, s)))
  /\ (forall results use_majestic use_ahrefs use_dataforseo env st,
        export_to_ods_retried results use_majestic use_ahrefs use_dataforseo env st
        = (Ok (Some (export_to_ods results use_majestic use_ahrefs use_dataforseo)), st)).
Proof.
  split; [|reflexivity].
  intros R St A max_attempts pause func r s s' a. unfold retry_on_os_error.
  split; [apply retry_loop_value|]. split; [|split].
  - intros Hmax. destruct (Z.to_nat max_attempts) as [|n] eqn:E; [lia|].
    apply retry_loop_not_none.
  - intros Hmax Hf. destruct (Z.to_nat max_attempts) as [|n] eqn:E; [lia|].
    cbn [retry_loop]. now rewrite Hf.
  - intros Hmax. replace (Z.to_nat max_attempts) with 0%nat by lia. reflexivity.
Qed.

(** X14.  After [k] attempts that ended in [OSError], with [k] below the
    number of attempts allowed, [retry_on_os_error] gives what the next
    attempt gives: its value; any exception other than [OSError], at
    once; and [OSError] when that attempt was the last one allowed. *)
Theorem retry_on_os_error_attempts {R St A : Type} (max_attempts : Z)
    (pause : SM R St unit) (func : SM R St A) (r : R) (k : nat) (s s_k : St) :
  failed_attempts pause func r k s s_k ->
  (Z.of_nat k < max_attempts)%Z ->
  (forall a s', func r s_k = (Ok a, s') ->
     retry_on_os_error max_attempts pause func r s = (Ok (Some a), s'))
  /\ (forall e s', func r s_k = (Raise e, s') -> e <> OSError ->
        retry_on_os_error max_attempts pause func r s = (Raise e, s'))
  /\ (forall s', func r s_k = (Raise OSError, s') -> (Z.of_nat k = max_attempts - 1)%Z ->
        retry_on_os_error max_attempts pause func r s = (Raise OSError, s')).
Proof.
  intros Hfailed Hk. unfold retry_on_os_error.
  rewrite (retry_loop_failed pause func r k s s_k Hfailed) by lia.
  destruct (Z.to_nat max_attempts - k)%nat as [|n] eqn:E; [lia|].
  cbn [retry_loop]. split; [|split].
  - intros a s' ->. reflexivity.
  - intros e s' -> He. now destruct e.
  - intros s' -> Hlast. destruct n as [|n]; [reflexivity|lia].
Qed.

Lemma retry_on_os_error_attempts_witness :
  exists st',
    retry_on_os_error 3 (time_sleep 1)
      (write_file SaveResult (result_path "job") (FSheet (export_to_ods [] true true true)))
      flaky_disk (queued "job" no_urls 0) = (Ok (Some tt), st')
    /\ clock (net_state st') = 2%Q
    /\ disk_writes st' = 3%nat.
Proof.
  eexists.
  split; [|split].
  - eapply (retry_on_os_error_attempts 3 (time_sleep 1) _ flaky_disk 2).
    + eapply failed_next; [reflexivity|reflexivity|].
      eapply failed_next; [reflexivity|reflexivity|]. apply failed_none.
    + lia.
    + reflexivity.
  - reflexivity.
  - reflexivity.
Defined.

(** * Properties of the front end *)








Lemma split_nonempty c s : Str.split c s <> [].
Proof.
  destruct s as [|a s]; [easy|]. cbn.
  destruct (Str.split c s); [easy|]. now destruct (Ascii.eqb a c).
Qed.

Lemma split_last_free c s :
  Str.all_chars (fun a => negb (Ascii.eqb a c)) (List.last (Str.split c s) EmptyString)
  = true.
Proof.
  induction s as [|a s IH]; [reflexivity|]. cbn [Str.split].
  destruct (Str.split c s) as [|p ps] eqn:E; [reflexivity|].
  destruct (Ascii.eqb a c) eqn:Ha.
  - exact IH.
  - destruct ps as [|q ps]; [|exact IH].
    cbn in IH |- *. now rewrite Ha, IH.
Qed.

Lemma split_absent c s :
  Str.all_chars (fun a => negb (Ascii.eqb a c)) s = true -> Str.split c s = [s].
Proof.
  induction s as [|a s IH]; [reflexivity|]. cbn.
  intros [Ha Hs]%andb_true_iff. rewrite (IH Hs).
  apply negb_true_iff in Ha. now rewrite Ha.
Qed.

Lemma basename_free p :
  Str.all_chars (fun a => negb (Ascii.eqb a "/")) (basename p) = true.
Proof. apply split_last_free. Qed.

Lemma basename_fixed p :
  Str.all_chars (fun a => negb (Ascii.eqb a "/")) p = true -> basename p = p.
Proof. intros H. unfold basename. now rewrite (split_absent _ _ H). Qed.

Lemma basename_idem p : basename (basename p) = basename p.
Proof. apply basename_fixed, basename_free. Qed.

(** X16.  The identifier the routes work with holds no '/': it is what
    follows the last '/' of the one in the request, and the request's
    own when that holds none.  So each route answers for an identifier
    as it does for its sanitized form, and reads and writes files of
    the two directories only. *)
Theorem job_id_sanitized (job_id : string) (files : gmap string file) :
  Str.all_chars (fun a => negb (Ascii.eqb a "/")) (basename job_id) = true
  /\ (Str.all_chars (fun a => negb (Ascii.eqb a "/")) job_id = true ->
      basename job_id = job_id)
  /\ job_status job_id files = job_status (basename job_id) files
  /\ download_result job_id files = download_result (basename job_id) files
  /\ cancel_job_route job_id files = cancel_job_route (basename job_id) files
  /\ (forall path,
        path <> status_path (basename job_id) -> path <> job_path (basename job_id) ->
        cancel_job_route job_id files !! path = files !! path).
Proof.
  split; [apply basename_free|]. split; [apply basename_fixed|].
  unfold job_status, download_result, cancel_job_route. rewrite basename_idem.
  repeat split. intros path Hs Hj. now apply cancel_job_other.
Qed.

Lemma submit_job_written job_id writable form files id total files' :
  submit_job job_id writable form files = (Submitted id total, files') ->
  exists job_data, files' = <[job_path job_id := FDescriptor job_data]> files.
Proof.
  unfold submit_job.
  repeat match goal with
         | |- context [if ?b then _ else _] => destruct b; try discriminate
         | |- context [match ?l with [] => _ | _ :: _ => _ end] =>
             destruct l; try discriminate
         end.
  all: intros [= _ _ <-]; eauto.
Qed.

Lemma cancel_job_descriptor job_id files :
  cancel_job job_id files !! job_path job_id = None.
Proof.
  unfold cancel_job.
  set (files' := match files !! job_path job_id with
                 | Some _ => delete (job_path job_id) files
                 | None => files
                 end).
  assert (files' !! job_path job_id = None) as E.
  { unfold files'. destruct (files !! job_path job_id) eqn:E; [|exact E].
    apply lookup_delete_eq. }
  destruct (files' !! status_path job_id) as [[ | status_data | ]|]; try exact E.
  destruct (py_eq_str _ _); [|exact E].
  rewrite lookup_insert_ne; [exact E|apply status_path_neq_job].
Qed.

Lemma cancel_job_status job_id files :
  cancel_job job_id files !! status_path job_id =
  match files !! status_path job_id with
  | Some (FStatus d) =>
      Some (FStatus (if py_eq_str (default JNull (d !! "status")) "processing"
                     then <["status" := JStr "cancelled"]> d
                     else d))
  | other => other
  end.
Proof.
  unfold cancel_job.
  set (files' := match files !! job_path job_id with
                 | Some _ => delete (job_path job_id) files
                 | None => files
                 end).
  assert (files' !! status_path job_id = files !! status_path job_id) as E.
  { unfold files'. destruct (files !! job_path job_id); [|reflexivity].
    apply lookup_delete_ne. intros Hp. now apply (status_path_neq_job job_id). }
  rewrite <- E.
  destruct (files' !! status_path job_id) as [[ | d | ]|] eqn:E'; try exact E'.
  destruct (py_eq_str _ _); [apply lookup_insert_eq|exact E'].
Qed.

Lemma cancel_job_idem job_id files :
  cancel_job job_id (cancel_job job_id files) = cancel_job job_id files.
Proof.
  apply map_eq. intros path.
  destruct (decide (path = job_path job_id)) as [->|Hj];
    [now rewrite !cancel_job_descriptor|].
  destruct (decide (path = status_path job_id)) as [->|Hs];
    [|now rewrite cancel_job_other].
  rewrite (cancel_job_status job_id (cancel_job job_id files)).
  rewrite (cancel_job_status job_id files).
  destruct (files !! status_path job_id) as [[ | d | ]|]; try reflexivity.
  destruct (py_eq_str (default JNull (d !! "status")) "processing") eqn:E.
  - now rewrite lookup_insert_eq.
  - now rewrite E.
Qed.

(** X17.  [cancel_job] removes the descriptor of the job, turns a status
    "processing" into "cancelled" and keeps every other field of the
    status file; a status file that says anything else, the result
    file and the files of other jobs are left as they are.  Cancelling
    twice is cancelling once. *)
Theorem cancel_job_effect (job_id : string) (files : gmap string file) :
  cancel_job job_id files !! job_path job_id = None
  /\ cancel_job job_id files !! status_path job_id =
     match files !! status_path job_id with
     | Some (FStatus d) =>
         Some (FStatus (if py_eq_str (default JNull (d !! "status")) "processing"
                        then <["status" := JStr "cancelled"]> d
                        else d))
     | other => other
     end
  /\ (forall path, path <> job_path job_id -> path <> status_path job_id ->
        cancel_job job_id files !! path = files !! path)
  /\ cancel_job job_id files !! result_path job_id = files !! result_path job_id
  /\ cancel_job job_id (cancel_job job_id files) = cancel_job job_id files.
Proof.
  split; [apply cancel_job_descriptor|]. split; [apply cancel_job_status|].
  split; [intros path Hj Hs; now apply cancel_job_other|].
  split; [apply result_cancel|apply cancel_job_idem].
Qed.

(** X18.  A job that [submit_job] has just queued, under an identifier
    without '/' that has no status file, is reported as queued by
    [job_status]; once it is cancelled its descriptor is gone and
    [job_status] answers that the job is not found. *)
Theorem submitted_job_is_queued (job_id : string) (form : job_form)
    (files files' : gmap string file) (total : nat) :
  basename job_id = job_id ->
  files !! status_path job_id = None ->
  submit_job job_id true form files = (Submitted job_id total, files') ->
  job_status job_id files' = StatusQueued
  /\ cancel_job_route job_id files' !! job_path job_id = None
  /\ job_status job_id (cancel_job_route job_id files') = StatusNotFound.
Proof.
  intros Hb Hs [job_data ->]%submit_job_written.
  assert (forall f : gmap string file,
            <[job_path job_id := FDescriptor job_data]> f !! status_path job_id
            = f !! status_path job_id) as Hkeep
    by (intros f; apply lookup_insert_ne; intros H; now apply (status_path_neq_job job_id)).
  unfold job_status, cancel_job_route, exists_in. rewrite Hb.
  split; [now rewrite Hkeep, Hs, lookup_insert_eq|].
  split; [apply cancel_job_descriptor|].
  rewrite cancel_job_status, Hkeep, Hs. now rewrite cancel_job_descriptor.
Qed.

Lemma submitted_job_is_queued_witness :
  job_status "4f0c" {[ job_path "4f0c" := FDescriptor topic_job ]} = StatusQueued
  /\ job_status "4f0c"
       (cancel_job_route "4f0c" {[ job_path "4f0c" := FDescriptor topic_job ]})
     = StatusNotFound.
Proof.
  destruct (submitted_job_is_queued "4f0c" topic_form ∅
              {[ job_path "4f0c" := FDescriptor topic_job ]} 2) as (H1 & _ & H2).
  - reflexivity.
  - reflexivity.
  - reflexivity.
  - split; [exact H1|exact H2].
Defined.

(** X19.  When the session is set up and no write fails, the job that
    [process_job] has run is served by the front end: [job_status]
    answers with the status record, which says "completed" and carries
    the download URL of the job, and [download_result] sends the
    spreadsheet exported from the records, one row per URL, under a
    name made of the first 8 characters of the identifier. *)
Theorem completed_job_is_served (job_id : string) (job_data : JobData) (env : Env)
    (st : JobState) :
  basename job_id = job_id ->
  session_ok env = true ->
  (forall k, disk_ok env k = true) ->
  exists rs st' d,
    process_job job_id job_data env st = (Ok tt, st')
    /\ results st' = Some rs
    /\ job_status job_id (fs st') = StatusData d
    /\ d !! "status" = Some (JStr "completed")
    /\ d !! "download_url" = Some (JStr ("/download_result/" +:+ job_id))
    /\ download_result job_id (fs st') =
       Download
         (FSheet (export_to_ods rs (use_majestic job_data) (use_ahrefs job_data)
                    (use_dataforseo job_data)))
         ("imscraper_results_" +:+ String.substring 0 8 job_id +:+ ".ods")
    /\ length (body_rows (export_to_ods rs (use_majestic job_data) (use_ahrefs job_data)
                            (use_dataforseo job_data))) = length (urls job_data).
Proof.
  intros Hb Hs Hd.
  destruct (cancel_request_ignored job_id job_data env st Hs Hd)
    as (rs & st' & Hrun & Hres & Hlen & Hstatus & _ & Hfile).
  unfold status_field in Hstatus.
  destruct (fs st' !! status_path job_id) as [[ | d0 | ]|] eqn:E; try discriminate Hstatus.
  exists rs, st', (<["download_url" := JStr ("/download_result/" +:+ job_id)]> d0).
  split; [exact Hrun|]. split; [exact Hres|].
  unfold job_status, download_result, exists_in. rewrite Hb, E, Hfile, Hstatus. cbn.
  split; [reflexivity|].
  split; [now rewrite lookup_insert_ne|].
  split; [apply lookup_insert_eq|]. split; [reflexivity|].
  now rewrite length_map.
Qed.

Lemma completed_job_is_served_witness :
  exists rs st' d,
    process_job "4f0c" topic_job quiet (queued "4f0c" topic_job 0) = (Ok tt, st')
    /\ job_status "4f0c" (fs st') = StatusData d
    /\ d !! "status" = Some (JStr "completed")
    /\ download_result "4f0c" (fs st') =
       Download (FSheet (export_to_ods rs true false false)) "imscraper_results_4f0c.ods".
Proof.
  destruct (completed_job_is_served "4f0c" topic_job quiet (queued "4f0c" topic_job 0))
    as (rs & st' & d & Hrun & _ & Hstatus & Hd & _ & Hdown & _).
  - reflexivity.
  - reflexivity.
  - intros k. reflexivity.
  - exists rs, st', d. repeat split; assumption.
Defined.

(** X20.  When every write succeeds but the one that records the
    completion, the result file is on disk and the job is in status
    "error" with all its URLs counted: [job_status] shows the error
    without a download URL and [download_result] refuses the file. *)
Theorem unrecorded_completion_not_served (job_id : string) (job_data : JobData)
    (env : Env) (st : JobState) :
  basename job_id = job_id ->
  session_ok env = true ->
  (forall k,
     disk_ok env k = negb (Nat.eqb k (disk_writes st + length (urls job_data) + 2))) ->
  exists rs st' d,
    process_job job_id job_data env st = (Ok tt, st')
    /\ fs st' !! result_path job_id =
       Some (FSheet (export_to_ods rs (use_majestic job_data) (use_ahrefs job_data)
                       (use_dataforseo job_data)))
    /\ job_status job_id (fs st') = StatusData d
    /\ d !! "status" = Some (JStr "error")
    /\ d !! "progress" = Some (jnat (length (urls job_data)))
    /\ d !! "download_url" = None
    /\ download_result job_id (fs st') = DownloadError 400 "Job is not yet complete".
Proof.
  intros Hb Hs Hdisk.
  assert (forall k, k <> (disk_writes st + length (urls job_data) + 2)%nat ->
                    disk_ok env k = true) as Hgood.
  { intros k Hk. rewrite Hdisk. now apply negb_true_iff, Nat.eqb_neq. }
  unfold process_job. cbv [bind modify gets write_file try_except].
  cbn [set_results net_state disk_writes fs results journal].
  rewrite (Hgood (disk_writes st)) by lia.
  set (st1 := {| net_state := net_state st;
                 fs := <[status_path job_id :=
                           FStatus (claim_status (length (urls job_data)))]> (fs st);
                 disk_writes := S (disk_writes st);
                 results := None;
                 journal := journal st
                            ++ [(Claim, FStatus (claim_status (length (urls job_data))))] |}).
  unfold job_body. cbv [bind open_session modify gets]. rewrite Hs.
  destruct (url_loop_exec job_id job_data (job_keys job_data) (clock (net_state st)) env
              (urls job_data) 0 (set_results (Some []) st1) [] eq_refl)
    as (o & st2 & new & Hrun & Hres & _ & Hdw & Hout & _).
  rewrite Hrun. cbn [app] in Hres. cbn [set_results fs disk_writes st1] in Hdw, Hout.
  destruct Hout as [(-> & Hlen & _)|(-> & Hlen & Hko & _)].
  2:{ rewrite Hgood in Hko by lia. discriminate Hko. }
  rewrite Hres. cbn [default from_option id]. unfold write_file at 1.
  rewrite (Hgood (disk_writes st2)) by lia.
  cbn [net_state disk_writes]. unfold write_file at 1.
  cbn [net_state disk_writes fs results journal].
  rewrite Hdisk.
  replace (S (disk_writes st2)) with (disk_writes st + length (urls job_data) + 2)%nat
    by lia.
  rewrite Nat.eqb_refl. cbn [negb].
  unfold job_failed. cbv [bind gets write_file].
  cbn [net_state disk_writes fs results journal].
  rewrite Hres, (Hgood (S (disk_writes st + length (urls job_data) + 2))) by lia.
  exists new. eexists. eexists. split; [reflexivity|]. cbn [fs].
  assert (result_path job_id <> status_path job_id) as Hne
    by (intros H; symmetry in H; now apply status_path_neq_result in H).
  split; [rewrite lookup_insert_ne by apply status_path_neq_result;
          apply lookup_insert_eq|].
  unfold job_status, download_result, exists_in. rewrite Hb.
  rewrite lookup_insert_eq.
  rewrite (lookup_insert_ne _ (status_path job_id) (result_path job_id))
    by apply status_path_neq_result.
  rewrite lookup_insert_eq. cbn.
  split; [reflexivity|]. rewrite Hlen. now repeat split.
Qed.

Lemma unrecorded_completion_not_served_witness :
  exists st',
    process_job "4f0c" topic_job (one_bad_write 4) (queued "4f0c" topic_job 0)
    = (Ok tt, st')
    /\ download_result "4f0c" (fs st') = DownloadError 400 "Job is not yet complete".
Proof.
  destruct (unrecorded_completion_not_served "4f0c" topic_job (one_bad_write 4)
              (queued "4f0c" topic_job 0))
    as (rs & st' & d & Hrun & _ & _ & _ & _ & _ & Hdown).
  - reflexivity.
  - reflexivity.
  - intros k. reflexivity.
  - exists st'. split; assumption.
Defined.

Lemma append_inj dir a b : dir +:+ a = dir +:+ b -> a = b.
Proof.
  induction dir as [|c dir IH]; [easy|]. cbn. intros [= H]. auto.
Qed.

(** One loop of [cleanup_old_jobs] over a listing without repetition:
    the listed files that are old are removed and counted, the others
    are kept. *)
Lemma remove_old_run dir mtime current_time : forall listing count files,
  NoDup listing ->
  exists count' files',
    remove_old dir mtime current_time listing count files = (count', files')
    /\ (size files' + count' = size files + count)%nat
    /\ (forall path,
          files' !! path =
          if decide (path ∈ String.append dir <$> listing)
          then (if is_old mtime current_time path then None else files !! path)
          else files !! path).
Proof.
  induction listing as [|name rest IH]; intros count files Hnd.
  - exists count, files. split; [reflexivity|]. split; [reflexivity|].
    intros path. cbn. now destruct (decide _) as [H%elem_of_nil|].
  - apply NoDup_cons in Hnd as [Hnotin Hnd]. cbn [remove_old].
    assert (dir +:+ name ∉ String.append dir <$> rest) as Hfresh.
    { intros (name' & E%append_inj & Hin)%list_elem_of_fmap. now subst. }
    assert (forall path (P Q : option file),
              (if decide (path ∈ String.append dir <$> name :: rest) then P else Q)
              = if decide (path = dir +:+ name) then P
                else if decide (path ∈ String.append dir <$> rest) then P else Q)
      as Hsplit.
    { intros path P Q. rewrite fmap_cons.
      destruct (decide (path = dir +:+ name)) as [->|Hne].
      - now rewrite decide_True by (apply elem_of_cons; now left).
      - destruct (decide (path ∈ String.append dir <$> rest)) as [Hin|Hout].
        + now rewrite decide_True by (apply elem_of_cons; now right).
        + rewrite decide_False; [reflexivity|].
          intros [?|?]%elem_of_cons; congruence. }
    unfold exists_in. fold (is_old mtime current_time (dir +:+ name)).
    destruct (files !! (dir +:+ name)) as [content|] eqn:Hfile;
      [destruct (is_old mtime current_time (dir +:+ name)) eqn:Hold|].
    + destruct (IH (S count) (delete (dir +:+ name) files) Hnd)
        as (count' & files' & Hrun & Hsize & Hlook).
      exists count', files'. split; [exact Hrun|]. split.
      * rewrite Hsize, map_size_delete, Hfile.
        assert (size files <> 0%nat) as Hpos
          by (intros Hz%map_size_empty_inv; now rewrite Hz in Hfile).
        cbn. lia.
      * intros path. rewrite Hlook, Hsplit.
        destruct (decide (path = dir +:+ name)) as [->|Hne].
        -- rewrite decide_False by exact Hfresh.
           now rewrite Hold, lookup_delete_eq.
        -- now rewrite lookup_delete_ne by congruence.
    + destruct (IH count files Hnd) as (count' & files' & Hrun & Hsize & Hlook).
      exists count', files'. split; [exact Hrun|]. split; [exact Hsize|].
      intros path. rewrite Hlook, Hsplit.
      destruct (decide (path = dir +:+ name)) as [->|Hne]; [|reflexivity].
      rewrite decide_False by exact Hfresh. now rewrite Hold.
    + destruct (IH count files Hnd) as (count' & files' & Hrun & Hsize & Hlook).
      exists count', files'. split; [exact Hrun|]. split; [exact Hsize|].
      intros path. rewrite Hlook, Hsplit.
      destruct (decide (path = dir +:+ name)) as [->|Hne]; [|reflexivity].
      rewrite decide_False by exact Hfresh. rewrite Hfile.
      now destruct (is_old _ _ _).
Qed.

(** X21.  [cleanup_old_jobs], given listings without repetition,
    removes the listed files of the two directories that were last
    modified more than 7 days ago, whatever they hold (the status file
    of a job that is still processed as well), and reports how many it
    has removed; every other file is left as it is. *)
Theorem cleanup_old_jobs_effect (mtime : string -> Q) (current_time : Q)
    (jobs_listing results_listing : list string) (files : gmap string file) :
  NoDup jobs_listing ->
  NoDup results_listing ->
  exists count files',
    cleanup_old_jobs mtime current_time jobs_listing results_listing files
    = (count, files')
    /\ (size files' + count = size files)%nat
    /\ (forall name, name ∈ jobs_listing ->
          is_old mtime current_time ("jobs/" +:+ name) = true ->
          files' !! ("jobs/" +:+ name) = None)
    /\ (forall name, name ∈ results_listing ->
          is_old mtime current_time ("results/" +:+ name) = true ->
          files' !! ("results/" +:+ name) = None)
    /\ (forall path, is_old mtime current_time path = false ->
          files' !! path = files !! path)
    /\ (forall path,
          path ∉ String.append "jobs/" <$> jobs_listing ->
          path ∉ String.append "results/" <$> results_listing ->
          files' !! path = files !! path)
    /\ (forall path content, files' !! path = Some content ->
          files !! path = Some content).
Proof.
  intros Hj Hr. unfold cleanup_old_jobs.
  destruct (remove_old_run "jobs/" mtime current_time jobs_listing 0 files Hj)
    as (count1 & files1 & Hrun1 & Hsize1 & Hlook1).
  rewrite Hrun1.
  destruct (remove_old_run "results/" mtime current_time results_listing count1 files1 Hr)
    as (count2 & files2 & Hrun2 & Hsize2 & Hlook2).
  exists count2, files2. split; [exact Hrun2|]. split; [lia|].
  assert (forall path,
            files2 !! path =
            if decide (path ∈ String.append "results/" <$> results_listing)
            then (if is_old mtime current_time path then None else files !! path)
            else if decide (path ∈ String.append "jobs/" <$> jobs_listing)
                 then (if is_old mtime current_time path then None else files !! path)
                 else files !! path) as Hlook.
  { intros path. rewrite Hlook2, Hlook1.
    destruct (decide (path ∈ String.append "results/" <$> results_listing));
      [|reflexivity].
    destruct (is_old mtime current_time path); [reflexivity|].
    now destruct (decide _). }
  split; [|split; [|split; [|split]]].
  - intros name Hin Hold. rewrite Hlook, Hold.
    destruct (decide _); [reflexivity|].
    rewrite decide_True; [reflexivity|]. now apply list_elem_of_fmap_2.
  - intros name Hin Hold. rewrite Hlook, Hold.
    rewrite decide_True; [reflexivity|]. now apply list_elem_of_fmap_2.
  - intros path Hyoung. rewrite Hlook, Hyoung. now repeat destruct (decide _).
  - intros path H1 H2. rewrite Hlook. now rewrite !decide_False.
  - intros path content. rewrite Hlook.
    repeat destruct (decide _); destruct (is_old mtime current_time path); easy.
Qed.

Lemma cleanup_old_jobs_effect_witness :
  exists files',
    cleanup_old_jobs ten_days_ago 864000
      ["old.json"; "old.status"; "new.json"; "new.status"] ["old.ods"; "new.ods"]
      two_done_jobs = (3%nat, files')
    /\ files' !! status_path "old" = None
    /\ files' !! status_path "new" = two_done_jobs !! status_path "new".
Proof.
  destruct (cleanup_old_jobs_effect ten_days_ago 864000
              ["old.json"; "old.status"; "new.json"; "new.status"] ["old.ods"; "new.ods"]
              two_done_jobs) as (count & files' & Hrun & _ & Hold & _ & Hyoung & _).
  - apply (bool_decide_unpack _). vm_compute. exact I.
  - apply (bool_decide_unpack _). vm_compute. exact I.
  - exists files'. split.
    + rewrite Hrun. f_equal.
      apply (f_equal fst) in Hrun. vm_compute in Hrun. now subst count.
    + split.
      * apply (Hold "old.status"); [|reflexivity].
        apply (bool_decide_unpack _). vm_compute. exact I.
      * apply Hyoung. reflexivity.
Defined.

(** * Properties of the main loop *)

Lemma append_assoc (a b c : string) : (a +:+ b) +:+ c = a +:+ (b +:+ c).
Proof.
  induction a as [|x a IH]; [reflexivity|].
  change (String x ((a +:+ b) +:+ c) = String x (a +:+ (b +:+ c))). now rewrite IH.
Qed.

Lemma snoc_last a b x y :
  a +:+ String x EmptyString = b +:+ String y EmptyString -> x = y.
Proof.
  revert b. induction a as [|c a IH]; intros [|d b]; cbn; intros H.
  - now injection H.
  - injection H as _ H. now destruct b.
  - injection H as _ H. now destruct a.
  - injection H as _ H. eauto.
Qed.

Lemma endswith_sound suffix : forall s,
  endswith suffix s = true -> exists before, s = before +:+ suffix.
Proof.
  induction s as [|c s IH]; cbn [endswith].
  - destruct (String.eqb EmptyString suffix) eqn:E; [|discriminate].
    apply String.eqb_eq in E as <-. now exists EmptyString.
  - destruct (String.eqb (String c s) suffix) eqn:E.
    + apply String.eqb_eq in E as <-. now exists EmptyString.
    + intros (before & ->)%IH. now exists (String c before).
Qed.

Lemma endswith_append suffix : forall before, endswith suffix (before +:+ suffix) = true.
Proof.
  induction before as [|c before IH].
  - change (endswith suffix suffix = true).
    destruct suffix as [|c s]; [reflexivity|].
    cbn [endswith]. now rewrite String.eqb_refl.
  - change (endswith suffix (String c (before +:+ suffix)) = true).
    cbn [endswith]. rewrite IH. now destruct (String.eqb _ _).
Qed.

Lemma json_not_status name :
  endswith ".json" name = true -> endswith ".status" name = false.
Proof.
  intros (a & ->)%endswith_sound.
  destruct (endswith ".status" (a +:+ ".json")) eqn:E; [|reflexivity].
  apply endswith_sound in E as (b & E).
  change ".json" with (".jso" +:+ "n") in E.
  change ".status" with (".statu" +:+ "s") in E.
  rewrite <- !append_assoc in E. apply snoc_last in E. discriminate E.
Qed.

Lemma status_not_json name :
  endswith ".status" name = true -> endswith ".json" name = false.
Proof.
  intros H. destruct (endswith ".json" name) eqn:E; [|reflexivity].
  apply json_not_status in E. congruence.
Qed.

Lemma split_first_append c s t :
  Str.all_chars (fun a => negb (Ascii.eqb a c)) s = true ->
  Str.split_first c (s +:+ String c t) = s.
Proof.
  induction s as [|a s IH].
  - intros _. change (Str.split_first c (String c t) = EmptyString).
    cbn [Str.split_first]. now rewrite Ascii.eqb_refl.
  - cbn [Str.all_chars]. intros [Ha Hs]%andb_true_iff. apply negb_true_iff in Ha.
    change (Str.split_first c (String a (s +:+ String c t)) = String a s).
    cbn [Str.split_first]. now rewrite Ha, IH.
Qed.

(** The names of the files of a job whose identifier has no dot. *)
Lemma job_id_of_status job_id :
  Str.all_chars (fun a => negb (Ascii.eqb a ".")) job_id = true ->
  Str.split_first "." (job_id +:+ ".status") = job_id.
Proof. apply split_first_append. Qed.

Lemma job_id_of_json job_id :
  Str.all_chars (fun a => negb (Ascii.eqb a ".")) job_id = true ->
  Str.split_first "." (job_id +:+ ".json") = job_id.
Proof. apply split_first_append. Qed.

Lemma jobs_not_results name job_id : "jobs/" +:+ name <> result_path job_id.
Proof. unfold result_path. intros H. cbn in H. discriminate H. Qed.

Lemma jobs_is_job_path name job_id :
  "jobs/" +:+ name = job_path job_id -> name = job_id +:+ ".json".
Proof. unfold job_path. apply append_inj. Qed.

Lemma jobs_is_status_path name job_id :
  "jobs/" +:+ name = status_path job_id -> name = job_id +:+ ".status".
Proof. unfold status_path. apply append_inj. Qed.

Lemma for_each_cons {R S A} (x : A) (rest : list A) (body : A -> SM R S unit) r s s1 :
  body x r s = (Ok tt, s1) ->
  for_each (x :: rest) body r s = for_each rest body r s1.
Proof. intros H. cbn [for_each]. now rewrite (bind_Ok _ _ _ _ _ _ H). Qed.

(** ** The removal of stale status files *)

Lemma existsb_same {A} (f g : A -> bool) l :
  (forall x, f x = g x) -> existsb f l = existsb g l.
Proof. intros H. induction l as [|x l IH]; [reflexivity|]. cbn. now rewrite H, IH. Qed.

Lemma stale_step_run name env st :
  (endswith ".status" name = true -> is_Some (fs st !! ("jobs/" +:+ name))) ->
  stale_step name env st =
  (Ok tt, if stale (fs st) name
          then set_fs (delete ("jobs/" +:+ name) (fs st)) st
          else st).
Proof.
  intros Hfile. unfold stale_step, stale.
  destruct (endswith ".status" name); [|reflexivity].
  destruct (Hfile eq_refl) as [content Hcontent].
  cbv [bind path_exists gets os_remove ret]. cbn [andb].
  destruct (exists_in (fs st) _); cbn [negb]; [reflexivity|].
  now rewrite Hcontent.
Qed.

Lemma exists_in_delete files path path' :
  path <> path' -> exists_in (delete path' files) path = exists_in files path.
Proof. intros H. unfold exists_in. now rewrite lookup_delete_ne. Qed.

(** Removing a status file changes nothing to which status files are
    stale: what is looked for is a descriptor. *)
Lemma stale_delete files name name' :
  endswith ".status" name = true ->
  stale (delete ("jobs/" +:+ name) files) name' = stale files name'.
Proof.
  intros Hname. unfold stale. f_equal. f_equal. apply exists_in_delete.
  intros ->%eq_sym%jobs_is_job_path.
  rewrite json_not_status in Hname; [discriminate|apply endswith_append].
Qed.

Lemma remove_stale_statuses_run env : forall listing st,
  NoDup listing ->
  (forall name, name ∈ listing -> endswith ".status" name = true ->
                is_Some (fs st !! ("jobs/" +:+ name))) ->
  exists st',
    remove_stale_statuses listing env st = (Ok tt, st')
    /\ forall path,
         fs st' !! path =
         if existsb (fun name => stale (fs st) name && String.eqb path ("jobs/" +:+ name))
              listing
         then None else fs st !! path.
Proof.
  unfold remove_stale_statuses.
  induction listing as [|name rest IH]; intros st Hnd Hall.
  - exists st. now split.
  - apply NoDup_cons in Hnd as [Hnotin Hnd].
    pose proof (stale_step_run name env st (Hall name ltac:(apply elem_of_cons; now left)))
      as Hstep.
    rewrite (for_each_cons _ _ _ _ _ _ Hstep).
    set (st1 := if stale (fs st) name
                then set_fs (delete ("jobs/" +:+ name) (fs st)) st else st) in *.
    assert (forall name', name' ∈ rest ->
              fs st1 !! ("jobs/" +:+ name') = fs st !! ("jobs/" +:+ name')) as Hkeep.
    { intros name' Hin. subst st1. destruct (stale (fs st) name); [|reflexivity].
      cbn [fs set_fs]. apply lookup_delete_ne. intros E%append_inj. now subst. }
    assert (forall name', stale (fs st1) name' = stale (fs st) name') as Hstale.
    { intros name'. subst st1. destruct (stale (fs st) name) eqn:E; [|reflexivity].
      cbn [fs set_fs]. apply stale_delete.
      unfold stale in E. now apply andb_true_iff in E as [E _]. }
    destruct (IH st1 Hnd) as (st' & Hrun & Hlook).
    { intros name' Hin Hend. rewrite (Hkeep name' Hin).
      apply Hall; [apply elem_of_cons; now right|exact Hend]. }
    exists st'. split; [exact Hrun|].
    intros path. rewrite Hlook. cbn [existsb].
    rewrite (existsb_same _ (fun name0 =>
               stale (fs st) name0 && String.eqb path ("jobs/" +:+ name0)))
      by (intros name0; now rewrite Hstale).
    destruct (existsb _ rest); [now rewrite orb_true_r|]. rewrite orb_false_r.
    subst st1. destruct (stale (fs st) name); [|reflexivity]. cbn [andb fs set_fs].
    destruct (String.eqb_spec path ("jobs/" +:+ name)) as [->|Hne].
    + apply lookup_delete_eq.
    + now apply lookup_delete_ne.
Qed.

Lemma existsb_at (f : string -> bool) dir name listing :
  name ∈ listing ->
  existsb (fun name0 => f name0 && String.eqb (dir +:+ name) (dir +:+ name0)) listing
  = f name.
Proof.
  intros Hin%list_elem_of_In. apply eq_true_iff_eq. rewrite existsb_exists. split.
  - intros (name0 & _ & [Hf E%String.eqb_eq%append_inj]%andb_true_iff). now subst.
  - intros Hf. exists name. split; [exact Hin|]. now rewrite Hf, String.eqb_refl.
Qed.

Lemma existsb_none {A} (f : A -> bool) listing :
  (forall x, x ∈ listing -> f x = false) -> existsb f listing = false.
Proof.
  intros H. apply not_true_iff_false. rewrite existsb_exists.
  intros (x & Hin%list_elem_of_In & Hf). now rewrite (H x Hin) in Hf.
Qed.

(** X22.  Before its main loop the worker goes through the listing of
    the jobs directory (each name once, each status file listed being
    there) and removes
    the status files whose job has no descriptor; it raises nothing.
    A status file whose descriptor is there is kept whatever it says,
    so a job that a crash has left in status "processing" keeps that
    status.  No other file is touched. *)
Theorem stale_statuses_removed (listing : list string) (env : Env) (st : JobState) :
  NoDup listing ->
  (forall name, name ∈ listing -> endswith ".status" name = true ->
                is_Some (fs st !! ("jobs/" +:+ name))) ->
  exists st',
    remove_stale_statuses listing env st = (Ok tt, st')
    /\ (forall name, name ∈ listing -> endswith ".status" name = true ->
          fs st' !! ("jobs/" +:+ name) =
          if exists_in (fs st) (job_path (Str.split_first "." name))
          then fs st !! ("jobs/" +:+ name) else None)
    /\ (forall job_id, dotless job_id -> job_id +:+ ".status" ∈ listing ->
          fs st' !! status_path job_id =
          if exists_in (fs st) (job_path job_id)
          then fs st !! status_path job_id else None)
    /\ (forall path,
          (forall name, name ∈ listing -> endswith ".status" name = true ->
                        path <> "jobs/" +:+ name) ->
          fs st' !! path = fs st !! path).
Proof.
  intros Hnd Hall.
  destruct (remove_stale_statuses_run env listing st Hnd Hall) as (st' & Hrun & Hlook).
  exists st'. split; [exact Hrun|].
  assert (forall name, name ∈ listing -> endswith ".status" name = true ->
            fs st' !! ("jobs/" +:+ name) =
            if exists_in (fs st) (job_path (Str.split_first "." name))
            then fs st !! ("jobs/" +:+ name) else None) as Hstatus.
  { intros name Hin Hend. rewrite Hlook, (existsb_at (stale (fs st)) "jobs/" name) by exact Hin.
    unfold stale. rewrite Hend. cbn [andb]. now destruct (exists_in _ _). }
  split; [exact Hstatus|]. split.
  - intros job_id Hdot Hin.
    rewrite <- (job_id_of_status job_id Hdot) at 2.
    apply (Hstatus _ Hin), endswith_append.
  - intros path Hpath. rewrite Hlook, existsb_none; [reflexivity|].
    intros name Hin. unfold stale.
    destruct (endswith ".status" name) eqn:Hend; [|reflexivity].
    specialize (Hpath name Hin Hend). apply String.eqb_neq in Hpath.
    rewrite Hpath. apply andb_false_r.
Qed.

(** ** The removal of old jobs *)

Lemma set_fs_same st : set_fs (fs st) st = st.
Proof. now destruct st. Qed.

Lemma remove_if_exists_run path env st :
  remove_if_exists path env st = (Ok tt, set_fs (delete path (fs st)) st).
Proof.
  unfold remove_if_exists. cbv [bind path_exists gets os_remove ret exists_in].
  destruct (fs st !! path) eqn:E; cbn; [now rewrite E|].
  now rewrite delete_id, set_fs_same.
Qed.

Lemma retention_step_run mtime name env st :
  (endswith ".status" name = true -> is_Some (fs st !! ("jobs/" +:+ name))) ->
  retention_step mtime (clock (net_state st)) name env st =
  (Ok tt, if expired mtime (clock (net_state st)) (fs st) name
          then set_fs (purge name (fs st)) st
          else st).
Proof.
  intros Hfile. unfold retention_step, expired.
  destruct (endswith ".status" name); [|reflexivity].
  destruct (Hfile eq_refl) as [content Hcontent].
  cbv [bind getmtime try_except load_status]. rewrite Hcontent. cbn [andb].
  destruct (Qltb 86400 _); [|reflexivity]. cbn [andb]. rewrite Hcontent.
  destruct content as [job_data|status_data|doc]; [reflexivity| |reflexivity].
  destruct (finished (status_data !! "status")); [|reflexivity].
  rewrite !remove_if_exists_run. reflexivity.
Qed.

Lemma purge_lookup name files path :
  purge name files !! path = if of_job name path then None else files !! path.
Proof.
  unfold purge, of_job.
  destruct (String.eqb_spec path ("jobs/" +:+ name)) as [->|H1];
    [apply lookup_delete_eq|].
  rewrite lookup_delete_ne by congruence.
  destruct (String.eqb_spec path (job_path (Str.split_first "." name))) as [->|H2];
    [apply lookup_delete_eq|].
  rewrite lookup_delete_ne by congruence.
  destruct (String.eqb_spec path (result_path (Str.split_first "." name))) as [->|H3];
    [apply lookup_delete_eq|].
  now rewrite lookup_delete_ne by congruence.
Qed.

(** A status file other than [name] is not among the files of the job
    of [name]. *)
Lemma of_job_status name name' :
  endswith ".status" name' = true -> name' <> name ->
  of_job name ("jobs/" +:+ name') = false.
Proof.
  intros Hend Hne. unfold of_job.
  destruct (String.eqb_spec ("jobs/" +:+ name') ("jobs/" +:+ name)) as [E%append_inj|_];
    [congruence|].
  destruct (String.eqb_spec ("jobs/" +:+ name')
              (job_path (Str.split_first "." name))) as [E%jobs_is_job_path|_].
  { rewrite (json_not_status name') in Hend; [discriminate|].
    rewrite E. apply endswith_append. }
  destruct (String.eqb_spec ("jobs/" +:+ name')
              (result_path (Str.split_first "." name))) as [E|_]; [|reflexivity].
  now apply jobs_not_results in E.
Qed.

Lemma expired_purge mtime now files name name' :
  name' <> name ->
  expired mtime now (purge name files) name' = expired mtime now files name'.
Proof.
  intros Hne. unfold expired.
  destruct (endswith ".status" name') eqn:Hend; [|reflexivity].
  now rewrite purge_lookup, of_job_status.
Qed.

Lemma retention_loop_run mtime env : forall listing st,
  NoDup listing ->
  (forall name, name ∈ listing -> endswith ".status" name = true ->
                is_Some (fs st !! ("jobs/" +:+ name))) ->
  exists st',
    for_each listing (retention_step mtime (clock (net_state st))) env st = (Ok tt, st')
    /\ forall path,
         fs st' !! path =
         if existsb (fun name =>
                       expired mtime (clock (net_state st)) (fs st) name
                       && of_job name path) listing
         then None else fs st !! path.
Proof.
  induction listing as [|name rest IH]; intros st Hnd Hall.
  - exists st. now split.
  - apply NoDup_cons in Hnd as [Hnotin Hnd].
    pose proof (retention_step_run mtime name env st
                  (Hall name ltac:(apply elem_of_cons; now left))) as Hstep.
    rewrite (for_each_cons _ _ _ _ _ _ Hstep).
    set (now := clock (net_state st)) in *.
    set (st1 := if expired mtime now (fs st) name
                then set_fs (purge name (fs st)) st else st) in *.
    assert (clock (net_state st1) = now) as Hclock
      by (subst st1; now destruct (expired mtime now (fs st) name)).
    assert (forall path,
              fs st1 !! path =
              if expired mtime now (fs st) name && of_job name path
              then None else fs st !! path) as Hfs1.
    { intros path. subst st1. destruct (expired mtime now (fs st) name); [|reflexivity].
      cbn [fs set_fs andb]. apply purge_lookup. }
    assert (forall name', name' ∈ rest ->
              expired mtime now (fs st1) name' = expired mtime now (fs st) name')
      as Hexp.
    { intros name' Hin. subst st1. destruct (expired mtime now (fs st) name); [|reflexivity].
      cbn [fs set_fs]. apply expired_purge. intros ->. contradiction. }
    destruct (IH st1 Hnd) as (st' & Hrun & Hlook).
    { intros name' Hin Hend. rewrite Hfs1.
      rewrite of_job_status; [|exact Hend|intros ->; contradiction].
      rewrite andb_false_r. apply Hall; [apply elem_of_cons; now right|exact Hend]. }
    rewrite Hclock in Hrun, Hlook.
    exists st'. split; [exact Hrun|].
    intros path. rewrite Hlook, Hfs1. cbn [existsb].
    assert (existsb (fun name0 => expired mtime now (fs st1) name0 && of_job name0 path) rest
            = existsb (fun name0 => expired mtime now (fs st) name0 && of_job name0 path) rest)
      as ->.
    { clear -Hexp. induction rest as [|x rest IH]; [reflexivity|]. cbn.
      rewrite Hexp by (apply elem_of_cons; now left).
      rewrite IH; [reflexivity|]. intros name' Hin. apply Hexp, elem_of_cons. now right. }
    destruct (existsb _ rest); [now rewrite orb_true_r|]. now rewrite orb_false_r.
Qed.

Lemma of_job_own name :
  of_job name ("jobs/" +:+ name) = true
  /\ of_job name (job_path (Str.split_first "." name)) = true
  /\ of_job name (result_path (Str.split_first "." name)) = true.
Proof.
  unfold of_job. rewrite !String.eqb_refl. now rewrite !orb_true_r.
Qed.

(** X23.  In a turn of its main loop the worker goes through the
    listing of the jobs directory (each name once, each status file
    listed being there) and raises nothing.  For every status file
    last modified more than 24 hours ago that says "completed",
    "error" or "cancelled" it removes the status file and the
    descriptor and the result file of the job; every other status
    file is kept, that of a job still in status "processing" however
    old it is; a file that belongs to no job removed is left as it
    is. *)
Theorem finished_jobs_removed (mtime : string -> Q) (listing : list string) (env : Env)
    (st : JobState) :
  NoDup listing ->
  (forall name, name ∈ listing -> endswith ".status" name = true ->
                is_Some (fs st !! ("jobs/" +:+ name))) ->
  exists st',
    remove_finished_jobs mtime listing env st = (Ok tt, st')
    /\ (forall name, name ∈ listing ->
          expired mtime (clock (net_state st)) (fs st) name = true ->
          fs st' !! ("jobs/" +:+ name) = None
          /\ fs st' !! job_path (Str.split_first "." name) = None
          /\ fs st' !! result_path (Str.split_first "." name) = None)
    /\ (forall name, name ∈ listing -> endswith ".status" name = true ->
          expired mtime (clock (net_state st)) (fs st) name = false ->
          fs st' !! ("jobs/" +:+ name) = fs st !! ("jobs/" +:+ name))
    /\ (forall job_id d, job_id +:+ ".status" ∈ listing ->
          fs st !! status_path job_id = Some (FStatus d) ->
          finished (d !! "status") = false ->
          fs st' !! status_path job_id = Some (FStatus d))
    /\ (forall path,
          (forall name, name ∈ listing ->
             expired mtime (clock (net_state st)) (fs st) name = true ->
             of_job name path = false) ->
          fs st' !! path = fs st !! path).
Proof.
  intros Hnd Hall.
  destruct (retention_loop_run mtime env listing st Hnd Hall) as (st' & Hrun & Hlook).
  exists st'. split.
  { unfold remove_finished_jobs. cbv [bind gets]. exact Hrun. }
  assert (forall name, name ∈ listing -> endswith ".status" name = true ->
            expired mtime (clock (net_state st)) (fs st) name = false ->
            fs st' !! ("jobs/" +:+ name) = fs st !! ("jobs/" +:+ name)) as Hkept.
  { intros name Hin Hend Hexp. rewrite Hlook, existsb_none; [reflexivity|].
    intros name0 Hin0. destruct (decide (name0 = name)) as [->|Hne].
    - now rewrite Hexp.
    - rewrite of_job_status by congruence. apply andb_false_r. }
  split; [|split; [exact Hkept|split]].
  - intros name Hin Hexp.
    assert (forall path, of_job name path = true -> fs st' !! path = None) as Hgone.
    { intros path Hof. rewrite Hlook.
      assert (existsb (fun name0 =>
                expired mtime (clock (net_state st)) (fs st) name0 && of_job name0 path)
                listing = true) as ->; [|reflexivity].
      apply existsb_exists. exists name.
      split; [now apply list_elem_of_In|now rewrite Hexp, Hof]. }
    destruct (of_job_own name) as (H1 & H2 & H3). auto.
  - intros job_id d Hin Hfile Hfin.
    rewrite <- Hfile. apply (Hkept (job_id +:+ ".status") Hin); [apply endswith_append|].
    unfold expired. change ("jobs/" +:+ job_id +:+ ".status") with (status_path job_id).
    rewrite Hfile, Hfin. apply andb_false_r.
  - intros path Hpath. rewrite Hlook, existsb_none; [reflexivity|].
    intros name Hin.
    destruct (expired mtime (clock (net_state st)) (fs st) name) eqn:Hexp; [|reflexivity].
    now rewrite (Hpath name Hin Hexp).
Qed.

(** ** The scan for new jobs *)

Lemma status_path_not_job job_id job_id' : status_path job_id <> job_path job_id'.
Proof.
  intros E%jobs_is_job_path.
  assert (endswith ".status" (job_id +:+ ".status") = true) as H
    by apply endswith_append.
  rewrite (json_not_status (job_id +:+ ".status")) in H; [discriminate|].
  rewrite E. apply endswith_append.
Qed.

Lemma status_path_not_result job_id job_id' : status_path job_id <> result_path job_id'.
Proof. apply jobs_not_results. Qed.

Lemma scanned_refl files : scanned files files.
Proof. split; auto. Qed.

Lemma scanned_trans files1 files2 files3 :
  scanned files1 files2 -> scanned files2 files3 -> scanned files1 files3.
Proof.
  intros [Hs1 Hd1] [Hs2 Hd2]. split.
  - intros job_id H. rewrite Hs2, Hs1; [reflexivity|exact H|]. now rewrite Hs1.
  - intros name jd Hend Hfile.
    destruct (Hd1 name jd Hend Hfile) as [H|H]; [now apply Hd2|].
    right. now rewrite Hs2.
Qed.

(** What [process_job] does to the files, as the scan sees it. *)
Lemma process_job_scanned job_id job_data env st :
  dotless job_id ->
  fs st !! status_path job_id = None ->
  exists o st',
    process_job job_id job_data env st = (o, st')
    /\ o <> Cancelled
    /\ scanned (fs st) (fs st')
    /\ ((forall k, disk_ok env k = true) -> is_Some (fs st' !! status_path job_id)).
Proof.
  intros Hdot Hnone.
  destruct (process_job_exec job_id job_data env st)
    as (o & st' & Hrun & Hnc & _ & Hframe & _).
  exists o, st'. split; [exact Hrun|]. split; [exact Hnc|].
  assert (fs st' = fs st \/ is_Some (fs st' !! status_path job_id)) as Hclaim.
  { destruct (process_job_cases job_id job_data env st)
      as (o' & st'' & Hrun'
          & [(_ & _ & Hfs & _)
            |[(_ & _ & rs & _ & _ & Hst)|[(_ & Hst & _)|(_ & _ & Hsome & _)]]]);
      rewrite Hrun in Hrun'; injection Hrun' as <- <-; eauto. }
  split; [split|].
  - intros job_id' Hsome. apply Hframe.
    + intros E. rewrite E, Hnone in Hsome. now destruct Hsome.
    + apply status_path_not_job.
    + apply status_path_not_result.
  - intros name jd Hend Hfile.
    destruct Hclaim as [->|Hsome]; [now left|].
    destruct (decide ("jobs/" +:+ name = job_path job_id)) as [E%jobs_is_job_path|Hne].
    + right. subst name. now rewrite (job_id_of_json job_id Hdot).
    + left. rewrite Hframe; [exact Hfile| |exact Hne|apply jobs_not_results].
      intros E%jobs_is_status_path.
      assert (endswith ".status" name = true) as H
        by (rewrite E; apply endswith_append).
      rewrite (json_not_status name Hend) in H. discriminate H.
  - intros Hdisk.
    destruct (process_job_cases job_id job_data env st)
      as (o' & st'' & Hrun'
          & [(_ & Hd & _)
            |[(_ & _ & rs & _ & _ & Hst)|[(_ & Hst & _)|(_ & _ & Hsome & _)]]]);
      rewrite Hrun in Hrun'; injection Hrun' as <- <-; eauto.
    now rewrite Hdisk in Hd.
Qed.

Lemma scan_step_run name env st :
  exists st',
    scan_step name env st = (Ok tt, st')
    /\ scanned (fs st) (fs st')
    /\ ((endswith ".json" name = true ->
         is_Some (fs st !! status_path (Str.split_first "." name))) -> st' = st)
    /\ ((forall k, disk_ok env k = true) ->
        endswith ".json" name = true ->
        (exists job_data, fs st !! ("jobs/" +:+ name) = Some (FDescriptor job_data))
        \/ is_Some (fs st !! status_path (Str.split_first "." name)) ->
        is_Some (fs st' !! status_path (Str.split_first "." name))).
Proof.
  unfold scan_step.
  destruct (endswith ".json" name) eqn:Hend.
  2:{ exists st. split; [reflexivity|]. split; [apply scanned_refl|].
      split; [reflexivity|]. intros _ H. discriminate H. }
  set (job_id := Str.split_first "." name).
  cbv [bind path_exists gets exists_in].
  destruct (fs st !! status_path job_id) as [content|] eqn:Hstatus.
  { exists st. split; [reflexivity|]. split; [apply scanned_refl|].
    split; [reflexivity|]. intros _ _ _. eauto. }
  cbv [try_except load_job].
  destruct (fs st !! ("jobs/" +:+ name)) as [[job_data|d|doc]|] eqn:Hfile.
  2,3,4: exists st; (split; [reflexivity|]); (split; [apply scanned_refl|]);
         (split; [reflexivity|]); intros _ _ [[jd H]|[c H]]; discriminate H.
  destruct (process_job_scanned job_id job_data env st) as (o & st' & Hrun & Hnc & Hsc & Hok).
  { apply split_first_free. }
  { exact Hstatus. }
  rewrite Hrun. exists st'.
  split; [destruct o as [[]|e|]; [reflexivity|reflexivity|easy]|].
  split; [exact Hsc|]. split.
  - intros H. destruct (H eq_refl) as [c Hc]. discriminate Hc.
  - intros Hdisk _ _. now apply Hok.
Qed.

Lemma scan_jobs_run env : forall listing st,
  exists st',
    scan_jobs listing env st = (Ok tt, st')
    /\ scanned (fs st) (fs st')
    /\ ((forall name, name ∈ listing -> endswith ".json" name = true ->
           is_Some (fs st !! status_path (Str.split_first "." name))) -> st' = st)
    /\ ((forall k, disk_ok env k = true) ->
        forall name, name ∈ listing -> endswith ".json" name = true ->
        (exists job_data, fs st !! ("jobs/" +:+ name) = Some (FDescriptor job_data))
        \/ is_Some (fs st !! status_path (Str.split_first "." name)) ->
        is_Some (fs st' !! status_path (Str.split_first "." name))).
Proof.
  unfold scan_jobs.
  induction listing as [|name rest IH]; intros st.
  - exists st. split; [reflexivity|]. split; [apply scanned_refl|].
    split; [reflexivity|]. intros _ name Hin. now apply elem_of_nil in Hin.
  - destruct (scan_step_run name env st) as (st1 & Hstep & Hsc1 & Hskip1 & Hok1).
    destruct (IH st1) as (st' & Hrun & Hsc & Hskip & Hok).
    exists st'. rewrite (for_each_cons _ _ _ _ _ _ Hstep).
    split; [exact Hrun|]. split; [eapply scanned_trans; eassumption|]. split.
    + intros Hall.
      assert (st1 = st) as ->
        by (apply Hskip1; intros Hend; apply Hall; [apply elem_of_cons; now left|exact Hend]).
      apply Hskip. intros name' Hin. apply Hall, elem_of_cons. now right.
    + intros Hdisk name' Hin Hend Hhas.
      assert (forall job_id, is_Some (fs st1 !! status_path job_id) ->
                is_Some (fs st' !! status_path job_id)) as Hmono
        by (intros job_id H; destruct Hsc as [Hs _]; now rewrite Hs).
      assert ((exists job_data, fs st1 !! ("jobs/" +:+ name') = Some (FDescriptor job_data))
              \/ is_Some (fs st1 !! status_path (Str.split_first "." name'))) as Hhas1.
      { destruct Hhas as [[jd Hjd]|Hsome].
        - destruct Hsc1 as [_ Hd]. destruct (Hd name' jd Hend Hjd); eauto.
        - right. destruct Hsc1 as [Hs _]. now rewrite Hs. }
      apply elem_of_cons in Hin as [->|Hin].
      * apply Hmono. apply Hok1; assumption.
      * destruct Hhas1 as [H|H]; [|now apply Hmono]. apply Hok; auto.
Qed.

(** X24.  A scan for new jobs raises nothing.  It skips every job that
    has a status file and never rewrites a status file that was there
    when it began, so a job that was claimed before (one that a crash
    has left in status "processing" as well) is not run again; when
    every job listed has a status file the scan changes nothing at
    all.  On a disk that takes every write, every descriptor listed
    has the status file of its job when the scan ends. *)
Theorem scan_claims_once (listing : list string) (env : Env) (st : JobState) :
  exists st',
    scan_jobs listing env st = (Ok tt, st')
    /\ (forall job_id, is_Some (fs st !! status_path job_id) ->
          fs st' !! status_path job_id = fs st !! status_path job_id)
    /\ ((forall name, name ∈ listing -> endswith ".json" name = true ->
           is_Some (fs st !! status_path (Str.split_first "." name))) -> st' = st)
    /\ ((forall k, disk_ok env k = true) ->
        forall name job_data, name ∈ listing -> endswith ".json" name = true ->
        fs st !! ("jobs/" +:+ name) = Some (FDescriptor job_data) ->
        is_Some (fs st' !! status_path (Str.split_first "." name))).
Proof.
  destruct (scan_jobs_run env listing st) as (st' & Hrun & [Hs _] & Hskip & Hok).
  exists st'. split; [exact Hrun|]. split; [exact Hs|]. split; [exact Hskip|].
  intros Hdisk name jd Hin Hend Hfile. apply Hok; eauto.
Qed.

Lemma stale_statuses_removed_witness :
  exists st',
    remove_stale_statuses ["a.json"; "a.status"; "b.status"] quiet after_crash
    = (Ok tt, st')
    /\ fs st' !! status_path "b" = None
    /\ fs st' !! status_path "a" = fs after_crash !! status_path "a".
Proof.
  destruct (stale_statuses_removed ["a.json"; "a.status"; "b.status"] quiet after_crash)
    as (st' & Hrun & _ & Hstatus & _).
  - apply (bool_decide_unpack _). vm_compute. exact I.
  - intros name Hin _.
    apply elem_of_cons in Hin as [->|Hin]; [vm_compute; eauto|].
    apply elem_of_cons in Hin as [->|Hin]; [vm_compute; eauto|].
    apply elem_of_cons in Hin as [->|Hin]; [vm_compute; eauto|].
    now apply elem_of_nil in Hin.
  - exists st'. split; [exact Hrun|]. split.
    + apply (Hstatus "b"); [reflexivity|]. apply (bool_decide_unpack _). vm_compute. exact I.
    + apply (Hstatus "a"); [reflexivity|]. apply (bool_decide_unpack _). vm_compute. exact I.
Defined.

Lemma finished_jobs_removed_witness :
  exists st',
    remove_finished_jobs ten_days_ago
      ["old.json"; "old.status"; "new.json"; "new.status"] quiet day_ten = (Ok tt, st')
    /\ fs st' !! job_path "old" = None
    /\ fs st' !! status_path "new" = fs day_ten !! status_path "new".
Proof.
  destruct (finished_jobs_removed ten_days_ago
              ["old.json"; "old.status"; "new.json"; "new.status"] quiet day_ten)
    as (st' & Hrun & Hgone & Hkept & _).
  - apply (bool_decide_unpack _). vm_compute. exact I.
  - intros name Hin _.
    apply elem_of_cons in Hin as [->|Hin]; [vm_compute; eauto|].
    apply elem_of_cons in Hin as [->|Hin]; [vm_compute; eauto|].
    apply elem_of_cons in Hin as [->|Hin]; [vm_compute; eauto|].
    apply elem_of_cons in Hin as [->|Hin]; [vm_compute; eauto|].
    now apply elem_of_nil in Hin.
  - exists st'. split; [exact Hrun|]. split.
    + apply (Hgone "old.status"); [|reflexivity].
      apply (bool_decide_unpack _). vm_compute. exact I.
    + apply (Hkept "new.status"); [|reflexivity|reflexivity].
      apply (bool_decide_unpack _). vm_compute. exact I.
Defined.

(** * Properties of the exporter *)

Ltac header_of_field :=
  lazymatch goal with
  | |- exists header, _ /\ key_map !! header = Some "url" => exists "URL"
  | |- exists header, _ /\ key_map !! header = Some "status_code" =>
      exists "Status Code"
  | |- exists header, _ /\ key_map !! header = Some "secure" => exists "HTTPS"
  | |- exists header, _ /\ key_map !! header = Some "majestic_topics" =>
      exists "Majestic Topics"
  | |- exists header, _ /\ key_map !! header = Some "ahrefs_dr" =>
      exists "Ahrefs Domain Rating"
  | |- exists header, _ /\ key_map !! header = Some "ahrefs_refdomains" =>
      exists "Ahrefs Referring Domains"
  | |- exists header, _ /\ key_map !! header = Some "ahrefs_traffic" =>
      exists "Ahrefs Traffic"
  | |- exists header, _ /\ key_map !! header = Some "dataforseo_referring_domains" =>
      exists "DataForSEO Referring Domains"
  | |- exists header, _ /\ key_map !! header = Some "dataforseo_traffic" =>
      exists "DataForSEO Traffic"
  | |- exists header, _ /\ key_map !! header = Some "dataforseo_rank" =>
      exists "DataForSEO Rank"
  end.

(** X25.  The spreadsheet has one row per record, in order, and every
    row has as many cells as the header row, which starts with "URL"
    and has 3 columns and 1, 3 and 3 more for the sources that are on.
    Every field of a record of these sources has its column, and for
    such a record every cell is the value the record holds in the
    field of the column: nothing is filled in. *)
Theorem export_columns (results : list (gmap string json))
    (majestic ahrefs dataforseo : bool) :
  let doc := export_to_ods results majestic ahrefs dataforseo in
  length (body_rows doc) = length results
  /\ List.Forall (fun row => length row = length (header_row doc)) (body_rows doc)
  /\ length (header_row doc) =
     (3 + (if majestic then 1 else 0) + (if ahrefs then 3 else 0)
      + (if dataforseo then 3 else 0))%nat
  /\ head (header_row doc) = Some "URL"
  /\ (forall field, field ∈ source_fields majestic ahrefs dataforseo ->
        exists header, header ∈ header_row doc /\ key_map !! header = Some field)
  /\ Forall2
       (fun (r : gmap string json) row =>
          dom r = source_fields majestic ahrefs dataforseo ->
          Forall2 (fun header cell =>
                     exists field, key_map !! header = Some field
                                   /\ r !! field = Some cell)
            (header_row doc) row)
       results (body_rows doc).
Proof.
  intros doc. subst doc. unfold export_to_ods. cbn [body_rows header_row].
  split; [apply length_map|]. split.
  { apply List.Forall_forall. intros row (r & <- & _)%in_map_iff. apply length_map. }
  split; [now destruct majestic, ahrefs, dataforseo|].
  split; [reflexivity|]. split.
  { intros field Hin. unfold source_fields in Hin.
    destruct majestic, ahrefs, dataforseo;
      repeat (apply elem_of_union in Hin as [Hin|Hin]);
      try (apply elem_of_singleton in Hin as ->);
      try (now apply elem_of_empty in Hin);
      header_of_field; (split; [cbn; set_solver|reflexivity]). }
  induction results as [|r rs IH]; [constructor|]. cbn [map]. constructor; [|exact IH].
  intros Hdom.
  assert (forall field, field ∈ source_fields majestic ahrefs dataforseo ->
            exists v, r !! field = Some v) as Hhas
    by (intros field Hin; rewrite <- Hdom in Hin; now apply elem_of_dom in Hin).
  unfold source_fields in Hhas.
  destruct majestic, ahrefs, dataforseo; cbn [export_headers app map];
    repeat (constructor;
            [match goal with
             | |- exists field, key_map !! ?h = Some field /\ _ =>
                 let k := eval vm_compute in (default EmptyString (key_map !! h)) in
                 destruct (Hhas k) as [v Hv]; [set_solver|];
                 exists k; split; [reflexivity|];
                 change (default EmptyString (key_map !! h)) with k; now rewrite Hv
             end|]);
    constructor.
Qed.

(** * What the sources are asked about *)

Lemma lower_scheme d : Str.lower ("http://" +:+ d) = "http://" +:+ Str.lower d.
Proof. reflexivity. Qed.

Lemma split_first_of_colon s :
  Str.all_chars not_sep s = true ->
  Str.split_first_of
    (fun c => Ascii.eqb c "/" || Ascii.eqb c "?" || Ascii.eqb c ":") s
  = Str.split_first ":" s.
Proof.
  induction s as [|a s IH]; [reflexivity|]. cbn.
  intros [Ha Hs]%andb_true_iff. rewrite (IH Hs).
  unfold not_sep in Ha.
  destruct (Ascii.eqb a "/"), (Ascii.eqb a "?"); try discriminate Ha. reflexivity.
Qed.

Lemma not_sep_slash s :
  Str.all_chars not_sep s = true ->
  Str.all_chars (fun a => negb (Ascii.eqb a "/")) s = true.
Proof.
  apply all_chars_impl. intros c. unfold not_sep.
  destruct (Ascii.eqb c "/"); [discriminate|reflexivity].
Qed.

(** X26.  What is asked about a URL, given as [process_url] passes it on
    (normalized, [http://] and a domain): the HTTPS probe goes to
    [https://] and the domain; the topic source is asked about the
    domain without trailing white space and without one leading
    [www.]; DataForSEO is asked about the domain without white space
    around it, up to its first ':'. *)
Theorem source_targets (url : string) :
  let d := cut (Str.lower (Str.rstrip (re_sub_scheme url))) in
  normalize_url url = "http://" +:+ d
  /\ to_https (normalize_url url) = "https://" +:+ d
  /\ majestic_domain (normalize_url url) =
     match Str.strip_prefix "www." (Str.rstrip d) with
     | Some rest => rest
     | None => Str.rstrip d
     end
  /\ dataforseo_domain (normalize_url url) = Str.split_first ":" (Str.strip d).
Proof.
  intros d. destruct (normalize_url_domain url) as [Hlow Hsep]. fold d in Hlow, Hsep.
  rewrite (normalize_url_closed url). fold d.
  split; [reflexivity|]. split; [reflexivity|]. split.
  - unfold majestic_domain, Str.strip.
    change (Str.lstrip ("http://" +:+ d)) with ("http://" +:+ d).
    rewrite rstrip_scheme, lower_scheme.
    rewrite (lower_fixed (Str.rstrip d)) by now apply all_chars_rstrip.
    unfold re_sub_scheme_www.
    change (re_sub_scheme ("http://" +:+ Str.rstrip d)) with (Str.rstrip d).
    assert (Str.all_chars (fun a => negb (Ascii.eqb a "/")) (Str.rstrip d) = true) as Hfree
      by now apply all_chars_rstrip, not_sep_slash.
    destruct (Str.strip_prefix "www." (Str.rstrip d)) as [rest|] eqn:E.
    + apply split_first_absent. eapply all_chars_strip_prefix; eassumption.
    + now apply split_first_absent.
  - unfold dataforseo_domain.
    change (re_sub_scheme_ci ("http://" +:+ d)) with d.
    assert (Str.all_chars not_sep (Str.strip d) = true) as Hs
      by now apply all_chars_rstrip, all_chars_lstrip.
    rewrite (split_first_of_colon _ Hs).
    apply lower_fixed, all_chars_split_first, all_chars_rstrip, all_chars_lstrip, Hlow.
Qed.

(** * The host names DataForSEO is asked about *)

Lemma all_chars_split P c s :
  P c = true -> List.Forall (fun piece => Str.all_chars P piece = true) (Str.split c s) ->
  Str.all_chars P s = true.
Proof.
  intros Hc. induction s as [|a s IH]; [reflexivity|]. cbn.
  destruct (Str.split c s) as [|p ps] eqn:E.
  { now destruct (split_nonempty c s). }
  destruct (Ascii.eqb_spec a c) as [->|Hne]; intros H.
  - apply List.Forall_cons_iff in H as [_ H]. now rewrite Hc, IH.
  - apply List.Forall_cons_iff in H as [Hp H]. cbn in Hp.
    apply andb_true_iff in Hp as [Ha Hp]. rewrite Ha. apply IH.
    now constructor.
Qed.

Lemma label_ok_chars label :
  label_ok label = true -> Str.all_chars host_char label = true.
Proof.
  unfold label_ok. intros H. apply (all_chars_split host_char "-"); [reflexivity|].
  apply List.Forall_forall. intros piece Hin.
  rewrite forallb_forall in H. apply H in Hin. apply andb_true_iff in Hin as [_ Hin].
  eapply all_chars_impl; [|exact Hin]. intros c Hc. unfold host_char. now rewrite Hc.
Qed.

Lemma tld_ok_chars tld :
  tld_ok tld = true -> Str.all_chars host_char tld = true.
Proof.
  unfold tld_ok. intros [_ H]%andb_true_iff.
  eapply all_chars_impl; [|exact H]. intros c Hc. unfold host_char, is_lower_alnum.
  unfold is_lower_alpha in Hc. cbv zeta in Hc |- *. now rewrite Hc.
Qed.

(** X27.  A host name that passes the check of [get_dataforseo_data]
    is made, up to one final newline, of lower-case letters, digits,
    '-' and '.' only; it has at least two labels, and its last label
    has at least two characters, all of them letters.  So a name
    without a dot and a dotted IPv4 address do not pass. *)
Theorem hostname_ok_sound (s : string) :
  hostname_ok s = true ->
  Str.all_chars host_char (chomp s) = true
  /\ (2 <= length (Str.split "." (chomp s)))%nat
  /\ (2 <= String.length (List.last (Str.split "." (chomp s)) EmptyString))%nat
  /\ Str.all_chars is_lower_alpha (List.last (Str.split "." (chomp s)) EmptyString) = true.
Proof.
  unfold hostname_ok.
  destruct (rev (Str.split "." (chomp s))) as [|tld [|label labels]] eqn:E;
    try discriminate.
  intros [Htld Hlabels]%andb_true_iff.
  assert (Str.split "." (chomp s) = rev labels ++ [label; tld]) as Hsplit.
  { rewrite <- (rev_involutive (Str.split "." (chomp s))), E. cbn.
    now rewrite <- app_assoc. }
  assert (List.last (Str.split "." (chomp s)) EmptyString = tld) as Hlast.
  { rewrite Hsplit. change [label; tld] with ([label] ++ [tld]).
    rewrite app_assoc. apply last_last. }
  rewrite Hlast. split; [|split; [|split]].
  - apply (all_chars_split host_char "."); [reflexivity|]. rewrite Hsplit.
    rewrite forallb_forall in Hlabels.
    apply List.Forall_app. split.
    + apply List.Forall_forall. intros piece Hin. apply label_ok_chars, Hlabels.
      right. now apply in_rev.
    + constructor; [apply label_ok_chars, Hlabels; now left|].
      constructor; [now apply tld_ok_chars|constructor].
  - rewrite Hsplit, length_app. cbn. lia.
  - unfold tld_ok in Htld.
    apply andb_true_iff in Htld as [Hlen _]. now apply Nat.leb_le in Hlen.
  - unfold tld_ok in Htld.
    now apply andb_true_iff in Htld as [_ Hal].
Qed.

Lemma hostname_ok_sound_witness :
  Str.all_chars host_char (chomp "shop.example.com") = true
  /\ (2 <= length (Str.split "." (chomp "shop.example.com")))%nat
  /\ (2 <= String.length
            (List.last (Str.split "." (chomp "shop.example.com")) EmptyString))%nat
  /\ Str.all_chars is_lower_alpha
       (List.last (Str.split "." (chomp "shop.example.com")) EmptyString) = true.
Proof. apply (hostname_ok_sound "shop.example.com"). reflexivity. Defined.
